(** * Isentropic nozzle sizing and cross-verification: a shallow embedding

    The development embeds the numerical core of two scripts,

    - [design/scripts/thruster_performance_sizing.py] (DES-001, module [DES001]),
    - [verification/scripts/VER-001_independent_simulation.py] (VER-001,
      module [VER001]),

    and establishes the properties their specification states.

    Modelling conventions.

    - A Python [float] (and a [numpy.float64]) is a real number of [R]; the
      arithmetic is exact, rounding, overflow, [inf] and [nan] are outside the
      model.
    - Division of two Python floats raises [ZeroDivisionError] on a zero
      divisor and is the checked [pydiv]; a division whose operand is a
      [numpy.float64] (anything downstream of [np.sqrt]) never raises and is
      the plain [/] of [R].
    - [x ** y] with a float exponent is [Rpower] on a positive base, see
      [pypow]; [x ** 2] is the square [x ^ 2].
    - [np.sqrt] is [sqrt]; on a negative argument numpy yields [nan], which
      is outside the model.
    - [scipy.optimize.brentq] is a library routine outside the repository: it
      is a parameter of the development, characterised by its bracket
      contract.
    - Where a property is about the very digits the interpreter computes,
      the gas model is embedded a second time over binary64 floats (modules
      [DES001_binary64] and [VER001_binary64]). *)

From Stdlib Require Import PrimFloat.
From Stdlib Require Import Reals Ranalysis5 Lra Lia List String.
From Stdlib Require Import ClassicalEpsilon.
Import ListNotations.

Open Scope R_scope.

(** A decimal literal of type [float] denotes the nearest binary64 value, as
    it does for the interpreter. *)
Set Warnings "-inexact-float".

(** * Exceptions and the result monad *)

Inductive pyerror : Type :=
| ZeroDivisionError   (* float division by zero, 0.0 ** negative *)
| ValueError          (* brentq: f(a) and f(b) must have different signs *)
| RuntimeError        (* brentq: failed to converge *)
| KeyError            (* missing dictionary key *)
| ComplexValue.       (* not an exception: a power that leaves the reals *)

Inductive result (A : Type) : Type :=
| Ok (a : A)
| Raise (e : pyerror).

Arguments Ok {A} a.
Arguments Raise {A} e.

Definition bind {A B : Type} (m : result A) (k : A -> result B) : result B :=
  match m with
  | Ok a => k a
  | Raise e => Raise e
  end.

Notation "x <- m ;; k" := (bind m (fun x => k))
  (at level 61, m at next level, right associativity).
Notation "' p <- m ;; k" := (bind m (fun p => k))
  (at level 61, p pattern, m at next level, right associativity).

Definition raises {A : Type} (m : result A) : Prop :=
  exists e, m = Raise e.

Definition returns {A : Type} (m : result A) : Prop :=
  exists a, m = Ok a.

(** Python float division [x / y]. *)
Definition pydiv (x y : R) : result R :=
  if Req_dec_T y 0 then Raise ZeroDivisionError else Ok (x / y).

(** Python float power [x ** y] for a float exponent [y].  A zero base
    raises on a negative exponent; a negative base has a real power only for
    an integral exponent, and otherwise Python continues with a complex
    number, which this real-valued model marks as [ComplexValue]. *)
Definition pypow (x y : R) : result R :=
  if Rlt_dec 0 x then Ok (Rpower x y)
  else if Req_dec_T x 0 then
    if Rlt_dec y 0 then Raise ZeroDivisionError
    else if Req_dec_T y 0 then Ok 1 else Ok 0
  else
    match excluded_middle_informative (exists n : Z, y = IZR n) with
    | left H =>
        Ok (powerRZ x (proj1_sig (constructive_indefinite_description _ H)))
    | right _ => Raise ComplexValue
    end.

(** Relative error of [x] against the reference [ref]. *)
Definition rel_err (x ref : R) : R := Rabs (x - ref) / Rabs ref.

(** * The bracketed root finder

    [scipy.optimize.brentq f a b] evaluates [f] at both ends of the bracket,
    raises [ValueError] when the two values have the same strict sign, and
    otherwise returns a point of the bracket.  An exception raised by [f]
    propagates. *)

Definition root_finder : Type := (R -> result R) -> R -> R -> result R.

(** The sign test at the ends of the bracket. *)
Definition brentq_sign_contract (brentq : root_finder) : Prop :=
  forall f a b fa fb,
    f a = Ok fa -> f b = Ok fb -> 0 < fa * fb ->
    brentq f a b = Raise ValueError.

(** A returned value lies in the bracket. *)
Definition brentq_bracket_contract (brentq : root_finder) : Prop :=
  forall f a b r, brentq f a b = Ok r -> a <= r <= b.

(** Exact-arithmetic reading of the convergence tolerance: a returned value
    is a zero of [f]. *)
Definition brentq_root_contract (brentq : root_finder) : Prop :=
  forall f a b r, brentq f a b = Ok r -> f r = Ok 0.

(** * numpy.linspace

    [np.linspace(start, stop, num)]: [num] evenly spaced samples,
    [arange(0, num) * step + start] with [step = (stop - start) / (num - 1)],
    the last one then set to [stop]. *)
Definition linspace (start stop : R) (num : nat) : list R :=
  let step := (stop - start) / INR (num - 1) in
  let y := map (fun i => INR i * step + start) (seq 0 num) in
  if (1 <? num)%nat then removelast y ++ [stop] else y.

(** * DES-001: thruster performance sizing *)

Module DES001.

(** ** Constants and assumptions *)

Definition G0 : R := 9.80665.
Definition R_UNIVERSAL : R := 8314.46.

Definition M_NH3 : R := 17.031.
Definition M_N2 : R := 28.014.
Definition M_H2 : R := 2.016.

(** The design constants of the script, gathered in one record so that the
    analysis can be stated at every design point. *)
Record DesignConstants : Type := {
  alpha : R;                    (* ALPHA *)
  gamma : R;                    (* GAMMA *)
  chamber_temperature_K : R;    (* T_CHAMBER *)
  chamber_pressure_MPa : R;     (* DESIGN_CHAMBER_PRESSURE *)
  expansion_ratio : R;          (* DESIGN_EXPANSION_RATIO *)
  nozzle_half_angle_deg : R;    (* NOZZLE_HALF_ANGLE *)
  nozzle_efficiency : R;        (* NOZZLE_EFFICIENCY *)
  target_thrust : R             (* TARGET_THRUST *)
}.

Definition ALPHA : R := 0.5.
Definition GAMMA : R := 1.28.
Definition T_CHAMBER : R := 1400.0.
Definition CHAMBER_PRESSURE_RATIO : R := 0.7.
Definition NOZZLE_HALF_ANGLE : R := 15.0.
Definition NOZZLE_EFFICIENCY : R := 0.035.
Definition TARGET_THRUST : R := 1.0.
Definition TARGET_ISP_MIN : R := 220.0.
Definition FEED_PRESSURE_MIN : R := 0.15.
Definition FEED_PRESSURE_MAX : R := 0.30.
Definition DESIGN_FEED_PRESSURE : R := 0.30.
Definition DESIGN_CHAMBER_PRESSURE : R :=
  DESIGN_FEED_PRESSURE * CHAMBER_PRESSURE_RATIO.
Definition DESIGN_EXPANSION_RATIO : R := 100.0.

(** The constants compiled into the script. *)
Definition DESIGN : DesignConstants := {|
  alpha := ALPHA;
  gamma := GAMMA;
  chamber_temperature_K := T_CHAMBER;
  chamber_pressure_MPa := DESIGN_CHAMBER_PRESSURE;
  expansion_ratio := DESIGN_EXPANSION_RATIO;
  nozzle_half_angle_deg := NOZZLE_HALF_ANGLE;
  nozzle_efficiency := NOZZLE_EFFICIENCY;
  target_thrust := TARGET_THRUST
|}.

(** ** Analysis *)

(** [compute_gas_properties(alpha)]: returns [(M_bar, R_specific)]. *)
Definition compute_gas_properties (alpha : R) : result (R * R) :=
  let n_NH3 := (4 / 3) * (1 - alpha) in
  let n_N2 := (1 / 3) + (2 / 3) * alpha in
  let n_H2 := 2 * alpha in
  let n_total := (4 / 3) + (2 / 3) * alpha in
  M_bar_g <- pydiv (M_NH3 * n_NH3 + M_N2 * n_N2 + M_H2 * n_H2) n_total ;;
  let M_bar := M_bar_g / 1000.0 in
  R_specific <- pydiv R_UNIVERSAL M_bar ;;
  Ok (M_bar, R_specific).

(** [compute_c_star(gamma, R_specific, T_c)]. *)
Definition compute_c_star (gamma R_specific T_c : R) : result R :=
  exponent <- pydiv (gamma + 1) (gamma - 1) ;;
  base <- pydiv 2 (gamma + 1) ;;
  term <- pypow base (exponent / 2) ;;
  Ok (sqrt (gamma * R_specific * T_c) / (gamma * term)).

(** The residual [area_ratio_eq(Me)] nested in [exit_mach_from_area_ratio]. *)
Definition area_ratio_eq (area_ratio gamma Me : R) : result R :=
  exponent <- pydiv (gamma + 1) (2 * (gamma - 1)) ;;
  c <- pydiv 2 (gamma + 1) ;;
  let term := c * (1 + (gamma - 1) / 2 * Me ^ 2) in
  inv_Me <- pydiv 1 Me ;;
  p <- pypow term exponent ;;
  Ok (inv_Me * p - area_ratio).

(** [exit_mach_from_area_ratio(area_ratio, gamma)]. *)
Definition exit_mach_from_area_ratio (brentq : root_finder)
    (area_ratio gamma : R) : result R :=
  brentq (area_ratio_eq area_ratio gamma) 1.01 10.0.

(** [compute_isentropic_expansion(M_e, P_c, gamma, R_specific, T_c)]:
    returns [(P_e, T_e, V_e)]. *)
Definition compute_isentropic_expansion (M_e P_c gamma R_specific T_c : R)
    : result (R * R * R) :=
  let temp_factor := 1 + (gamma - 1) / 2 * M_e ^ 2 in
  e <- pydiv (- gamma) (gamma - 1) ;;
  p <- pypow temp_factor e ;;
  let P_e := P_c * p in
  T_e <- pydiv T_c temp_factor ;;
  let V_e := M_e * sqrt (gamma * R_specific * T_e) in
  Ok (P_e, T_e, V_e).

(** The [computed_results] block of the output record. *)
Record computed_results : Type := {
  thrust_N : R;
  specific_impulse_s : R;
  mass_flow_rate_kg_s : R;
  throat_area_m2 : R;
  throat_diameter_m : R;
  throat_diameter_mm : R;
  exit_area_m2 : R;
  exit_diameter_m : R;
  exit_diameter_mm : R;
  nozzle_length_m : R;
  nozzle_length_mm : R;
  exit_Mach_number : R;
  exit_velocity_m_s : R;
  exit_pressure_Pa : R;
  exit_temperature_K : R;
  Pe_Ae_term_N : R;
  characteristic_velocity_m_s : R;
  mean_molecular_weight_g_mol : R;
  specific_gas_constant_J_kg_K : R
}.

(** Steps 1 to 8 of [main], at the design constants [k]. *)
Definition size_thruster (brentq : root_finder) (k : DesignConstants)
    : result computed_results :=
  (* Step 1 *)
  '(M_bar, R_specific) <- compute_gas_properties (alpha k) ;;
  (* Step 2 *)
  c_star <- compute_c_star (gamma k) R_specific (chamber_temperature_K k) ;;
  (* Step 3 *)
  let P_c := chamber_pressure_MPa k * 1e6 in
  M_e <- exit_mach_from_area_ratio brentq (expansion_ratio k) (gamma k) ;;
  '(P_e, T_e, V_e) <-
    compute_isentropic_expansion M_e P_c (gamma k) R_specific
      (chamber_temperature_K k) ;;
  let V_e_actual := V_e * nozzle_efficiency k in
  (* Step 4 *)
  let At :=
    target_thrust k / (P_c * V_e_actual / c_star + P_e * expansion_ratio k) in
  let Dt := 2 * sqrt (At / PI) in
  (* Step 5 *)
  let mdot_required := P_c * At / c_star in
  (* Step 6 *)
  let Ae := expansion_ratio k * At in
  let De := 2 * sqrt (Ae / PI) in
  (* Step 7 *)
  let half_angle_rad := nozzle_half_angle_deg k * PI / 180 in
  let L_nozzle := (De / 2 - Dt / 2) / tan half_angle_rad in
  (* Step 8 *)
  let Pe_Ae_term := P_e * Ae in
  let thrust_actual := mdot_required * V_e_actual + Pe_Ae_term in
  let Isp := thrust_actual / (mdot_required * G0) in
  Ok {| thrust_N := thrust_actual;
        specific_impulse_s := Isp;
        mass_flow_rate_kg_s := mdot_required;
        throat_area_m2 := At;
        throat_diameter_m := Dt;
        throat_diameter_mm := Dt * 1000;
        exit_area_m2 := Ae;
        exit_diameter_m := De;
        exit_diameter_mm := De * 1000;
        nozzle_length_m := L_nozzle;
        nozzle_length_mm := L_nozzle * 1000;
        exit_Mach_number := M_e;
        exit_velocity_m_s := V_e_actual;
        exit_pressure_Pa := P_e;
        exit_temperature_K := T_e;
        Pe_Ae_term_N := Pe_Ae_term;
        characteristic_velocity_m_s := c_star;
        mean_molecular_weight_g_mol := M_bar * 1000;
        specific_gas_constant_J_kg_K := R_specific |}.

(** ** Requirements compliance *)

Inductive status : Type := PASS | FAIL.

(** An entry of the [requirements] dictionary.  The ["type"] tag selects the
    branch of the loop; the [threshold_max] of a ["minimum"] entry is
    [float('inf')] and is never read. *)
Inductive requirement : Type :=
| Range (threshold_min threshold_max computed : R)
| Minimum (threshold_min computed : R).

(** Python's [min(a, b)]: the first argument unless the second is smaller. *)
Definition pymin (a b : R) : R := if Rlt_dec b a then b else a.

(** Body of the compliance loop: the margin stored in [margins[req_id]] and
    the status. *)
Definition evaluate_requirement (req : requirement) : R * status :=
  match req with
  | Range threshold_min threshold_max computed =>
      let lower_margin := (computed - threshold_min) / threshold_min * 100 in
      let upper_margin := (threshold_max - computed) / threshold_max * 100 in
      let min_margin := pymin lower_margin upper_margin in
      let in_range :=
        if Rle_dec threshold_min computed
        then if Rle_dec computed threshold_max then true else false
        else false in
      (min_margin, if in_range then PASS else FAIL)
  | Minimum threshold_min computed =>
      let margin := (computed - threshold_min) / threshold_min * 100 in
      (margin, if Rge_dec computed threshold_min then PASS else FAIL)
  end.

(** The [margins] dictionary: string keys, in insertion order. *)
Fixpoint dict_set (key : string) (v : R) (d : list (string * R))
    : list (string * R) :=
  match d with
  | [] => [(key, v)]
  | (k, w) :: rest =>
      if String.eqb k key then (k, v) :: rest else (k, w) :: dict_set key v rest
  end.

Fixpoint dict_get (key : string) (d : list (string * R)) : result R :=
  match d with
  | [] => Raise KeyError
  | (k, w) :: rest => if String.eqb k key then Ok w else dict_get key rest
  end.

(** The loop over [requirements.items()]: it updates [all_pass] and
    [margins]. *)
Definition check_requirements (reqs : list (string * requirement))
    : bool * list (string * R) :=
  fold_left
    (fun (state : bool * list (string * R)) (item : string * requirement) =>
       let '(all_pass, margins) := state in
       let '(req_id, req) := item in
       let '(margin, st) := evaluate_requirement req in
       (match st with PASS => all_pass | FAIL => false end,
        dict_set req_id margin margins))
    reqs (true, []).

(** The [requirements] dictionary built by [main]. *)
Definition requirements (thrust_actual Isp : R) : list (string * requirement) :=
  [ ("REQ-001"%string, Range 0.95 1.05 thrust_actual);
    ("REQ-002"%string, Minimum 220.0 Isp) ].

(** An entry of [requirements_compliance] in the output record. *)
Record compliance_record : Type := {
  computed : R;
  margin_percent : R;
  compliance_status : status
}.

(** The compliance check of [main]: [all_pass], the value [main] returns,
    and the two entries of [requirements_compliance] in the output record. *)
Definition requirements_compliance (res : computed_results)
    : result (bool * compliance_record * compliance_record) :=
  let thrust_actual := thrust_N res in
  let Isp := specific_impulse_s res in
  let '(all_pass, margins) :=
    check_requirements (requirements thrust_actual Isp) in
  m1 <- dict_get "REQ-001" margins ;;
  m2 <- dict_get "REQ-002" margins ;;
  Ok (all_pass,
      {| computed := thrust_actual;
         margin_percent := m1;
         compliance_status :=
           if Rle_dec 0.95 thrust_actual
           then if Rle_dec thrust_actual 1.05 then PASS else FAIL
           else FAIL |},
      {| computed := Isp;
         margin_percent := m2;
         compliance_status := if Rge_dec Isp 220.0 then PASS else FAIL |}).

(** The [output] dictionary written by [main]. *)
Record output : Type := {
  parameters : DesignConstants;
  out_computed_results : computed_results;
  out_REQ_001 : compliance_record;
  out_REQ_002 : compliance_record
}.

(** The margin warning at the end of [main]: the requirements whose margin
    is below 10. *)
Definition margin_warnings (margins : list (string * R)) : list string :=
  map fst
    (filter (fun item : string * R =>
               if Rlt_dec (snd item) 10 then true else false) margins).

(** The loop of [generate_performance_plot] over [Pc_range].  The loop
    variable is the parameter [Pc_MPa] of the function, so the state carries
    it beside the two lists. *)
Fixpoint performance_sweep (M_e R_specific c_star EXPANSION_RATIO : R)
    (Pc_range : list R) (thrust_sweep Isp_sweep : list R) (Pc_MPa : R)
    : result (list R * list R * R) :=
  match Pc_range with
  | [] => Ok (thrust_sweep, Isp_sweep, Pc_MPa)
  | Pc_MPa :: rest =>
      let P_c := Pc_MPa * 1e6 in
      '(P_e, T_e, V_e) <-
        compute_isentropic_expansion M_e P_c 1.28 R_specific 1400.0 ;;
      let V_e_actual := V_e * 0.035 in
      let At := 1.0 / (P_c * V_e_actual / c_star + P_e * EXPANSION_RATIO) in
      let mdot := P_c * At / c_star in
      let Ae := EXPANSION_RATIO * At in
      let thrust := mdot * V_e_actual + P_e * Ae in
      let Isp := thrust / (mdot * G0) in
      performance_sweep M_e R_specific c_star EXPANSION_RATIO rest
        (thrust_sweep ++ [thrust]) (Isp_sweep ++ [Isp]) Pc_MPa
  end.

(** What [generate_performance_plot] draws: the two curves over [Pc_range],
    the abscissa of the vertical "Design Pc" line and of the design point,
    and the ordinates of the design point on the two axes. *)
Record plot_data : Type := {
  plot_Pc_range : list R;
  plot_thrust_sweep : list R;
  plot_Isp_sweep : list R;
  plot_design_Pc_MPa : R;
  plot_design_thrust_N : R;
  plot_design_Isp_s : R
}.

(** [generate_performance_plot(Pc_MPa, thrust_N, Isp_s, expansion_ratio)];
    the design constants are the local ones of the function. *)
Definition generate_performance_plot (brentq : root_finder)
    (Pc_MPa thrust_N Isp_s expansion_ratio : R) : result plot_data :=
  let Pc_range := linspace 0.07 0.25 100 in
  let EXPANSION_RATIO := expansion_ratio in
  '(M_bar, R_specific) <- compute_gas_properties 0.5 ;;
  c_star <- compute_c_star 1.28 R_specific 1400.0 ;;
  M_e <- exit_mach_from_area_ratio brentq EXPANSION_RATIO 1.28 ;;
  '(thrust_sweep, Isp_sweep, Pc_MPa) <-
    performance_sweep M_e R_specific c_star EXPANSION_RATIO Pc_range [] []
      Pc_MPa ;;
  Ok {| plot_Pc_range := Pc_range;
        plot_thrust_sweep := thrust_sweep;
        plot_Isp_sweep := Isp_sweep;
        plot_design_Pc_MPa := Pc_MPa;
        plot_design_thrust_N := thrust_N;
        plot_design_Isp_s := Isp_s |}.

(** [main()] at the design constants [k]: the [output] dictionary it writes
    and the [all_pass] it returns.  The last statement before the [return]
    is the call of [generate_performance_plot], which solves for the exit
    Mach number once more, with its own specific-heat ratio; an exception
    raised there leaves [main] after the output record has been written.
    Printing and the files are left out. *)
Definition main (brentq : root_finder) (k : DesignConstants)
    : result (output * bool) :=
  res <- size_thruster brentq k ;;
  let thrust_actual := thrust_N res in
  let Isp := specific_impulse_s res in
  '(all_pass, r1, r2) <- requirements_compliance res ;;
  let output := {| parameters := k;
                   out_computed_results := res;
                   out_REQ_001 := r1;
                   out_REQ_002 := r2 |} in
  _ <- generate_performance_plot brentq (chamber_pressure_MPa k) thrust_actual
         Isp (expansion_ratio k) ;;
  Ok (output, all_pass).

End DES001.

(** * VER-001: independent verification of thrust and specific impulse *)

Module VER001.

(** ** Physical constants *)

Definition g0 : R := 9.80665.
Definition R_universal : R := 8314.46.

Definition M_NH3 : R := 17.031.
Definition M_N2 : R := 28.014.
Definition M_H2 : R := 2.016.

(** ** Design input parameters *)

Record design_inputs : Type := {
  feed_pressure_nominal_MPa : R;
  chamber_pressure_ratio : R;
  expansion_ratio : R;
  nozzle_half_angle_deg : R;
  alpha_ammonia_dissociation : R;
  chamber_temperature_K : R;
  nozzle_efficiency : R
}.

Definition DESIGN_INPUTS : design_inputs := {|
  feed_pressure_nominal_MPa := 0.30;
  chamber_pressure_ratio := 0.70;
  expansion_ratio := 100.0;
  nozzle_half_angle_deg := 15.0;
  alpha_ammonia_dissociation := 0.5;
  chamber_temperature_K := 1400.0;
  nozzle_efficiency := 0.035
|}.

(** ** Physics model: hydrazine decomposition *)

(** [compute_mean_molecular_weight(alpha)], in g/mol. *)
Definition compute_mean_molecular_weight (alpha : R) : result R :=
  let moles_NH3 := (4.0 / 3.0) * (1.0 - alpha) in
  let moles_N2 := (1.0 / 3.0) + (2.0 / 3.0) * alpha in
  let moles_H2 := 2.0 * alpha in
  let total_moles := (4.0 / 3.0) + (2.0 / 3.0) * alpha in
  pydiv (M_NH3 * moles_NH3 + M_N2 * moles_N2 + M_H2 * moles_H2) total_moles.

(** [compute_specific_heat_ratio(alpha)]. *)
Definition compute_specific_heat_ratio (alpha : R) : R :=
  1.27 - 0.05 * alpha.

(** ** Physics model: rocket propulsion *)

(** The residual [area_ratio_residual(Me)] nested in
    [solve_exit_mach_number]. *)
Definition area_ratio_residual (area_ratio gamma Me : R) : result R :=
  if Rle_dec Me 1.0 then Ok 1e6
  else
    term1 <- pydiv 1.0 Me ;;
    c <- pydiv 2.0 (gamma + 1.0) ;;
    let term2 := c * (1.0 + (gamma - 1.0) / 2.0 * Me ^ 2) in
    exponent <- pydiv (gamma + 1.0) (2.0 * (gamma - 1.0)) ;;
    p <- pypow term2 exponent ;;
    Ok (term1 * p - area_ratio).

(** [solve_exit_mach_number(area_ratio, gamma)]. *)
Definition solve_exit_mach_number (brentq : root_finder)
    (area_ratio gamma : R) : result R :=
  brentq (area_ratio_residual area_ratio gamma) 1.01 50.0.

(** The dictionary returned by [compute_nozzle_flow_properties]. *)
Record flow_properties : Type := {
  exit_Mach : R;
  exit_temperature_K : R;
  exit_pressure_Pa : R;
  exit_velocity_m_s : R;
  R_specific : R
}.

(** [compute_nozzle_flow_properties(Tc, Pc, area_ratio, gamma, M_bar)]. *)
Definition compute_nozzle_flow_properties (brentq : root_finder)
    (Tc Pc area_ratio gamma M_bar : R) : result flow_properties :=
  q <- pydiv R_universal M_bar ;;
  let R_specific := q * 1000.0 in
  Me <- solve_exit_mach_number brentq area_ratio gamma ;;
  Te <- pydiv Tc (1.0 + (gamma - 1.0) / 2.0 * Me ^ 2) ;;
  e <- pydiv (- gamma) (gamma - 1.0) ;;
  p <- pypow (1.0 + (gamma - 1.0) / 2.0 * Me ^ 2) e ;;
  let Pe := Pc * p in
  let Ve := Me * sqrt (gamma * R_specific * Te) in
  Ok {| exit_Mach := Me;
        exit_temperature_K := Te;
        exit_pressure_Pa := Pe;
        exit_velocity_m_s := Ve;
        R_specific := R_specific |}.

(** [compute_characteristic_velocity(Tc, gamma, M_bar)]. *)
Definition compute_characteristic_velocity (Tc gamma M_bar : R) : result R :=
  q <- pydiv R_universal M_bar ;;
  let R_specific := q * 1000.0 in
  let numerator := sqrt (gamma * R_specific * Tc) in
  base <- pydiv 2.0 (gamma + 1.0) ;;
  exponent <- pydiv (gamma + 1.0) (gamma - 1.0) ;;
  p <- pypow base exponent ;;
  let denominator := gamma * sqrt p in
  Ok (numerator / denominator).

(** [compute_throat_area(Pc, thrust_target, c_star, area_ratio, gamma, Tc,
    M_bar, nozzle_efficiency)]. *)
Definition compute_throat_area (brentq : root_finder)
    (Pc thrust_target c_star area_ratio gamma Tc M_bar nozzle_efficiency : R)
    : result R :=
  Me <- solve_exit_mach_number brentq area_ratio gamma ;;
  flow <- compute_nozzle_flow_properties brentq Tc Pc area_ratio gamma M_bar ;;
  let Ve_ideal := exit_velocity_m_s flow in
  let Ve_actual := Ve_ideal * nozzle_efficiency in
  let Pe := exit_pressure_Pa flow in
  Ok (thrust_target / (Pc * Ve_actual / c_star + Pe * area_ratio)).

(** [compute_mass_flow_rate(Pc, At, c_star)]. *)
Definition compute_mass_flow_rate (Pc At c_star : R) : R :=
  (Pc * At) / c_star.

(** [compute_thrust_vacuum(mdot, Ve, Pe, Ae)]. *)
Definition compute_thrust_vacuum (mdot Ve Pe Ae : R) : R :=
  mdot * Ve + Pe * Ae.

(** [compute_specific_impulse(F, mdot)]. *)
Definition compute_specific_impulse (F mdot : R) : R :=
  F / (mdot * g0).

(** ** Main verification procedure *)

(** The values bound by STEP 1 of [verify_thrust_Isp_performance]. *)
Record sizing : Type := {
  M_bar : R;
  gamma : R;
  c_star : R;
  Pc_nominal : R;
  At : R;
  Ae : R;
  mdot_nominal : R;
  flow_props : flow_properties;
  Ve_actual : R;
  F_nominal : R;
  Isp_nominal : R
}.

(** STEP 1: sizing for the target thrust at the nominal feed pressure. *)
Definition size_nominal (brentq : root_finder) (inputs : design_inputs)
    : result sizing :=
  let alpha := alpha_ammonia_dissociation inputs in
  let Tc := chamber_temperature_K inputs in
  let area_ratio := expansion_ratio inputs in
  let feed_pressure_nominal_Pa := feed_pressure_nominal_MPa inputs * 1e6 in
  let Pc_nominal := chamber_pressure_ratio inputs * feed_pressure_nominal_Pa in
  M_bar <- compute_mean_molecular_weight alpha ;;
  let gamma := compute_specific_heat_ratio alpha in
  c_star <- compute_characteristic_velocity Tc gamma M_bar ;;
  let thrust_target := 1.0 in
  At <- compute_throat_area brentq Pc_nominal thrust_target c_star area_ratio
          gamma Tc M_bar (nozzle_efficiency inputs) ;;
  let Ae := area_ratio * At in
  let mdot_nominal := compute_mass_flow_rate Pc_nominal At c_star in
  flow_props <-
    compute_nozzle_flow_properties brentq Tc Pc_nominal area_ratio gamma M_bar ;;
  let Ve_ideal := exit_velocity_m_s flow_props in
  let Ve_actual := Ve_ideal * nozzle_efficiency inputs in
  let F_nominal :=
    compute_thrust_vacuum mdot_nominal Ve_actual
      (exit_pressure_Pa flow_props) Ae in
  let Isp_nominal := compute_specific_impulse F_nominal mdot_nominal in
  Ok {| M_bar := M_bar; gamma := gamma; c_star := c_star;
        Pc_nominal := Pc_nominal; At := At; Ae := Ae;
        mdot_nominal := mdot_nominal; flow_props := flow_props;
        Ve_actual := Ve_actual; F_nominal := F_nominal;
        Isp_nominal := Isp_nominal |}.

Inductive status : Type := PASS | FAIL.

(** STEP 3: [req_001_result]; [margin_percent] is [None] outside the band. *)
Record req_001_record : Type := {
  req_001_computed_value : R;
  req_001_threshold_min : R;
  req_001_threshold_max : R;
  req_001_margin_percent : option R;
  req_001_status : status
}.

Definition req_001_result (F_nominal : R) : req_001_record :=
  let req_001_thrust_min := 0.95 in
  let req_001_thrust_max := 1.05 in
  let in_band :=
    if Rle_dec req_001_thrust_min F_nominal
    then if Rle_dec F_nominal req_001_thrust_max then true else false
    else false in
  {| req_001_computed_value := F_nominal;
     req_001_threshold_min := req_001_thrust_min;
     req_001_threshold_max := req_001_thrust_max;
     req_001_margin_percent :=
       if in_band then Some ((F_nominal - 1.0) / 1.0 * 100) else None;
     req_001_status := if in_band then PASS else FAIL |}.

(** STEP 3: [req_002_result]. *)
Record req_002_record : Type := {
  req_002_computed_value : R;
  req_002_threshold_min : R;
  req_002_margin_percent : R;
  req_002_status : status
}.

Definition req_002_result (Isp_nominal : R) : req_002_record :=
  let req_002_isp_min := 220.0 in
  {| req_002_computed_value := Isp_nominal;
     req_002_threshold_min := req_002_isp_min;
     req_002_margin_percent :=
       (Isp_nominal - req_002_isp_min) / req_002_isp_min * 100;
     req_002_status :=
       if Rge_dec Isp_nominal req_002_isp_min then PASS else FAIL |}.

(** STEP 4: the [comparison_with_agent2] entry of the output and the two
    printed ["Flag >5%"] answers ([true] for YES). *)
Record comparison : Type := {
  agent2_thrust_N : R;
  agent3_thrust_N : R;
  thrust_delta_percent : R;
  agent2_Isp_s : R;
  agent3_Isp_s : R;
  Isp_delta_percent : R;
  thrust_flag : bool;
  Isp_flag : bool
}.

(** [des001_data] is [None] when the DES-001 record does not exist; then the
    comparison is skipped with a warning and the output entry is [None].
    The two divisions are numpy's: on a zero primary value they yield [inf]
    or [nan], which is outside the model, so the properties of the deltas are
    stated for non-zero primary values. *)
Definition compare_with_agent2 (des001_data : option DES001.computed_results)
    (F_nominal Isp_nominal : R) : option comparison :=
  match des001_data with
  | Some des001 =>
      let agent2_thrust := DES001.thrust_N des001 in
      let agent2_Isp := DES001.specific_impulse_s des001 in
      let thrust_delta :=
        Rabs (F_nominal - agent2_thrust) / agent2_thrust * 100 in
      let Isp_delta := Rabs (Isp_nominal - agent2_Isp) / agent2_Isp * 100 in
      Some {| agent2_thrust_N := agent2_thrust;
              agent3_thrust_N := F_nominal;
              thrust_delta_percent := thrust_delta;
              agent2_Isp_s := agent2_Isp;
              agent3_Isp_s := Isp_nominal;
              Isp_delta_percent := Isp_delta;
              thrust_flag := if Rgt_dec thrust_delta 5.0 then true else false;
              Isp_flag := if Rgt_dec Isp_delta 5.0 then true else false |}
  | None => None
  end.

(** STEP 5: the part of [output_data] the properties below read. *)
Record output_data : Type := {
  out_sizing : sizing;
  out_req_001 : req_001_record;
  out_req_002 : req_002_record;
  comparison_with_agent2 : option comparison
}.

(** [verify_thrust_Isp_performance()], without the pressure sweep of STEP 2
    and the plots of STEP 6. *)
Definition verify_thrust_Isp_performance (brentq : root_finder)
    (des001_data : option DES001.computed_results) : result output_data :=
  s <- size_nominal brentq DESIGN_INPUTS ;;
  Ok {| out_sizing := s;
        out_req_001 := req_001_result (F_nominal s);
        out_req_002 := req_002_result (Isp_nominal s);
        comparison_with_agent2 :=
          compare_with_agent2 des001_data (F_nominal s) (Isp_nominal s) |}.

(** STEP 2: the [results] dictionary of the pressure sweep, one list per
    key. *)
Record sweep_results : Type := {
  sweep_feed_pressure_MPa : list R;
  sweep_chamber_pressure_MPa : list R;
  sweep_thrust_N : list R;
  sweep_Isp_s : list R;
  sweep_mass_flow_rate_kg_s : list R;
  sweep_exit_velocity_m_s : list R;
  sweep_exit_pressure_Pa : list R;
  sweep_exit_temperature_K : list R
}.

Definition sweep_empty : sweep_results := {|
  sweep_feed_pressure_MPa := [];
  sweep_chamber_pressure_MPa := [];
  sweep_thrust_N := [];
  sweep_Isp_s := [];
  sweep_mass_flow_rate_kg_s := [];
  sweep_exit_velocity_m_s := [];
  sweep_exit_pressure_Pa := [];
  sweep_exit_temperature_K := []
|}.

(** STEP 2: the loop over [feed_pressures_MPa], with the throat and exit
    areas [At] and [Ae] of STEP 1. *)
Fixpoint pressure_sweep_loop (brentq : root_finder)
    (chamber_pressure_ratio Tc area_ratio gamma M_bar At Ae c_star
       nozzle_efficiency : R)
    (feed_pressures_MPa : list R) (results : sweep_results)
    : result sweep_results :=
  match feed_pressures_MPa with
  | [] => Ok results
  | Pf_MPa :: rest =>
      let Pf := Pf_MPa * 1e6 in
      let Pc := chamber_pressure_ratio * Pf in
      flow <- compute_nozzle_flow_properties brentq Tc Pc area_ratio gamma
                M_bar ;;
      let mdot := compute_mass_flow_rate Pc At c_star in
      let Ve_actual := exit_velocity_m_s flow * nozzle_efficiency in
      let F := compute_thrust_vacuum mdot Ve_actual (exit_pressure_Pa flow) Ae in
      let Isp := compute_specific_impulse F mdot in
      pressure_sweep_loop brentq chamber_pressure_ratio Tc area_ratio gamma
        M_bar At Ae c_star nozzle_efficiency rest
        {| sweep_feed_pressure_MPa := sweep_feed_pressure_MPa results ++ [Pf_MPa];
           sweep_chamber_pressure_MPa :=
             sweep_chamber_pressure_MPa results ++ [Pc / 1e6];
           sweep_thrust_N := sweep_thrust_N results ++ [F];
           sweep_Isp_s := sweep_Isp_s results ++ [Isp];
           sweep_mass_flow_rate_kg_s :=
             sweep_mass_flow_rate_kg_s results ++ [mdot];
           sweep_exit_velocity_m_s :=
             sweep_exit_velocity_m_s results ++ [Ve_actual];
           sweep_exit_pressure_Pa :=
             sweep_exit_pressure_Pa results ++ [exit_pressure_Pa flow];
           sweep_exit_temperature_K :=
             sweep_exit_temperature_K results ++ [exit_temperature_K flow] |}
  end.

(** STEP 2 of [verify_thrust_Isp_performance], after the sizing [s] of
    STEP 1. *)
Definition pressure_sweep (brentq : root_finder) (inputs : design_inputs)
    (s : sizing) : result sweep_results :=
  let feed_pressures_MPa := linspace 0.15 0.30 100 in
  pressure_sweep_loop brentq (chamber_pressure_ratio inputs)
    (chamber_temperature_K inputs) (expansion_ratio inputs) (gamma s)
    (M_bar s) (At s) (Ae s) (c_star s) (nozzle_efficiency inputs)
    feed_pressures_MPa sweep_empty.

End VER001.

(** * The gas model in binary64 arithmetic

    The gas-property functions of the two scripts once more, now over the
    binary64 floats the interpreter computes with: every operation rounds to
    nearest, ties to even; a decimal literal denotes the nearest binary64
    value; [4/3] is the correctly rounded quotient of the two integers; and
    the division of two Python floats raises [ZeroDivisionError] on a zero
    divisor of either sign. *)

Definition pydiv64 (x y : PrimFloat.float) : result PrimFloat.float :=
  if PrimFloat.eqb y PrimFloat.zero then Raise ZeroDivisionError
  else Ok (PrimFloat.div x y).

Module DES001_binary64.
#[local] Open Scope float_scope.

Definition R_UNIVERSAL : float := 8314.46.

Definition M_NH3 : float := 17.031.
Definition M_N2 : float := 28.014.
Definition M_H2 : float := 2.016.

(** [compute_gas_properties(alpha)]: returns [(M_bar, R_specific)]. *)
Definition compute_gas_properties (alpha : float) : result (float * float) :=
  let n_NH3 := (4 / 3) * (1 - alpha) in
  let n_N2 := (1 / 3) + (2 / 3) * alpha in
  let n_H2 := 2 * alpha in
  let n_total := (4 / 3) + (2 / 3) * alpha in
  M_bar_g <- pydiv64 (M_NH3 * n_NH3 + M_N2 * n_N2 + M_H2 * n_H2) n_total ;;
  let M_bar := M_bar_g / 1000.0 in
  R_specific <- pydiv64 R_UNIVERSAL M_bar ;;
  Ok (M_bar, R_specific).

End DES001_binary64.

Module VER001_binary64.
#[local] Open Scope float_scope.

Definition R_universal : float := 8314.46.

Definition M_NH3 : float := 17.031.
Definition M_N2 : float := 28.014.
Definition M_H2 : float := 2.016.

(** [compute_mean_molecular_weight(alpha)], in g/mol. *)
Definition compute_mean_molecular_weight (alpha : float) : result float :=
  let moles_NH3 := (4.0 / 3.0) * (1.0 - alpha) in
  let moles_N2 := (1.0 / 3.0) + (2.0 / 3.0) * alpha in
  let moles_H2 := 2.0 * alpha in
  let total_moles := (4.0 / 3.0) + (2.0 / 3.0) * alpha in
  pydiv64 (M_NH3 * moles_NH3 + M_N2 * moles_N2 + M_H2 * moles_H2) total_moles.

(** The specific gas constant [R_specific = (R_universal / M_bar) * 1000.0]
    that [compute_nozzle_flow_properties] and
    [compute_characteristic_velocity] derive from [M_bar] in their first
    statement. *)
Definition R_specific (M_bar : float) : result float :=
  q <- pydiv64 R_universal M_bar ;;
  Ok (q * 1000.0).

End VER001_binary64.

(** * Auxiliary definitions *)

(** The factor [1 + (gamma - 1) / 2 * M ^ 2] shared by the isentropic
    relations. *)
Definition isentropic_factor (gamma M : R) : R := 1 + (gamma - 1) / 2 * M ^ 2.

(** The area-Mach function: the area ratio of the isentropic flow at Mach
    number [M]. *)
Definition area_mach (gamma M : R) : R :=
  1 / M * Rpower (2 / (gamma + 1) * isentropic_factor gamma M)
                 ((gamma + 1) / (2 * (gamma - 1))).

Definition has_root (f : R -> result R) (a b : R) : Prop :=
  exists r, a <= r <= b /\ f r = Ok 0.

(** A root finder with zero tolerance: it performs the sign test of
    [brentq] and then returns some zero of [f] in the bracket, when there is
    one.  It inhabits the three contracts above. *)
Definition brentq_exact : root_finder := fun f a b =>
  fa <- f a ;;
  fb <- f b ;;
  if Rlt_dec 0 (fa * fb) then Raise ValueError
  else
    match excluded_middle_informative (has_root f a b) with
    | left H => Ok (proj1_sig (constructive_indefinite_description _ H))
    | right _ => Raise RuntimeError
    end.

(** The validity conditions of the design constants. *)
Definition valid_design (k : DES001.DesignConstants) : Prop :=
  1 < DES001.gamma k /\
  0 <= DES001.alpha k <= 1 /\
  0 < DES001.chamber_temperature_K k /\
  0 < DES001.chamber_pressure_MPa k /\
  1 < DES001.expansion_ratio k /\
  0 < DES001.nozzle_efficiency k <= 1 /\
  0 < DES001.target_thrust k.

(** A DES-001 record whose thrust is 1.0 N and whose specific impulse is
    224.1 s; the fields the comparison does not read are zero. *)
Definition des001_sample : DES001.computed_results := {|
  DES001.thrust_N := 1.0;
  DES001.specific_impulse_s := 224.1;
  DES001.mass_flow_rate_kg_s := 0;
  DES001.throat_area_m2 := 0;
  DES001.throat_diameter_m := 0;
  DES001.throat_diameter_mm := 0;
  DES001.exit_area_m2 := 0;
  DES001.exit_diameter_m := 0;
  DES001.exit_diameter_mm := 0;
  DES001.nozzle_length_m := 0;
  DES001.nozzle_length_mm := 0;
  DES001.exit_Mach_number := 0;
  DES001.exit_velocity_m_s := 0;
  DES001.exit_pressure_Pa := 0;
  DES001.exit_temperature_K := 0;
  DES001.Pe_Ae_term_N := 0;
  DES001.characteristic_velocity_m_s := 0;
  DES001.mean_molecular_weight_g_mol := 0;
  DES001.specific_gas_constant_J_kg_K := 0
|}.

(** The same record with a thrust of 1.03 N.  The harness reads the record
    from a file, whatever it holds. *)
Definition des001_sample_high : DES001.computed_results := {|
  DES001.thrust_N := 1.03;
  DES001.specific_impulse_s := 224.1;
  DES001.mass_flow_rate_kg_s := 0;
  DES001.throat_area_m2 := 0;
  DES001.throat_diameter_m := 0;
  DES001.throat_diameter_mm := 0;
  DES001.exit_area_m2 := 0;
  DES001.exit_diameter_m := 0;
  DES001.exit_diameter_mm := 0;
  DES001.nozzle_length_m := 0;
  DES001.nozzle_length_mm := 0;
  DES001.exit_Mach_number := 0;
  DES001.exit_velocity_m_s := 0;
  DES001.exit_pressure_Pa := 0;
  DES001.exit_temperature_K := 0;
  DES001.Pe_Ae_term_N := 0;
  DES001.characteristic_velocity_m_s := 0;
  DES001.mean_molecular_weight_g_mol := 0;
  DES001.specific_gas_constant_J_kg_K := 0
|}.

(** * Basic facts on the result monad and the checked operations *)

Lemma float_1 : 1.0 = 1.
Proof. lra. Qed.

Lemma float_2 : 2.0 = 2.
Proof. lra. Qed.

Lemma pydiv_ok x y : y <> 0 -> pydiv x y = Ok (x / y).
Proof.
  intros H. unfold pydiv. destruct (Req_dec_T y 0); [contradiction|reflexivity].
Qed.

Lemma pydiv_zero x : pydiv x 0 = Raise ZeroDivisionError.
Proof.
  unfold pydiv. destruct (Req_dec_T 0 0) as [_|H]; [reflexivity|now destruct H].
Qed.

Lemma pydiv_inv x y r : pydiv x y = Ok r -> y <> 0 /\ r = x / y.
Proof.
  unfold pydiv. destruct (Req_dec_T y 0); [discriminate|].
  intros H. injection H as <-. now split.
Qed.

Lemma pypow_ok x y : 0 < x -> pypow x y = Ok (Rpower x y).
Proof.
  intros H. unfold pypow. destruct (Rlt_dec 0 x); [reflexivity|contradiction].
Qed.

Lemma bind_ok {A B : Type} (m : result A) (k : A -> result B) b :
  bind m k = Ok b -> exists a, m = Ok a /\ k a = Ok b.
Proof.
  destruct m as [a|e]; simpl; [|discriminate]. intros H. now exists a.
Qed.

Lemma rel_err_exact x : rel_err x x <= 1e-6.
Proof.
  unfold rel_err. rewrite Rminus_diag, Rabs_R0. unfold Rdiv.
  rewrite Rmult_0_l. lra.
Qed.

Lemma pymin_Rmin a b : DES001.pymin a b = Rmin a b.
Proof.
  unfold DES001.pymin, Rmin.
  destruct (Rlt_dec b a), (Rle_dec a b); lra.
Qed.

(** * Analysis of the area-Mach function *)

Lemma ln_le_minus_1 z : 0 < z -> ln z <= z - 1.
Proof.
  intros Hz.
  destruct (Rle_or_lt (ln z) (z - 1)) as [H|H]; [exact H|exfalso].
  apply exp_increasing in H. rewrite (exp_ln z Hz) in H.
  pose proof (exp_ineq1_le (z - 1)). lra.
Qed.

Lemma ln_lt_minus_1 z : 0 < z -> z <> 1 -> ln z < z - 1.
Proof.
  intros Hz Hne.
  destruct (Rle_or_lt (z - 1) (ln z)) as [H|H]; [exfalso|exact H].
  assert (Hx : z - 1 <> 0) by lra.
  pose proof (exp_ineq1 (z - 1) Hx) as H1.
  destruct H as [H|H].
  - apply exp_increasing in H. rewrite (exp_ln z Hz) in H. lra.
  - rewrite H in H1. rewrite (exp_ln z Hz) in H1. lra.
Qed.

(** Weighted concavity of the logarithm between 1 and b. *)
Lemma ln_weighted u b :
  0 < u < 1 -> 0 < b -> b <> 1 -> u * ln b < ln (1 - u + u * b).
Proof.
  intros [Hu0 Hu1] Hb Hne.
  set (c := 1 - u + u * b).
  assert (Hc : 0 < c) by (unfold c; nra).
  assert (Hc1 : c <> 1) by (unfold c; nra).
  assert (H1 : ln (/ c) < / c - 1).
  { apply ln_lt_minus_1; [now apply Rinv_0_lt_compat|].
    intros E. apply Hc1. rewrite <- (Rinv_inv c), E. apply Rinv_1. }
  assert (H2 : ln (b / c) <= b / c - 1).
  { apply ln_le_minus_1. now apply Rdiv_lt_0_compat. }
  rewrite ln_Rinv in H1 by assumption.
  unfold Rdiv in H2. rewrite ln_mult, ln_Rinv in H2; try assumption.
  2: now apply Rinv_0_lt_compat.
  assert (E : (1 - u) * (/ c - 1) + u * (b * / c - 1) = 0).
  { unfold c. field. fold c. lra. }
  nra.
Qed.

Lemma isentropic_factor_gt_1 gamma M :
  1 < gamma -> M <> 0 -> 1 < isentropic_factor gamma M.
Proof.
  intros Hg HM. unfold isentropic_factor.
  assert (0 < M ^ 2) by (simpl; nra). nra.
Qed.

Lemma isentropic_factor_pos gamma M :
  1 < gamma -> 0 < isentropic_factor gamma M.
Proof.
  intros Hg. unfold isentropic_factor.
  assert (0 <= M ^ 2) by (simpl; nra). nra.
Qed.

Lemma area_mach_pos gamma M : 0 < M -> 0 < area_mach gamma M.
Proof.
  intros HM. unfold area_mach. apply Rmult_lt_0_compat.
  - apply Rdiv_lt_0_compat; lra.
  - apply exp_pos.
Qed.

Lemma ln_area_mach gamma M :
  1 < gamma -> 0 < M ->
  ln (area_mach gamma M) =
  (gamma + 1) / (2 * (gamma - 1)) *
    (ln (2 / (gamma + 1)) + ln (isentropic_factor gamma M)) - ln M.
Proof.
  intros Hg HM. unfold area_mach.
  rewrite ln_mult; [|apply Rdiv_lt_0_compat; lra|apply exp_pos].
  rewrite ln_Rpower.
  rewrite ln_mult; [|apply Rdiv_lt_0_compat; lra|now apply isentropic_factor_pos].
  unfold Rdiv at 1. rewrite Rmult_1_l, ln_Rinv by assumption. lra.
Qed.

(** The area-Mach function is strictly increasing on the supersonic branch. *)
Lemma area_mach_increasing gamma x y :
  1 < gamma -> 1 <= x -> x < y -> area_mach gamma x < area_mach gamma y.
Proof.
  intros Hg Hx Hxy.
  assert (Hx0 : 0 < x) by lra. assert (Hy0 : 0 < y) by lra.
  apply ln_lt_inv; try (apply area_mach_pos; assumption).
  rewrite !ln_area_mach by assumption.
  set (k := (gamma - 1) / 2).
  set (tx := isentropic_factor gamma x). set (ty := isentropic_factor gamma y).
  assert (Htx : 0 < tx) by (now apply isentropic_factor_pos).
  assert (Hty : 0 < ty) by (now apply isentropic_factor_pos).
  set (u := k * x ^ 2 / tx). set (b := (y / x) ^ 2).
  assert (Hk : 0 < k) by (unfold k; lra).
  assert (Hx2 : 1 <= x ^ 2) by (simpl; nra).
  assert (Htxe : tx = 1 + k * x ^ 2) by reflexivity.
  assert (Htye : ty = 1 + k * y ^ 2) by reflexivity.
  assert (Hu : 0 < u < 1).
  { unfold u. split.
    - apply Rdiv_lt_0_compat; nra.
    - apply Rmult_lt_reg_r with tx; [assumption|].
      unfold Rdiv. rewrite Rmult_assoc, Rinv_l by lra. lra. }
  assert (Hyx : 1 < y / x).
  { apply Rmult_lt_reg_r with x; [assumption|].
    unfold Rdiv. rewrite Rmult_assoc, Rinv_l by lra. lra. }
  assert (Hb : 1 < b) by (unfold b; simpl; nra).
  assert (Hratio : 1 - u + u * b = ty / tx).
  { unfold u, b. rewrite Htye, Htxe. field. split; nra. }
  pose proof (ln_weighted u b Hu ltac:(lra) ltac:(lra)) as HJ.
  rewrite Hratio in HJ. unfold Rdiv in HJ.
  rewrite ln_mult, ln_Rinv in HJ; try assumption.
  2: now apply Rinv_0_lt_compat.
  assert (Hlnb : ln b = 2 * (ln y - ln x)).
  { unfold b. replace ((y / x) ^ 2) with ((y * / x) * (y * / x)) by (unfold Rdiv; ring).
    assert (0 < y * / x) by (apply Rmult_lt_0_compat; [|apply Rinv_0_lt_compat]; lra).
    rewrite ln_mult by assumption. rewrite ln_mult by (try apply Rinv_0_lt_compat; lra).
    rewrite ln_Rinv by assumption. lra. }
  assert (Hd : 0 < ln y - ln x) by (pose proof (ln_increasing x y Hx0 Hxy); lra).
  set (e := (gamma + 1) / (2 * (gamma - 1))).
  assert (He : 0 < e) by (unfold e; apply Rdiv_lt_0_compat; lra).
  assert (Heu : 1 <= 2 * e * u).
  { unfold e, u. rewrite Htxe. unfold k.
    apply Rmult_le_reg_r with (1 + (gamma - 1) / 2 * x ^ 2); [nra|].
    replace (2 * ((gamma + 1) / (2 * (gamma - 1))) *
      ((gamma - 1) / 2 * x ^ 2 / (1 + (gamma - 1) / 2 * x ^ 2)) *
      (1 + (gamma - 1) / 2 * x ^ 2)) with ((gamma + 1) / 2 * x ^ 2)
      by (field; split; nra).
    nra. }
  rewrite Hlnb in HJ.
  assert (H1 : e * (u * (2 * (ln y - ln x))) < e * (ln ty + - ln tx))
    by (apply Rmult_lt_compat_l; assumption).
  assert (H2 : 1 * (ln y - ln x) <= (2 * e * u) * (ln y - ln x))
    by (apply Rmult_le_compat_r; lra).
  lra.
Qed.

Lemma area_mach_1 gamma : 1 < gamma -> area_mach gamma 1 = 1.
Proof.
  intros Hg. unfold area_mach, isentropic_factor.
  replace (2 / (gamma + 1) * (1 + (gamma - 1) / 2 * 1 ^ 2)) with 1 by (field; lra).
  unfold Rpower. rewrite ln_1, Rmult_0_r, exp_0. field.
Qed.

Lemma area_mach_gt_1 gamma M : 1 < gamma -> 1 < M -> 1 < area_mach gamma M.
Proof.
  intros Hg HM. rewrite <- (area_mach_1 gamma Hg) at 1.
  apply area_mach_increasing; lra.
Qed.

Lemma continuity_pt_ln x : 0 < x -> continuity_pt ln x.
Proof.
  intros Hx. apply derivable_continuous_pt.
  exists (/ x). now apply derivable_pt_lim_ln.
Qed.

Lemma continuity_pt_poly c k a :
  continuity_pt (fun M => c * (1 + k * M ^ 2)) a.
Proof.
  apply derivable_continuous_pt. reg.
Qed.

Lemma area_mach_continuity gamma a :
  1 < gamma -> 0 < a -> continuity_pt (area_mach gamma) a.
Proof.
  intros Hg Ha.
  apply (continuity_pt_mult (fun M => 1 / M)
           (fun M => Rpower (2 / (gamma + 1) * isentropic_factor gamma M)
                            ((gamma + 1) / (2 * (gamma - 1))))).
  - apply (continuity_pt_div (fun _ => 1) (fun M => M)).
    + apply continuity_pt_const. intros x y. reflexivity.
    + apply derivable_continuous_pt. apply derivable_pt_id.
    + lra.
  - unfold Rpower.
    apply (continuity_pt_comp
             (fun M => (gamma + 1) / (2 * (gamma - 1)) *
                       ln (2 / (gamma + 1) * isentropic_factor gamma M)) exp).
    + apply (continuity_pt_mult (fun _ => (gamma + 1) / (2 * (gamma - 1)))
               (fun M => ln (2 / (gamma + 1) * isentropic_factor gamma M))).
      * apply continuity_pt_const. intros x y. reflexivity.
      * apply (continuity_pt_comp
                 (fun M => 2 / (gamma + 1) * isentropic_factor gamma M) ln).
        -- unfold isentropic_factor. apply continuity_pt_poly.
        -- apply continuity_pt_ln. apply Rmult_lt_0_compat.
           ++ apply Rdiv_lt_0_compat; lra.
           ++ now apply isentropic_factor_pos.
    + apply derivable_continuous_pt. apply derivable_pt_exp.
Qed.

(** Every area ratio between the values at the ends of a supersonic bracket
    is attained inside the bracket. *)
Lemma area_mach_root gamma lo hi eps :
  1 < gamma -> 0 < lo -> lo < hi ->
  area_mach gamma lo <= eps <= area_mach gamma hi ->
  exists M, lo <= M <= hi /\ area_mach gamma M - eps = 0.
Proof.
  intros Hg Hlo Hlt [H1 H2].
  destruct H1 as [H1|H1]; [|exists lo; split; lra].
  destruct H2 as [H2|H2]; [|exists hi; split; lra].
  destruct (IVT_interv (fun M => area_mach gamma M - eps) lo hi) as [z [Hz Hr]].
  - intros a Ha.
    apply (continuity_pt_minus (area_mach gamma) (fun _ => eps)).
    + apply area_mach_continuity; lra.
    + apply continuity_pt_const. intros x y. reflexivity.
  - exact Hlt.
  - lra.
  - lra.
  - exists z. split; assumption.
Qed.

(** Bounds on a real power by integer powers. *)
Lemma Rpower_le_pow t e n : 1 <= t -> e <= INR n -> Rpower t e <= t ^ n.
Proof.
  intros Ht He. rewrite <- Rpower_pow by lra. now apply Rle_Rpower.
Qed.

Lemma pow_le_Rpower t e n : 1 <= t -> INR n <= e -> t ^ n <= Rpower t e.
Proof.
  intros Ht He. rewrite <- Rpower_pow by lra. now apply Rle_Rpower.
Qed.

(** The isentropic pressure ratio decreases with the Mach number. *)
Lemma pressure_ratio_decreasing gamma x y :
  1 < gamma -> 0 <= x -> x < y ->
  Rpower (isentropic_factor gamma y) (- gamma / (gamma - 1)) <
  Rpower (isentropic_factor gamma x) (- gamma / (gamma - 1)).
Proof.
  intros Hg Hx Hxy.
  replace (- gamma / (gamma - 1)) with (- (gamma / (gamma - 1))) by (field; lra).
  rewrite !Rpower_Ropp.
  assert (He : 0 < gamma / (gamma - 1)) by (apply Rdiv_lt_0_compat; lra).
  apply Rinv_lt_contravar.
  - apply Rmult_lt_0_compat; apply exp_pos.
  - apply Rlt_Rpower_l; [assumption|]. split.
    + now apply isentropic_factor_pos.
    + unfold isentropic_factor. apply Rplus_lt_compat_l.
      apply Rmult_lt_compat_l; [lra|]. simpl. nra.
Qed.

Lemma pressure_ratio_lt_1 gamma M :
  1 < gamma -> M <> 0 ->
  Rpower (isentropic_factor gamma M) (- gamma / (gamma - 1)) < 1.
Proof.
  intros Hg HM.
  pose proof (isentropic_factor_gt_1 gamma M Hg HM) as Ht.
  replace (- gamma / (gamma - 1)) with (- (gamma / (gamma - 1))) by (field; lra).
  rewrite Rpower_Ropp.
  assert (He : 0 < gamma / (gamma - 1)) by (apply Rdiv_lt_0_compat; lra).
  assert (H1 : 1 < Rpower (isentropic_factor gamma M) (gamma / (gamma - 1))).
  { pose proof (Rpower_lt (isentropic_factor gamma M) 0 _ Ht He) as H.
    rewrite Rpower_O in H by lra. exact H. }
  assert (H0 : 0 < 1 * Rpower (isentropic_factor gamma M) (gamma / (gamma - 1)))
    by lra.
  pose proof (Rinv_lt_contravar _ _ H0 H1) as H.
  rewrite Rinv_1 in H. exact H.
Qed.

(** * The exact root finder meets the contracts *)

Lemma brentq_exact_inv f a b r :
  brentq_exact f a b = Ok r ->
  exists fa fb,
    f a = Ok fa /\ f b = Ok fb /\ fa * fb <= 0 /\ a <= r <= b /\ f r = Ok 0.
Proof.
  unfold brentq_exact. intros H.
  apply bind_ok in H as [fa [Ha H]]. apply bind_ok in H as [fb [Hb H]].
  exists fa, fb. destruct (Rlt_dec 0 (fa * fb)) as [Hs|Hs]; [discriminate|].
  destruct (excluded_middle_informative (has_root f a b)) as [Hr|Hr];
    [|discriminate].
  injection H as <-.
  destruct (constructive_indefinite_description _ Hr) as [z [Hz1 Hz2]]. simpl.
  repeat split; try assumption; lra.
Qed.

Lemma brentq_exact_sign : brentq_sign_contract brentq_exact.
Proof.
  intros f a b fa fb Ha Hb Hs. unfold brentq_exact. rewrite Ha, Hb. simpl.
  destruct (Rlt_dec 0 (fa * fb)); [reflexivity|contradiction].
Qed.

Lemma brentq_exact_bracket : brentq_bracket_contract brentq_exact.
Proof.
  intros f a b r H. apply brentq_exact_inv in H.
  destruct H as (fa & fb & _ & _ & _ & H & _). exact H.
Qed.

Lemma brentq_exact_root : brentq_root_contract brentq_exact.
Proof.
  intros f a b r H. apply brentq_exact_inv in H.
  destruct H as (fa & fb & _ & _ & _ & _ & H). exact H.
Qed.

Lemma brentq_exact_returns f a b fa fb :
  f a = Ok fa -> f b = Ok fb -> fa * fb <= 0 -> has_root f a b ->
  returns (brentq_exact f a b).
Proof.
  intros Ha Hb Hs Hr. unfold brentq_exact. rewrite Ha, Hb. simpl.
  destruct (Rlt_dec 0 (fa * fb)); [lra|].
  destruct (excluded_middle_informative (has_root f a b)); [|contradiction].
  eexists. reflexivity.
Qed.

(** * The residuals are the area-Mach function minus the area ratio *)

Lemma area_ratio_eq_ok area_ratio gamma Me :
  1 < gamma -> Me <> 0 ->
  DES001.area_ratio_eq area_ratio gamma Me =
  Ok (area_mach gamma Me - area_ratio).
Proof.
  intros Hg HM. unfold DES001.area_ratio_eq.
  rewrite !pydiv_ok by lra. cbn [bind].
  rewrite pypow_ok.
  - reflexivity.
  - apply Rmult_lt_0_compat; [apply Rdiv_lt_0_compat; lra|].
    now apply isentropic_factor_pos.
Qed.

Lemma area_ratio_residual_ok area_ratio gamma Me :
  1 < gamma -> 1 < Me ->
  VER001.area_ratio_residual area_ratio gamma Me =
  Ok (area_mach gamma Me - area_ratio).
Proof.
  intros Hg HM. unfold VER001.area_ratio_residual.
  destruct (Rle_dec Me 1.0); [lra|].
  rewrite !pydiv_ok by lra. cbn [bind].
  rewrite !float_1, !float_2. rewrite pypow_ok.
  - reflexivity.
  - apply Rmult_lt_0_compat; [apply Rdiv_lt_0_compat; lra|].
    now apply isentropic_factor_pos.
Qed.

(** * The gas property model *)

(** The weighted sum of molecular weights does not depend on [alpha]: it is
    the molecular weight of the decomposed hydrazine. *)
Lemma gas_numerator alpha :
  DES001.M_NH3 * (4 / 3 * (1 - alpha)) + DES001.M_N2 * (1 / 3 + 2 / 3 * alpha)
  + DES001.M_H2 * (2 * alpha) = 32.046.
Proof. unfold DES001.M_NH3, DES001.M_N2, DES001.M_H2. lra. Qed.

Lemma compute_gas_properties_ok alpha :
  4 / 3 + 2 / 3 * alpha <> 0 ->
  DES001.compute_gas_properties alpha =
  Ok (32.046 / (4 / 3 + 2 / 3 * alpha) / 1000.0,
      DES001.R_UNIVERSAL / (32.046 / (4 / 3 + 2 / 3 * alpha) / 1000.0)).
Proof.
  intros Hn. unfold DES001.compute_gas_properties.
  rewrite gas_numerator, (pydiv_ok _ _ Hn). cbn [bind].
  rewrite pydiv_ok; [reflexivity|].
  unfold Rdiv. apply Rmult_integral_contrapositive_currified; [|lra].
  apply Rmult_integral_contrapositive_currified; [lra|].
  now apply Rinv_neq_0_compat.
Qed.

Lemma compute_gas_properties_zero_moles alpha :
  4 / 3 + 2 / 3 * alpha = 0 ->
  DES001.compute_gas_properties alpha = Raise ZeroDivisionError.
Proof.
  intros Hn. unfold DES001.compute_gas_properties.
  rewrite Hn, pydiv_zero. reflexivity.
Qed.

Lemma compute_mean_molecular_weight_ok alpha :
  4 / 3 + 2 / 3 * alpha <> 0 ->
  VER001.compute_mean_molecular_weight alpha =
  Ok (32.046 / (4 / 3 + 2 / 3 * alpha)).
Proof.
  intros Hn. unfold VER001.compute_mean_molecular_weight.
  rewrite pydiv_ok by lra. f_equal.
  assert (E : VER001.M_NH3 * (4.0 / 3.0 * (1.0 - alpha))
              + VER001.M_N2 * (1.0 / 3.0 + 2.0 / 3.0 * alpha)
              + VER001.M_H2 * (2.0 * alpha) = 32.046)
    by (unfold VER001.M_NH3, VER001.M_N2, VER001.M_H2; lra).
  rewrite E. f_equal. lra.
Qed.

Lemma compute_mean_molecular_weight_zero_moles alpha :
  4 / 3 + 2 / 3 * alpha = 0 ->
  VER001.compute_mean_molecular_weight alpha = Raise ZeroDivisionError.
Proof.
  intros Hn. unfold VER001.compute_mean_molecular_weight.
  replace (4.0 / 3.0 + 2.0 / 3.0 * alpha) with 0 by lra.
  apply pydiv_zero.
Qed.

Lemma mean_weight_pos alpha :
  0 < 4 / 3 + 2 / 3 * alpha -> 0 < 32.046 / (4 / 3 + 2 / 3 * alpha).
Proof. intros H. apply Rdiv_lt_0_compat; lra. Qed.

(** C4, as the specification states it, fails: the dissociation degree 2
    lies outside [0,1] and the computation returns a value. *)
Lemma gas_properties_accepts_alpha_2 :
  ~ (0 <= 2 <= 1) /\
  DES001.compute_gas_properties 2 = Ok (0.01201725, 8314.46 / 0.01201725) /\
  ~ raises (DES001.compute_gas_properties 2).
Proof.
  assert (E : DES001.compute_gas_properties 2
              = Ok (0.01201725, 8314.46 / 0.01201725)).
  { rewrite compute_gas_properties_ok by lra. unfold DES001.R_UNIVERSAL.
    replace (32.046 / (4 / 3 + 2 / 3 * 2) / 1000.0) with 0.01201725 by lra.
    reflexivity. }
  split; [lra|]. split; [exact E|].
  rewrite E. intros [e H]. discriminate.
Qed.

(** The same points of the domain in binary64 arithmetic. *)
Lemma gas_properties_binary64_points :
  DES001_binary64.compute_gas_properties 2%float
  = Ok (0.01201725%float, 691877.0933449832%float) /\
  VER001_binary64.compute_mean_molecular_weight 2%float
  = Ok 12.01725%float /\
  DES001_binary64.compute_gas_properties (-2)%float
  = Raise ZeroDivisionError /\
  VER001_binary64.compute_mean_molecular_weight (-2)%float
  = Raise ZeroDivisionError /\
  DES001_binary64.compute_gas_properties (-3)%float
  = Ok ((-0.04806899999999998)%float, (-172969.27333624588)%float).
Proof. repeat split; vm_compute; reflexivity. Qed.

(** C4 (amended): neither implementation guards its domain.  A dissociation
    degree outside [0,1] is accepted: 2 gives the mean molecular weight
    0.01201725 kg/mol, and -3, where the total moles are negative, a
    negative one.  When the total moles [(4/3) + (2/3) alpha] are zero, at
    the dissociation degree -2, the division by them raises
    [ZeroDivisionError].  For a dissociation degree in [0,1] both
    implementations return, with a positive mean molecular weight and a
    positive specific gas constant [R_UNIVERSAL / M_bar]. *)
Theorem gas_properties_domain (alpha : R) :
  (4 / 3 + 2 / 3 * alpha = 0 ->
   DES001.compute_gas_properties alpha = Raise ZeroDivisionError /\
   VER001.compute_mean_molecular_weight alpha = Raise ZeroDivisionError) /\
  (0 <= alpha <= 1 ->
   (exists M_bar R_specific,
      DES001.compute_gas_properties alpha = Ok (M_bar, R_specific) /\
      0 < M_bar /\
      R_specific = DES001.R_UNIVERSAL / M_bar /\
      0 < R_specific) /\
   (exists M_bar_g,
      VER001.compute_mean_molecular_weight alpha = Ok M_bar_g /\
      0 < M_bar_g /\
      0 < VER001.R_universal / M_bar_g * 1000.0)) /\
  DES001.compute_gas_properties 2 = Ok (0.01201725, 8314.46 / 0.01201725) /\
  VER001.compute_mean_molecular_weight 2 = Ok 12.01725 /\
  (exists M_bar R_specific,
     DES001.compute_gas_properties (-3) = Ok (M_bar, R_specific) /\
     4 / 3 + 2 / 3 * (-3) < 0 /\ M_bar < 0) /\
  (exists M_bar_g,
     VER001.compute_mean_molecular_weight (-3) = Ok M_bar_g /\ M_bar_g < 0) /\
  DES001_binary64.compute_gas_properties 2%float
  = Ok (0.01201725%float, 691877.0933449832%float) /\
  DES001_binary64.compute_gas_properties (-2)%float
  = Raise ZeroDivisionError /\
  VER001_binary64.compute_mean_molecular_weight (-2)%float
  = Raise ZeroDivisionError /\
  DES001_binary64.compute_gas_properties (-3)%float
  = Ok ((-0.04806899999999998)%float, (-172969.27333624588)%float).
Proof.
  split; [|split].
  - intros Hn. split.
    + now apply compute_gas_properties_zero_moles.
    + now apply compute_mean_molecular_weight_zero_moles.
  - intros Ha.
    assert (Hn : 4 / 3 + 2 / 3 * alpha <> 0) by lra.
    rewrite (compute_gas_properties_ok _ Hn).
    rewrite (compute_mean_molecular_weight_ok _ Hn).
    pose proof (mean_weight_pos alpha ltac:(lra)) as HM.
    assert (HM' : 0 < 32.046 / (4 / 3 + 2 / 3 * alpha) / 1000.0)
      by (apply Rdiv_lt_0_compat; lra).
    split.
    + eexists _, _. split; [reflexivity|]. split; [exact HM'|].
      split; [reflexivity|].
      apply Rdiv_lt_0_compat; [unfold DES001.R_UNIVERSAL; lra|exact HM'].
    + eexists. split; [reflexivity|]. split; [exact HM|].
      apply Rmult_lt_0_compat; [|lra].
      apply Rdiv_lt_0_compat; [unfold VER001.R_universal; lra|exact HM].
  - split; [|split; [|split; [|split]]].
    + rewrite compute_gas_properties_ok by lra. unfold DES001.R_UNIVERSAL.
      replace (32.046 / (4 / 3 + 2 / 3 * 2) / 1000.0) with 0.01201725 by lra.
      reflexivity.
    + rewrite compute_mean_molecular_weight_ok by lra. f_equal. lra.
    + rewrite compute_gas_properties_ok by lra.
      eexists _, _. split; [reflexivity|]. lra.
    + rewrite compute_mean_molecular_weight_ok by lra.
      eexists. split; [reflexivity|]. lra.
    + destruct gas_properties_binary64_points as (H1 & _ & H3 & H4 & H5).
      repeat split; assumption.
Qed.

Lemma gas_properties_domain_witness :
  0 <= 0.5 <= 1 /\
  exists M_bar R_specific,
    DES001.compute_gas_properties 0.5 = Ok (M_bar, R_specific) /\
    0 < M_bar /\ 0 < R_specific.
Proof.
  assert (H : 0 <= 0.5 <= 1) by lra.
  split; [exact H|].
  destruct (gas_properties_domain 0.5) as (_ & Hin & _).
  destruct (Hin H) as [(M & Rs & E & HM & _ & HR) _].
  exists M, Rs. repeat split; assumption.
Defined.

(** The two gas models over exact reals, for a dissociation degree in [0,1]. *)
Lemma gas_models_exact_reals alpha :
  0 <= alpha <= 1 ->
  exists M_bar R_s M_bar_g,
    DES001.compute_gas_properties alpha = Ok (M_bar, R_s) /\
    VER001.compute_mean_molecular_weight alpha = Ok M_bar_g /\
    M_bar * 1000 = M_bar_g /\
    M_bar_g = 32.046 / (4 / 3 + 2 / 3 * alpha) /\
    R_s = DES001.R_UNIVERSAL / M_bar /\
    R_s = VER001.R_universal / M_bar_g * 1000.0 /\
    forall brentq Tc Pc area_ratio gamma flow,
      VER001.compute_nozzle_flow_properties brentq Tc Pc area_ratio gamma
        M_bar_g = Ok flow ->
      VER001.R_specific flow = R_s.
Proof.
  intros Ha.
  assert (Hn : 4 / 3 + 2 / 3 * alpha <> 0) by lra.
  rewrite (compute_gas_properties_ok _ Hn).
  rewrite (compute_mean_molecular_weight_ok _ Hn).
  assert (HM : 32.046 / (4 / 3 + 2 / 3 * alpha) <> 0).
  { unfold Rdiv. apply Rmult_integral_contrapositive_currified; [lra|].
    now apply Rinv_neq_0_compat. }
  assert (HR : DES001.R_UNIVERSAL / (32.046 / (4 / 3 + 2 / 3 * alpha) / 1000.0)
               = VER001.R_universal / (32.046 / (4 / 3 + 2 / 3 * alpha)) * 1000.0).
  { unfold DES001.R_UNIVERSAL, VER001.R_universal.
    set (m := 32.046 / (4 / 3 + 2 / 3 * alpha)) in *.
    replace 1000.0 with 1000 by lra. field. exact HM. }
  eexists _, _, _. split; [reflexivity|]. split; [reflexivity|].
  split; [|split; [reflexivity|split; [reflexivity|split; [exact HR|]]]].
  - set (m := 32.046 / (4 / 3 + 2 / 3 * alpha)). lra.
  - intros brentq Tc Pc area_ratio gamma flow H.
    unfold VER001.compute_nozzle_flow_properties in H.
    rewrite (pydiv_ok _ _ HM) in H. cbn [bind] in H.
    apply bind_ok in H as [Me [_ H]]. apply bind_ok in H as [Te [_ H]].
    apply bind_ok in H as [e [_ H]]. apply bind_ok in H as [p [_ H]].
    injection H as <-. cbn [VER001.R_specific]. symmetry. exact HR.
Qed.

(** The two gas models in binary64 arithmetic at the dissociation degree
    0.5, the one both scripts compute with. *)
Lemma gas_models_binary64_design_point :
  DES001_binary64.compute_gas_properties 0.5%float
  = Ok (0.0192276%float, 432423.1833406145%float) /\
  VER001_binary64.compute_mean_molecular_weight 0.5%float
  = Ok 19.227600000000002%float /\
  (0.0192276 * 1000)%float = 19.227600000000002%float /\
  VER001_binary64.R_specific 19.227600000000002%float
  = Ok 432423.1833406144%float /\
  PrimFloat.eqb 432423.1833406145%float 432423.1833406144%float = false /\
  (432423.1833406145 - 432423.1833406144)%float = 0x1p-34%float.
Proof. repeat split; vm_compute; reflexivity. Qed.

(** C9, as the specification states it, fails in the arithmetic of the
    interpreter: at the dissociation degree 0.5 of both scripts the mean
    molecular weights agree, but DES-001 computes the specific gas constant
    432423.1833406145 and VER-001 derives 432423.1833406144 from the same
    gas. *)
Lemma gas_constants_differ_in_binary64 :
  exists M_bar R_s M_bar_g R_s',
    DES001_binary64.compute_gas_properties 0.5%float = Ok (M_bar, R_s) /\
    VER001_binary64.compute_mean_molecular_weight 0.5%float = Ok M_bar_g /\
    VER001_binary64.R_specific M_bar_g = Ok R_s' /\
    R_s = 432423.1833406145%float /\
    R_s' = 432423.1833406144%float /\
    PrimFloat.eqb R_s R_s' = false /\
    R_s <> R_s'.
Proof.
  destruct gas_models_binary64_design_point as (H1 & H2 & _ & H4 & H5 & _).
  eexists _, _, _, _. split; [exact H1|]. split; [exact H2|].
  split; [exact H4|]. split; [reflexivity|]. split; [reflexivity|].
  split; [exact H5|].
  intros E.
  pose proof (f_equal (fun x => PrimFloat.eqb x 432423.1833406144%float) E)
    as H.
  vm_compute in H. discriminate.
Qed.

(** C9 (amended): the two gas models agree up to rounding.  Their constants
    coincide and they weigh the same mole fractions, so for every
    dissociation degree they compute the same mean molecular weight in
    g/mol, bit for bit; DES-001 divides it by 1000.0 and derives
    [R_UNIVERSAL / M_bar], VER-001 derives [(R_universal / M_bar) * 1000.0].
    Over exact reals, for a dissociation degree in [0,1], the mean molecular
    weight of DES-001 times 1000 is the one of VER-001 and the two specific
    gas constants are equal, also as stored by
    [compute_nozzle_flow_properties].  In binary64 arithmetic the unit
    conversion rounds at different points: at the dissociation degree 0.5
    the mean molecular weights still agree, but the two specific gas
    constants are 432423.1833406145 and 432423.1833406144, one unit in the
    last place apart. *)
Theorem gas_models_agree (alpha : R) (a : float) :
  0 <= alpha <= 1 ->
  (DES001.M_NH3 = VER001.M_NH3 /\
   DES001.M_N2 = VER001.M_N2 /\
   DES001.M_H2 = VER001.M_H2 /\
   DES001.R_UNIVERSAL = VER001.R_universal) /\
  (DES001_binary64.M_NH3 = VER001_binary64.M_NH3 /\
   DES001_binary64.M_N2 = VER001_binary64.M_N2 /\
   DES001_binary64.M_H2 = VER001_binary64.M_H2 /\
   DES001_binary64.R_UNIVERSAL = VER001_binary64.R_universal) /\
  DES001_binary64.compute_gas_properties a
  = (M_bar_g <- VER001_binary64.compute_mean_molecular_weight a ;;
     R_specific <-
       pydiv64 DES001_binary64.R_UNIVERSAL (M_bar_g / 1000.0)%float ;;
     Ok ((M_bar_g / 1000.0)%float, R_specific)) /\
  (exists M_bar R_s M_bar_g,
      DES001.compute_gas_properties alpha = Ok (M_bar, R_s) /\
      VER001.compute_mean_molecular_weight alpha = Ok M_bar_g /\
      M_bar * 1000 = M_bar_g /\
      M_bar_g = 32.046 / (4 / 3 + 2 / 3 * alpha) /\
      R_s = DES001.R_UNIVERSAL / M_bar /\
      R_s = VER001.R_universal / M_bar_g * 1000.0 /\
      forall brentq Tc Pc area_ratio gamma flow,
        VER001.compute_nozzle_flow_properties brentq Tc Pc area_ratio gamma
          M_bar_g = Ok flow ->
        VER001.R_specific flow = R_s) /\
  (DES001_binary64.compute_gas_properties 0.5%float
   = Ok (0.0192276%float, 432423.1833406145%float) /\
   VER001_binary64.compute_mean_molecular_weight 0.5%float
   = Ok 19.227600000000002%float /\
   (0.0192276 * 1000)%float = 19.227600000000002%float /\
   VER001_binary64.R_specific 19.227600000000002%float
   = Ok 432423.1833406144%float /\
   PrimFloat.eqb 432423.1833406145%float 432423.1833406144%float = false /\
   (432423.1833406145 - 432423.1833406144)%float = 0x1p-34%float).
Proof.
  intros Ha.
  split; [repeat split; reflexivity|].
  split; [repeat split; reflexivity|].
  split; [reflexivity|].
  split; [now apply gas_models_exact_reals|].
  exact gas_models_binary64_design_point.
Qed.

Lemma gas_models_agree_witness :
  0 <= 0.5 <= 1 /\
  exists M_bar R_s M_bar_g,
    DES001.compute_gas_properties 0.5 = Ok (M_bar, R_s) /\
    VER001.compute_mean_molecular_weight 0.5 = Ok M_bar_g /\
    M_bar * 1000 = M_bar_g /\
    R_s = VER001.R_universal / M_bar_g * 1000.0.
Proof.
  assert (H : 0 <= 0.5 <= 1) by lra.
  split; [exact H|].
  destruct (gas_models_agree 0.5 0.5%float H)
    as (_ & _ & _ & (M & Rs & Mg & E1 & E2 & E3 & _ & _ & E4 & _) & _).
  exists M, Rs, Mg. repeat split; assumption.
Defined.

(** * Requirements compliance *)

(** The compliance loop of DES-001.  A band requirement [lo, hi] with
    [0 < lo <= hi] reports the smaller of the two one-sided margins and
    PASS exactly when the computed value lies in the band; the band
    [0.95, 1.05] with the computed thrust 1.0 reports 4.76 to two decimals
    and PASS.  A minimum requirement with threshold [t > 0] reports
    [(c - t) / t * 100] and PASS exactly when [c >= t]. *)
Lemma evaluate_requirement_margin (lo hi t c : R) :
  0 < lo <= hi -> 0 < t ->
  (fst (DES001.evaluate_requirement (DES001.Range lo hi c))
     = Rmin ((c - lo) / lo * 100) ((hi - c) / hi * 100) /\
   (snd (DES001.evaluate_requirement (DES001.Range lo hi c)) = DES001.PASS
    <-> lo <= c <= hi) /\
   (lo <= c <= hi
    <-> 0 <= (c - lo) / lo * 100 /\ 0 <= (hi - c) / hi * 100)) /\
  (4.755 <= fst (DES001.evaluate_requirement (DES001.Range 0.95 1.05 1.0))
     < 4.765 /\
   snd (DES001.evaluate_requirement (DES001.Range 0.95 1.05 1.0))
     = DES001.PASS) /\
  (fst (DES001.evaluate_requirement (DES001.Minimum t c)) = (c - t) / t * 100 /\
   (snd (DES001.evaluate_requirement (DES001.Minimum t c)) = DES001.PASS
    <-> c >= t)).
Proof.
  intros [Hlo Hhi] Ht. split; [|split].
  - cbn [DES001.evaluate_requirement fst snd]. split; [apply pymin_Rmin|]. split.
    + destruct (Rle_dec lo c), (Rle_dec c hi); split;
        try discriminate; try reflexivity; intros; lra.
    + assert (Hh : 0 < hi) by lra.
      assert (E1 : (c - lo) / lo * 100 = (c - lo) * (100 / lo)) by (field; lra).
      assert (E2 : (hi - c) / hi * 100 = (hi - c) * (100 / hi)) by (field; lra).
      assert (P1 : 0 < 100 / lo) by (apply Rdiv_lt_0_compat; lra).
      assert (P2 : 0 < 100 / hi) by (apply Rdiv_lt_0_compat; lra).
      rewrite E1, E2. split.
      * intros [H1 H2]. split; apply Rmult_le_pos; lra.
      * intros [H1 H2]. split.
        -- destruct (Rle_or_lt lo c); [assumption|exfalso].
           assert (0 < (lo - c) * (100 / lo)) by (apply Rmult_lt_0_compat; lra).
           lra.
        -- destruct (Rle_or_lt c hi); [assumption|exfalso].
           assert (0 < (c - hi) * (100 / hi)) by (apply Rmult_lt_0_compat; lra).
           lra.
  - cbn [DES001.evaluate_requirement fst snd]. split.
    + rewrite pymin_Rmin. unfold Rmin.
      destruct (Rle_dec ((1.0 - 0.95) / 0.95 * 100) ((1.05 - 1.0) / 1.05 * 100));
        lra.
    + destruct (Rle_dec 0.95 1.0), (Rle_dec 1.0 1.05); try reflexivity; lra.
  - cbn [DES001.evaluate_requirement fst snd]. split; [reflexivity|].
    destruct (Rge_dec c t); split; try discriminate; try reflexivity; intros; lra.
Qed.

(** The two requirement records of VER-001.  The band record of REQ-001
    reports the deviation from the nominal thrust 1.0 inside the band and no
    margin outside; the record of REQ-002 reports the margin over the
    threshold. *)
Lemma ver_requirement_records (F_nominal Isp_nominal : R) :
  (VER001.req_001_status (VER001.req_001_result F_nominal) = VER001.PASS
   <-> 0.95 <= F_nominal <= 1.05) /\
  (0.95 <= F_nominal <= 1.05 ->
   VER001.req_001_margin_percent (VER001.req_001_result F_nominal)
   = Some ((F_nominal - 1.0) / 1.0 * 100)) /\
  (~ 0.95 <= F_nominal <= 1.05 ->
   VER001.req_001_margin_percent (VER001.req_001_result F_nominal) = None) /\
  VER001.req_002_margin_percent (VER001.req_002_result Isp_nominal)
  = (Isp_nominal - 220.0) / 220.0 * 100 /\
  (VER001.req_002_status (VER001.req_002_result Isp_nominal) = VER001.PASS
   <-> Isp_nominal >= 220.0).
Proof.
  unfold VER001.req_001_result, VER001.req_002_result.
  cbn [VER001.req_001_status VER001.req_001_margin_percent
       VER001.req_002_status VER001.req_002_margin_percent].
  destruct (Rle_dec 0.95 F_nominal), (Rle_dec F_nominal 1.05),
    (Rge_dec Isp_nominal 220.0);
    repeat split; try discriminate; try reflexivity; intros; lra.
Qed.

(** C6, as the specification states it, fails on the band record of VER-001:
    for the computed thrust 1.0 in the band [0.95, 1.05] it reports the margin
    0, not the smaller one-sided margin 4.76. *)
Lemma ver_band_margin_at_nominal :
  VER001.req_001_margin_percent (VER001.req_001_result 1.0) = Some 0 /\
  VER001.req_001_status (VER001.req_001_result 1.0) = VER001.PASS /\
  0 <> Rmin ((1.0 - 0.95) / 0.95 * 100) ((1.05 - 1.0) / 1.05 * 100).
Proof.
  destruct (ver_requirement_records 1.0 0) as (H1 & H2 & _).
  split; [|split].
  - rewrite H2 by lra. f_equal. lra.
  - apply H1. lra.
  - unfold Rmin.
    destruct (Rle_dec ((1.0 - 0.95) / 0.95 * 100) ((1.05 - 1.0) / 1.05 * 100));
      lra.
Qed.

(** C6 (amended): the compliance margin.  The compliance loop of DES-001
    reports, for a band [lo, hi] with [0 < lo <= hi], the smaller of the two
    one-sided margins and PASS exactly when the computed value lies in the
    band (4.76 to two decimals and PASS for the band [0.95, 1.05] and the
    thrust 1.0), and for a minimum requirement with threshold [t > 0] the
    margin [(c - t) / t * 100] and PASS exactly when [c >= t].  VER-001
    reports the same verdicts and the same margin for its minimum
    requirement, whereas its band record reports the deviation
    [(c - 1.0) / 1.0 * 100] from the nominal thrust inside the band and no
    margin outside. *)
Theorem compliance_margin (lo hi t c : R) :
  0 < lo <= hi -> 0 < t ->
  ((fst (DES001.evaluate_requirement (DES001.Range lo hi c))
      = Rmin ((c - lo) / lo * 100) ((hi - c) / hi * 100) /\
    (snd (DES001.evaluate_requirement (DES001.Range lo hi c)) = DES001.PASS
     <-> lo <= c <= hi) /\
    (lo <= c <= hi
     <-> 0 <= (c - lo) / lo * 100 /\ 0 <= (hi - c) / hi * 100)) /\
   (4.755 <= fst (DES001.evaluate_requirement (DES001.Range 0.95 1.05 1.0))
      < 4.765 /\
    snd (DES001.evaluate_requirement (DES001.Range 0.95 1.05 1.0))
      = DES001.PASS) /\
   (fst (DES001.evaluate_requirement (DES001.Minimum t c)) = (c - t) / t * 100 /\
    (snd (DES001.evaluate_requirement (DES001.Minimum t c)) = DES001.PASS
     <-> c >= t))) /\
  ((VER001.req_001_status (VER001.req_001_result c) = VER001.PASS
    <-> 0.95 <= c <= 1.05) /\
   (0.95 <= c <= 1.05 ->
    VER001.req_001_margin_percent (VER001.req_001_result c)
    = Some ((c - 1.0) / 1.0 * 100)) /\
   (~ 0.95 <= c <= 1.05 ->
    VER001.req_001_margin_percent (VER001.req_001_result c) = None) /\
   VER001.req_002_margin_percent (VER001.req_002_result c)
   = (c - 220.0) / 220.0 * 100 /\
   (VER001.req_002_status (VER001.req_002_result c) = VER001.PASS
    <-> c >= 220.0)).
Proof.
  intros Hband Ht. split.
  - now apply evaluate_requirement_margin.
  - apply ver_requirement_records.
Qed.

Lemma compliance_margin_witness :
  fst (DES001.evaluate_requirement (DES001.Minimum 220.0 224.1))
  = (224.1 - 220.0) / 220.0 * 100.
Proof.
  assert (H1 : 0 < 0.95 <= 1.05) by lra.
  assert (H2 : 0 < 220.0) by lra.
  destruct (compliance_margin 0.95 1.05 220.0 224.1 H1 H2)
    as ((_ & _ & H & _) & _).
  exact H.
Defined.

(** The output record takes both margins from the loop and recomputes the
    same statuses; [main] returns [True] exactly when both are PASS. *)
Lemma requirements_compliance_records res :
  exists all_pass r1 r2,
    DES001.requirements_compliance res = Ok (all_pass, r1, r2) /\
    (DES001.margin_percent r1, DES001.compliance_status r1)
    = DES001.evaluate_requirement
        (DES001.Range 0.95 1.05 (DES001.thrust_N res)) /\
    (DES001.margin_percent r2, DES001.compliance_status r2)
    = DES001.evaluate_requirement
        (DES001.Minimum 220.0 (DES001.specific_impulse_s res)) /\
    (all_pass = true <->
     DES001.compliance_status r1 = DES001.PASS /\
     DES001.compliance_status r2 = DES001.PASS).
Proof.
  unfold DES001.requirements_compliance, DES001.requirements,
    DES001.check_requirements.
  cbn [fold_left DES001.evaluate_requirement DES001.dict_set DES001.dict_get
       String.eqb Ascii.eqb Bool.eqb bind].
  eexists _, _, _. split; [reflexivity|].
  cbn [DES001.margin_percent DES001.compliance_status].
  destruct (Rle_dec 0.95 (DES001.thrust_N res)),
    (Rle_dec (DES001.thrust_N res) 1.05),
    (Rge_dec (DES001.specific_impulse_s res) 220.0);
    (split; [reflexivity|split; [reflexivity|]]);
    split; try discriminate; try (intros [? ?]; discriminate); auto.
Qed.

(** When [main] returns, its output record holds the sizing, the margins of
    the loop and the statuses recomputed from the same values, whatever the
    verdicts: a failed requirement is reported, not raised. *)
Lemma main_reports_compliance brentq k out all_pass :
  DES001.main brentq k = Ok (out, all_pass) ->
  exists res,
    DES001.size_thruster brentq k = Ok res /\
    DES001.parameters out = k /\
    DES001.out_computed_results out = res /\
    (DES001.margin_percent (DES001.out_REQ_001 out),
     DES001.compliance_status (DES001.out_REQ_001 out))
    = DES001.evaluate_requirement
        (DES001.Range 0.95 1.05 (DES001.thrust_N res)) /\
    (DES001.margin_percent (DES001.out_REQ_002 out),
     DES001.compliance_status (DES001.out_REQ_002 out))
    = DES001.evaluate_requirement
        (DES001.Minimum 220.0 (DES001.specific_impulse_s res)).
Proof.
  intros H. unfold DES001.main in H.
  apply bind_ok in H as [res [Hres H]]. cbv zeta in H.
  destruct (requirements_compliance_records res)
    as (ap & r1 & r2 & E & H1 & H2 & _).
  rewrite E in H. cbn [bind] in H.
  apply bind_ok in H as [pd [_ H]]. injection H as <- <-.
  exists res. split; [exact Hres|].
  cbn [DES001.parameters DES001.out_computed_results DES001.out_REQ_001
       DES001.out_REQ_002].
  repeat split; assumption.
Qed.

(** * Comparison with the DES-001 record *)

Lemma compare_with_agent2_some des F Isp :
  exists c,
    VER001.compare_with_agent2 (Some des) F Isp = Some c /\
    VER001.agent2_thrust_N c = DES001.thrust_N des /\
    VER001.agent3_thrust_N c = F /\
    VER001.agent2_Isp_s c = DES001.specific_impulse_s des /\
    VER001.agent3_Isp_s c = Isp /\
    VER001.thrust_delta_percent c
    = Rabs (F - DES001.thrust_N des) / DES001.thrust_N des * 100 /\
    VER001.Isp_delta_percent c
    = Rabs (Isp - DES001.specific_impulse_s des)
      / DES001.specific_impulse_s des * 100 /\
    (VER001.thrust_flag c = true <-> VER001.thrust_delta_percent c > 5.0) /\
    (VER001.Isp_flag c = true <-> VER001.Isp_delta_percent c > 5.0).
Proof.
  eexists. split; [reflexivity|].
  cbn [VER001.agent2_thrust_N VER001.agent3_thrust_N VER001.agent2_Isp_s
       VER001.agent3_Isp_s VER001.thrust_delta_percent VER001.Isp_delta_percent
       VER001.thrust_flag VER001.Isp_flag].
  repeat (split; [reflexivity|]).
  split.
  - destruct (Rgt_dec _ 5.0); split; try discriminate; try reflexivity;
      intros; lra.
  - destruct (Rgt_dec _ 5.0); split; try discriminate; try reflexivity;
      intros; lra.
Qed.

(** For a positive primary value the unsigned delta is the absolute value of
    the signed percentage delta. *)
Lemma unsigned_delta p s :
  0 < p -> Rabs (s - p) / p * 100 = Rabs ((s - p) / p * 100).
Proof.
  intros Hp. unfold Rdiv. rewrite !Rabs_mult.
  rewrite (Rabs_pos_eq (/ p)) by (left; now apply Rinv_0_lt_compat).
  rewrite (Rabs_pos_eq 100) by lra. reflexivity.
Qed.

(** C7, as the specification states it, fails: for the primary thrust 1.03
    and the secondary thrust 1.0, the one VER-001 computes, the reported
    delta is [|1.0 - 1.03| / 1.03 * 100], about 2.91, not the signed
    [(1.0 - 1.03) / 1.03 * 100], about -2.91; and the record compares two
    fields. *)
Lemma comparison_delta_is_unsigned :
  exists c,
    VER001.compare_with_agent2 (Some des001_sample_high) 1.0 224.1 = Some c /\
    VER001.thrust_delta_percent c = 3 / 1.03 /\
    (1.0 - 1.03) / 1.03 * 100 = - (3 / 1.03) /\
    VER001.thrust_delta_percent c <> (1.0 - 1.03) / 1.03 * 100.
Proof.
  destruct (compare_with_agent2_some des001_sample_high 1.0 224.1)
    as (c & E & _ & _ & _ & _ & Hd & _).
  exists c. split; [exact E|].
  cbn [DES001.thrust_N des001_sample_high] in Hd.
  assert (H3 : VER001.thrust_delta_percent c = 3 / 1.03).
  { rewrite Hd. rewrite Rabs_left by lra. lra. }
  split; [exact H3|]. split; [lra|]. rewrite H3. lra.
Qed.

(** [verify_thrust_Isp_performance] with and without a DES-001 record: the
    comparison neither aborts the run nor changes what is computed. *)
Lemma comparison_is_advisory brentq des :
  match VER001.verify_thrust_Isp_performance brentq (Some des),
        VER001.verify_thrust_Isp_performance brentq None with
  | Ok o1, Ok o2 =>
      VER001.out_sizing o1 = VER001.out_sizing o2 /\
      VER001.out_req_001 o1 = VER001.out_req_001 o2 /\
      VER001.out_req_002 o1 = VER001.out_req_002 o2 /\
      VER001.comparison_with_agent2 o1
      = VER001.compare_with_agent2 (Some des)
          (VER001.F_nominal (VER001.out_sizing o1))
          (VER001.Isp_nominal (VER001.out_sizing o1)) /\
      VER001.comparison_with_agent2 o2 = None
  | Raise e1, Raise e2 => e1 = e2
  | _, _ => False
  end.
Proof.
  unfold VER001.verify_thrust_Isp_performance.
  destruct (VER001.size_nominal brentq VER001.DESIGN_INPUTS) as [s|e];
    cbn [bind].
  - repeat split; reflexivity.
  - reflexivity.
Qed.

(** C7 (amended): the comparison contract.  The harness compares two fields,
    thrust and specific impulse.  For non-zero primary values it stores, for
    each field, the primary and the secondary value unchanged, side by side,
    together with the unsigned delta [|secondary - primary| / primary * 100],
    and it flags the field exactly when this delta exceeds 5.0; for a
    positive primary value the delta is the absolute value of the signed
    percentage delta.  The comparison never aborts the run and does not
    change anything else that is computed. *)
Theorem comparison_contract (des : DES001.computed_results) (F Isp : R) :
  DES001.thrust_N des <> 0 ->
  DES001.specific_impulse_s des <> 0 ->
  (exists c,
     VER001.compare_with_agent2 (Some des) F Isp = Some c /\
     VER001.agent2_thrust_N c = DES001.thrust_N des /\
     VER001.agent3_thrust_N c = F /\
     VER001.agent2_Isp_s c = DES001.specific_impulse_s des /\
     VER001.agent3_Isp_s c = Isp /\
     VER001.thrust_delta_percent c
     = Rabs (F - DES001.thrust_N des) / DES001.thrust_N des * 100 /\
     VER001.Isp_delta_percent c
     = Rabs (Isp - DES001.specific_impulse_s des)
       / DES001.specific_impulse_s des * 100 /\
     (VER001.thrust_flag c = true <-> VER001.thrust_delta_percent c > 5.0) /\
     (VER001.Isp_flag c = true <-> VER001.Isp_delta_percent c > 5.0) /\
     (0 < DES001.thrust_N des ->
      VER001.thrust_delta_percent c
      = Rabs ((F - DES001.thrust_N des) / DES001.thrust_N des * 100)) /\
     (0 < DES001.specific_impulse_s des ->
      VER001.Isp_delta_percent c
      = Rabs ((Isp - DES001.specific_impulse_s des)
              / DES001.specific_impulse_s des * 100))) /\
  (forall brentq,
     match VER001.verify_thrust_Isp_performance brentq (Some des),
           VER001.verify_thrust_Isp_performance brentq None with
     | Ok o1, Ok o2 =>
         VER001.out_sizing o1 = VER001.out_sizing o2 /\
         VER001.out_req_001 o1 = VER001.out_req_001 o2 /\
         VER001.out_req_002 o1 = VER001.out_req_002 o2 /\
         VER001.comparison_with_agent2 o1
         = VER001.compare_with_agent2 (Some des)
             (VER001.F_nominal (VER001.out_sizing o1))
             (VER001.Isp_nominal (VER001.out_sizing o1)) /\
         VER001.comparison_with_agent2 o2 = None
     | Raise e1, Raise e2 => e1 = e2
     | _, _ => False
     end).
Proof.
  intros _ _. split.
  - destruct (compare_with_agent2_some des F Isp)
      as (c & E & H1 & H2 & H3 & H4 & H5 & H6 & H7 & H8).
    exists c. repeat (split; [assumption|]). split.
    + intros Hp. rewrite H5. now apply unsigned_delta.
    + intros Hp. rewrite H6. now apply unsigned_delta.
  - intros brentq. apply comparison_is_advisory.
Qed.

Lemma comparison_contract_witness :
  DES001.thrust_N des001_sample <> 0 /\
  DES001.specific_impulse_s des001_sample <> 0 /\
  exists c,
    VER001.compare_with_agent2 (Some des001_sample) 1.06 224.1 = Some c /\
    VER001.thrust_delta_percent c = Rabs ((1.06 - 1.0) / 1.0 * 100) /\
    VER001.thrust_flag c = true.
Proof.
  assert (Ht : DES001.thrust_N des001_sample <> 0)
    by (cbn [DES001.thrust_N des001_sample]; lra).
  assert (Hi : DES001.specific_impulse_s des001_sample <> 0)
    by (cbn [DES001.specific_impulse_s des001_sample]; lra).
  split; [exact Ht|]. split; [exact Hi|].
  destruct (comparison_contract des001_sample 1.06 224.1 Ht Hi)
    as [(c & E & _ & _ & _ & _ & _ & _ & Hf & _ & Hd & _) _].
  exists c. split; [exact E|].
  assert (Hp : 0 < DES001.thrust_N des001_sample)
    by (cbn [DES001.thrust_N des001_sample]; lra).
  specialize (Hd Hp). cbn [DES001.thrust_N des001_sample] in Hd.
  split; [exact Hd|].
  apply Hf. rewrite Hd. rewrite Rabs_right by lra. lra.
Defined.

(** * The nozzle functions on their domain *)

Lemma compute_c_star_ok gamma R_specific T_c :
  1 < gamma ->
  DES001.compute_c_star gamma R_specific T_c =
  Ok (sqrt (gamma * R_specific * T_c)
      / (gamma * Rpower (2 / (gamma + 1)) ((gamma + 1) / (gamma - 1) / 2))).
Proof.
  intros Hg. unfold DES001.compute_c_star.
  rewrite !pydiv_ok by lra. cbn [bind].
  rewrite pypow_ok by (apply Rdiv_lt_0_compat; lra). reflexivity.
Qed.

Lemma compute_c_star_pos gamma R_specific T_c c_star :
  1 < gamma -> 0 < R_specific -> 0 < T_c ->
  DES001.compute_c_star gamma R_specific T_c = Ok c_star -> 0 < c_star.
Proof.
  intros Hg HR HT H. rewrite compute_c_star_ok in H by assumption.
  injection H as <-. apply Rdiv_lt_0_compat.
  - apply sqrt_lt_R0. repeat apply Rmult_lt_0_compat; lra.
  - apply Rmult_lt_0_compat; [lra|apply exp_pos].
Qed.

Lemma compute_characteristic_velocity_ok Tc gamma M_bar :
  1 < gamma -> M_bar <> 0 ->
  VER001.compute_characteristic_velocity Tc gamma M_bar =
  Ok (sqrt (gamma * (VER001.R_universal / M_bar * 1000.0) * Tc)
      / (gamma * sqrt (Rpower (2 / (gamma + 1)) ((gamma + 1) / (gamma - 1))))).
Proof.
  intros Hg HM. unfold VER001.compute_characteristic_velocity.
  rewrite !pydiv_ok by lra. cbn [bind].
  rewrite !float_1, !float_2.
  rewrite pypow_ok by (apply Rdiv_lt_0_compat; lra). reflexivity.
Qed.

Lemma compute_characteristic_velocity_pos Tc gamma M_bar c_star :
  1 < gamma -> 0 < M_bar -> 0 < Tc ->
  VER001.compute_characteristic_velocity Tc gamma M_bar = Ok c_star ->
  0 < c_star.
Proof.
  intros Hg HM HT H.
  rewrite compute_characteristic_velocity_ok in H by lra.
  injection H as <-. apply Rdiv_lt_0_compat.
  - apply sqrt_lt_R0.
    assert (Hq : 0 < VER001.R_universal / M_bar * 1000.0).
    { apply Rmult_lt_0_compat; [|lra].
      apply Rdiv_lt_0_compat; [unfold VER001.R_universal; lra|assumption]. }
    apply Rmult_lt_0_compat; [apply Rmult_lt_0_compat; [lra|exact Hq]|lra].
  - apply Rmult_lt_0_compat; [lra|]. apply sqrt_lt_R0. apply exp_pos.
Qed.

Lemma compute_isentropic_expansion_ok M_e P_c gamma R_specific T_c :
  1 < gamma ->
  DES001.compute_isentropic_expansion M_e P_c gamma R_specific T_c =
  Ok (P_c * Rpower (isentropic_factor gamma M_e) (- gamma / (gamma - 1)),
      T_c / isentropic_factor gamma M_e,
      M_e * sqrt (gamma * R_specific * (T_c / isentropic_factor gamma M_e))).
Proof.
  intros Hg. unfold DES001.compute_isentropic_expansion.
  fold (isentropic_factor gamma M_e).
  pose proof (isentropic_factor_pos gamma M_e Hg) as Ht.
  rewrite pydiv_ok by lra. cbn [bind].
  rewrite pypow_ok by assumption. cbn [bind].
  rewrite pydiv_ok by lra. reflexivity.
Qed.

Lemma compute_nozzle_flow_properties_inv brentq Tc Pc area_ratio gamma M_bar
    flow :
  1 < gamma ->
  VER001.compute_nozzle_flow_properties brentq Tc Pc area_ratio gamma M_bar
  = Ok flow ->
  M_bar <> 0 /\
  VER001.solve_exit_mach_number brentq area_ratio gamma
  = Ok (VER001.exit_Mach flow) /\
  VER001.R_specific flow = VER001.R_universal / M_bar * 1000.0 /\
  VER001.exit_temperature_K flow
  = Tc / isentropic_factor gamma (VER001.exit_Mach flow) /\
  VER001.exit_pressure_Pa flow
  = Pc * Rpower (isentropic_factor gamma (VER001.exit_Mach flow))
           (- gamma / (gamma - 1)) /\
  VER001.exit_velocity_m_s flow
  = VER001.exit_Mach flow
    * sqrt (gamma * VER001.R_specific flow * VER001.exit_temperature_K flow).
Proof.
  intros Hg H. unfold VER001.compute_nozzle_flow_properties in H.
  apply bind_ok in H as [q [Hq H]]. apply pydiv_inv in Hq as [HM ->].
  apply bind_ok in H as [Me [HMe H]].
  rewrite !float_1, !float_2 in H. fold (isentropic_factor gamma Me) in H.
  pose proof (isentropic_factor_pos gamma Me Hg) as Ht.
  rewrite !pydiv_ok in H by lra. cbn [bind] in H.
  rewrite pypow_ok in H by assumption. cbn [bind] in H.
  injection H as <-.
  cbn [VER001.exit_Mach VER001.R_specific VER001.exit_temperature_K
       VER001.exit_pressure_Pa VER001.exit_velocity_m_s].
  repeat split; try assumption; reflexivity.
Qed.

Lemma compute_nozzle_flow_properties_ok brentq Tc Pc area_ratio gamma M_bar Me :
  1 < gamma -> M_bar <> 0 ->
  VER001.solve_exit_mach_number brentq area_ratio gamma = Ok Me ->
  returns
    (VER001.compute_nozzle_flow_properties brentq Tc Pc area_ratio gamma M_bar).
Proof.
  intros Hg HM HMe. unfold VER001.compute_nozzle_flow_properties.
  rewrite pydiv_ok by assumption. cbn [bind]. rewrite HMe. cbn [bind].
  rewrite !float_1, !float_2. fold (isentropic_factor gamma Me).
  pose proof (isentropic_factor_pos gamma Me Hg) as Ht.
  rewrite !pydiv_ok by lra. cbn [bind].
  rewrite pypow_ok by assumption. cbn [bind].
  eexists. reflexivity.
Qed.

(** The throat area solves the thrust equation. *)
Lemma thrust_equation P_c V_e c_star P_e eps F :
  c_star <> 0 -> P_c * V_e / c_star + P_e * eps <> 0 ->
  P_c * (F / (P_c * V_e / c_star + P_e * eps)) / c_star * V_e
  + P_e * (eps * (F / (P_c * V_e / c_star + P_e * eps))) = F.
Proof.
  intros Hc Hd.
  set (D := P_c * V_e / c_star + P_e * eps) in *.
  replace (P_c * (F / D) / c_star * V_e + P_e * (eps * (F / D)))
    with (F / D * (P_c * V_e / c_star + P_e * eps)) by (field; split; assumption).
  fold D. field. exact Hd.
Qed.

Lemma thrust_denominator_pos P_c V_e c_star P_e eps :
  0 < P_c -> 0 <= V_e -> 0 < c_star -> 0 < P_e -> 0 < eps ->
  0 < P_c * V_e / c_star + P_e * eps.
Proof.
  intros HP HV Hc HPe He.
  assert (0 <= P_c * V_e / c_star).
  { unfold Rdiv. apply Rmult_le_pos.
    - apply Rmult_le_pos; lra.
    - left. now apply Rinv_0_lt_compat. }
  assert (0 < P_e * eps) by (now apply Rmult_lt_0_compat).
  lra.
Qed.

(** Steps of [size_thruster] behind a returned record. *)
Lemma size_thruster_inv brentq k res :
  1 < DES001.gamma k ->
  DES001.size_thruster brentq k = Ok res ->
  exists M_bar R_specific c_star M_e,
    DES001.compute_gas_properties (DES001.alpha k) = Ok (M_bar, R_specific) /\
    DES001.compute_c_star (DES001.gamma k) R_specific
      (DES001.chamber_temperature_K k) = Ok c_star /\
    DES001.exit_mach_from_area_ratio brentq (DES001.expansion_ratio k)
      (DES001.gamma k) = Ok M_e /\
    let P_c := DES001.chamber_pressure_MPa k * 1e6 in
    let P_e :=
      P_c * Rpower (isentropic_factor (DES001.gamma k) M_e)
              (- DES001.gamma k / (DES001.gamma k - 1)) in
    let T_e :=
      DES001.chamber_temperature_K k / isentropic_factor (DES001.gamma k) M_e in
    let V_e_actual :=
      M_e * sqrt (DES001.gamma k * R_specific * T_e)
      * DES001.nozzle_efficiency k in
    let At :=
      DES001.target_thrust k
      / (P_c * V_e_actual / c_star + P_e * DES001.expansion_ratio k) in
    DES001.exit_Mach_number res = M_e /\
    DES001.exit_pressure_Pa res = P_e /\
    DES001.exit_temperature_K res = T_e /\
    DES001.exit_velocity_m_s res = V_e_actual /\
    DES001.characteristic_velocity_m_s res = c_star /\
    DES001.throat_area_m2 res = At /\
    DES001.mass_flow_rate_kg_s res = P_c * At / c_star /\
    DES001.exit_area_m2 res = DES001.expansion_ratio k * At /\
    DES001.thrust_N res
    = DES001.mass_flow_rate_kg_s res * DES001.exit_velocity_m_s res
      + DES001.exit_pressure_Pa res * DES001.exit_area_m2 res.
Proof.
  intros Hg H. unfold DES001.size_thruster in H.
  apply bind_ok in H as [[M_bar R_specific] [Hgas H]].
  apply bind_ok in H as [c_star [Hc H]].
  apply bind_ok in H as [M_e [HM H]].
  rewrite compute_isentropic_expansion_ok in H by assumption.
  cbn [bind] in H. injection H as <-.
  exists M_bar, R_specific, c_star, M_e.
  repeat (split; [assumption|]).
  cbn. repeat split; reflexivity.
Qed.

(** * The exit-Mach solvers *)

Lemma exit_mach_bracket brentq area_ratio gamma M :
  brentq_bracket_contract brentq ->
  DES001.exit_mach_from_area_ratio brentq area_ratio gamma = Ok M ->
  1.01 <= M <= 10.0.
Proof. intros Hb H. exact (Hb _ _ _ _ H). Qed.

Lemma solve_exit_mach_bracket brentq area_ratio gamma M :
  brentq_bracket_contract brentq ->
  VER001.solve_exit_mach_number brentq area_ratio gamma = Ok M ->
  1.01 <= M <= 50.0.
Proof. intros Hb H. exact (Hb _ _ _ _ H). Qed.

Lemma exit_mach_is_root brentq area_ratio gamma M :
  brentq_bracket_contract brentq -> brentq_root_contract brentq ->
  1 < gamma ->
  DES001.exit_mach_from_area_ratio brentq area_ratio gamma = Ok M ->
  area_mach gamma M = area_ratio.
Proof.
  intros Hb Hr Hg H.
  pose proof (exit_mach_bracket _ _ _ _ Hb H) as HM.
  apply Hr in H. rewrite area_ratio_eq_ok in H by lra.
  injection H as H. lra.
Qed.

(** An area ratio of at most 1 leaves both residuals positive at the two
    ends of the bracket. *)
Lemma subsonic_area_ratio_rejected brentq area_ratio gamma :
  brentq_sign_contract brentq -> 1 < gamma -> area_ratio <= 1 ->
  DES001.exit_mach_from_area_ratio brentq area_ratio gamma = Raise ValueError /\
  VER001.solve_exit_mach_number brentq area_ratio gamma = Raise ValueError.
Proof.
  intros Hs Hg Ha.
  pose proof (area_mach_gt_1 gamma 1.01 Hg ltac:(lra)) as H1.
  pose proof (area_mach_gt_1 gamma 10.0 Hg ltac:(lra)) as H2.
  pose proof (area_mach_gt_1 gamma 50.0 Hg ltac:(lra)) as H3.
  split.
  - apply (Hs _ _ _ (area_mach gamma 1.01 - area_ratio)
                    (area_mach gamma 10.0 - area_ratio)).
    + apply area_ratio_eq_ok; lra.
    + apply area_ratio_eq_ok; lra.
    + apply Rmult_lt_0_compat; lra.
  - apply (Hs _ _ _ (area_mach gamma 1.01 - area_ratio)
                    (area_mach gamma 50.0 - area_ratio)).
    + apply area_ratio_residual_ok; lra.
    + apply area_ratio_residual_ok; lra.
    + apply Rmult_lt_0_compat; lra.
Qed.

(** C5: error behaviour of the exit-Mach solvers, for a root finder that
    meets the sign and the bracket contracts and a specific-heat ratio above
    1.  An area ratio of at most 1 raises; residual values of the same strict
    sign at the two ends of the bracket raise; and a returned Mach number lies
    in the bracket, hence above 1. *)
Theorem exit_mach_solver_errors (brentq : root_finder) (gamma : R) :
  brentq_sign_contract brentq -> brentq_bracket_contract brentq ->
  1 < gamma ->
  (forall area_ratio, area_ratio <= 1 ->
     raises (DES001.exit_mach_from_area_ratio brentq area_ratio gamma) /\
     raises (VER001.solve_exit_mach_number brentq area_ratio gamma)) /\
  (forall area_ratio fa fb,
     DES001.area_ratio_eq area_ratio gamma 1.01 = Ok fa ->
     DES001.area_ratio_eq area_ratio gamma 10.0 = Ok fb ->
     0 < fa * fb ->
     raises (DES001.exit_mach_from_area_ratio brentq area_ratio gamma)) /\
  (forall area_ratio fa fb,
     VER001.area_ratio_residual area_ratio gamma 1.01 = Ok fa ->
     VER001.area_ratio_residual area_ratio gamma 50.0 = Ok fb ->
     0 < fa * fb ->
     raises (VER001.solve_exit_mach_number brentq area_ratio gamma)) /\
  (forall area_ratio M,
     DES001.exit_mach_from_area_ratio brentq area_ratio gamma = Ok M ->
     1 < M /\ 1.01 <= M <= 10.0) /\
  (forall area_ratio M,
     VER001.solve_exit_mach_number brentq area_ratio gamma = Ok M ->
     1 < M /\ 1.01 <= M <= 50.0).
Proof.
  intros Hs Hb Hg. repeat split.
  - exists ValueError. now apply subsonic_area_ratio_rejected.
  - exists ValueError. now apply subsonic_area_ratio_rejected.
  - intros area_ratio fa fb Ha Hb' Hp. exists ValueError.
    exact (Hs _ _ _ _ _ Ha Hb' Hp).
  - intros area_ratio fa fb Ha Hb' Hp. exists ValueError.
    exact (Hs _ _ _ _ _ Ha Hb' Hp).
  - pose proof (exit_mach_bracket _ _ _ _ Hb H). lra.
  - pose proof (exit_mach_bracket _ _ _ _ Hb H). lra.
  - pose proof (exit_mach_bracket _ _ _ _ Hb H). lra.
  - pose proof (solve_exit_mach_bracket _ _ _ _ Hb H). lra.
  - pose proof (solve_exit_mach_bracket _ _ _ _ Hb H). lra.
  - pose proof (solve_exit_mach_bracket _ _ _ _ Hb H). lra.
Qed.

(** * The isentropic expansion *)

Lemma isentropic_invariant gamma P_c T_c t :
  1 < gamma -> 0 < P_c -> 0 < t ->
  T_c / t * Rpower (P_c * Rpower t (- gamma / (gamma - 1))) ((1 - gamma) / gamma)
  = T_c * Rpower P_c ((1 - gamma) / gamma).
Proof.
  intros Hg HP Ht.
  rewrite <- Rpower_mult_distr by (try assumption; apply exp_pos).
  rewrite Rpower_mult.
  replace (- gamma / (gamma - 1) * ((1 - gamma) / gamma)) with 1 by (field; lra).
  rewrite Rpower_1 by assumption. field. lra.
Qed.

(** C2: isentropic consistency.  On valid chamber conditions the evaluator
    returns, and [T_e * P_e ^ ((1 - gamma) / gamma)] reproduces
    [T_c * P_c ^ ((1 - gamma) / gamma)] within the relative error 1e-6 (the
    two are equal); the same holds for the exit state of
    [compute_nozzle_flow_properties]. *)
Theorem isentropic_consistency (M_e P_c gamma R_s T_c : R) :
  0 < M_e -> 1 < gamma -> 0 < P_c -> 0 < T_c -> 0 < R_s ->
  (exists P_e T_e V_e,
     DES001.compute_isentropic_expansion M_e P_c gamma R_s T_c
     = Ok (P_e, T_e, V_e) /\
     rel_err (T_e * Rpower P_e ((1 - gamma) / gamma))
             (T_c * Rpower P_c ((1 - gamma) / gamma)) <= 1e-6) /\
  (forall brentq area_ratio M_bar flow,
     VER001.compute_nozzle_flow_properties brentq T_c P_c area_ratio gamma M_bar
     = Ok flow ->
     rel_err (VER001.exit_temperature_K flow
              * Rpower (VER001.exit_pressure_Pa flow) ((1 - gamma) / gamma))
             (T_c * Rpower P_c ((1 - gamma) / gamma)) <= 1e-6).
Proof.
  intros HM Hg HP HT HR. split.
  - rewrite compute_isentropic_expansion_ok by assumption.
    eexists _, _, _. split; [reflexivity|].
    rewrite isentropic_invariant;
      [apply rel_err_exact|assumption|assumption|].
    now apply isentropic_factor_pos.
  - intros brentq area_ratio M_bar flow H.
    apply compute_nozzle_flow_properties_inv in H; [|assumption].
    destruct H as (_ & _ & _ & -> & -> & _).
    rewrite isentropic_invariant;
      [apply rel_err_exact|assumption|assumption|].
    now apply isentropic_factor_pos.
Qed.

Lemma isentropic_consistency_witness :
  exists P_e T_e V_e,
    DES001.compute_isentropic_expansion 2 175000 1.28 432 1400
    = Ok (P_e, T_e, V_e) /\
    rel_err (T_e * Rpower P_e ((1 - 1.28) / 1.28))
            (1400 * Rpower 175000 ((1 - 1.28) / 1.28)) <= 1e-6.
Proof.
  apply (isentropic_consistency 2 175000 1.28 432 1400); lra.
Defined.

(** C3: bounds of the nozzle solution.  For a root finder that meets the
    bracket contract, a specific-heat ratio and an area ratio above 1 and
    positive chamber conditions, a solved exit Mach number exceeds 1, and the
    exit pressure and temperature computed from it lie strictly between 0 and
    their chamber values. *)
Theorem nozzle_solution_bounds (brentq : root_finder)
    (gamma eps P_c T_c R_s M_e : R) :
  brentq_bracket_contract brentq ->
  1 < gamma -> 1 < eps -> 0 < P_c -> 0 < T_c ->
  DES001.exit_mach_from_area_ratio brentq eps gamma = Ok M_e ->
  exists P_e T_e V_e,
    DES001.compute_isentropic_expansion M_e P_c gamma R_s T_c
    = Ok (P_e, T_e, V_e) /\
    1 < M_e /\ 0 < P_e < P_c /\ 0 < T_e < T_c.
Proof.
  intros Hb Hg He HP HT H.
  pose proof (exit_mach_bracket _ _ _ _ Hb H) as HM.
  rewrite compute_isentropic_expansion_ok by assumption.
  eexists _, _, _. split; [reflexivity|].
  pose proof (isentropic_factor_gt_1 gamma M_e Hg ltac:(lra)) as Ht.
  pose proof (pressure_ratio_lt_1 gamma M_e Hg ltac:(lra)) as Hp.
  pose proof (exp_pos (- gamma / (gamma - 1) * ln (isentropic_factor gamma M_e)))
    as Hp0.
  fold (Rpower (isentropic_factor gamma M_e) (- gamma / (gamma - 1))) in Hp0.
  split; [lra|]. split; [split|split].
  - now apply Rmult_lt_0_compat.
  - rewrite <- (Rmult_1_r P_c) at 2. apply Rmult_lt_compat_l; assumption.
  - apply Rdiv_lt_0_compat; lra.
  - apply Rmult_lt_reg_r with (isentropic_factor gamma M_e); [lra|].
    unfold Rdiv. rewrite Rmult_assoc, Rinv_l by lra. nra.
Qed.


(** * The design points are solvable *)

(** Bounds on the area-Mach function from integer powers of its base. *)
Lemma area_mach_upper gamma M n :
  1 < gamma -> 1 <= M -> (gamma + 1) / (2 * (gamma - 1)) <= INR n ->
  area_mach gamma M
  <= 1 / M * (2 / (gamma + 1) * isentropic_factor gamma M) ^ n.
Proof.
  intros Hg HM He. unfold area_mach.
  apply Rmult_le_compat_l.
  - left. apply Rdiv_lt_0_compat; lra.
  - apply Rpower_le_pow; [|assumption].
    apply Rmult_le_reg_r with (gamma + 1); [lra|].
    unfold isentropic_factor.
    replace (2 / (gamma + 1) * (1 + (gamma - 1) / 2 * M ^ 2) * (gamma + 1))
      with (2 + (gamma - 1) * M ^ 2) by (field; lra).
    assert (HM2 : 1 <= M ^ 2) by (simpl; nra).
    assert (0 <= (gamma - 1) * (M ^ 2 - 1)) by (apply Rmult_le_pos; lra).
    lra.
Qed.

Lemma area_mach_lower gamma M n :
  1 < gamma -> 1 <= M -> INR n <= (gamma + 1) / (2 * (gamma - 1)) ->
  1 / M * (2 / (gamma + 1) * isentropic_factor gamma M) ^ n
  <= area_mach gamma M.
Proof.
  intros Hg HM He. unfold area_mach.
  apply Rmult_le_compat_l.
  - left. apply Rdiv_lt_0_compat; lra.
  - apply pow_le_Rpower; [|assumption].
    apply Rmult_le_reg_r with (gamma + 1); [lra|].
    unfold isentropic_factor.
    replace (2 / (gamma + 1) * (1 + (gamma - 1) / 2 * M ^ 2) * (gamma + 1))
      with (2 + (gamma - 1) * M ^ 2) by (field; lra).
    assert (HM2 : 1 <= M ^ 2) by (simpl; nra).
    assert (0 <= (gamma - 1) * (M ^ 2 - 1)) by (apply Rmult_le_pos; lra).
    lra.
Qed.

Lemma area_mach_design_bracket :
  area_mach 1.28 1.01 <= 2 /\ 100 <= area_mach 1.28 10.0.
Proof.
  split.
  - eapply Rle_trans; [apply (area_mach_upper 1.28 1.01 5)|].
    + lra.
    + lra.
    + simpl. lra.
    + unfold isentropic_factor. simpl. lra.
  - eapply Rle_trans; [|apply (area_mach_lower 1.28 10.0 4)].
    + unfold isentropic_factor. simpl. lra.
    + lra.
    + lra.
    + simpl. lra.
Qed.

Lemma area_mach_verification_bracket :
  area_mach 1.245 1.01 <= 2 /\ 100 <= area_mach 1.245 50.0.
Proof.
  split.
  - eapply Rle_trans; [apply (area_mach_upper 1.245 1.01 5)|].
    + lra.
    + lra.
    + simpl. lra.
    + unfold isentropic_factor. simpl. lra.
  - eapply Rle_trans; [|apply (area_mach_lower 1.245 50.0 4)].
    + unfold isentropic_factor. simpl. lra.
    + lra.
    + lra.
    + simpl. lra.
Qed.

Lemma exit_mach_exact_returns eps gamma :
  1 < gamma -> area_mach gamma 1.01 <= eps <= area_mach gamma 10.0 ->
  returns (DES001.exit_mach_from_area_ratio brentq_exact eps gamma).
Proof.
  intros Hg He. unfold DES001.exit_mach_from_area_ratio.
  apply (brentq_exact_returns _ _ _ (area_mach gamma 1.01 - eps)
                                    (area_mach gamma 10.0 - eps)).
  - apply area_ratio_eq_ok; lra.
  - apply area_ratio_eq_ok; lra.
  - nra.
  - destruct (area_mach_root gamma 1.01 10.0 eps Hg) as [M [HM HR]];
      [lra|lra|exact He|].
    exists M. split; [exact HM|].
    rewrite area_ratio_eq_ok by lra. now rewrite HR.
Qed.

Lemma solve_exit_mach_exact_returns eps gamma :
  1 < gamma -> area_mach gamma 1.01 <= eps <= area_mach gamma 50.0 ->
  returns (VER001.solve_exit_mach_number brentq_exact eps gamma).
Proof.
  intros Hg He. unfold VER001.solve_exit_mach_number.
  apply (brentq_exact_returns _ _ _ (area_mach gamma 1.01 - eps)
                                    (area_mach gamma 50.0 - eps)).
  - apply area_ratio_residual_ok; lra.
  - apply area_ratio_residual_ok; lra.
  - nra.
  - destruct (area_mach_root gamma 1.01 50.0 eps Hg) as [M [HM HR]];
      [lra|lra|exact He|].
    exists M. split; [exact HM|].
    rewrite area_ratio_residual_ok by lra. now rewrite HR.
Qed.

Lemma size_thruster_returns brentq k M_e :
  valid_design k ->
  DES001.exit_mach_from_area_ratio brentq (DES001.expansion_ratio k)
    (DES001.gamma k) = Ok M_e ->
  returns (DES001.size_thruster brentq k).
Proof.
  intros (Hg & Ha & HT & HP & He & Hn & HF) HM.
  unfold DES001.size_thruster.
  rewrite compute_gas_properties_ok by lra. cbn [bind].
  rewrite compute_c_star_ok by assumption. cbn [bind].
  rewrite HM. cbn [bind].
  rewrite compute_isentropic_expansion_ok by assumption. cbn [bind].
  eexists. reflexivity.
Qed.

Lemma size_nominal_returns brentq inputs Me :
  0 <= VER001.alpha_ammonia_dissociation inputs <= 1 ->
  VER001.solve_exit_mach_number brentq (VER001.expansion_ratio inputs)
    (VER001.compute_specific_heat_ratio
       (VER001.alpha_ammonia_dissociation inputs)) = Ok Me ->
  returns (VER001.size_nominal brentq inputs).
Proof.
  intros Ha HMe. unfold VER001.size_nominal.
  set (alpha := VER001.alpha_ammonia_dissociation inputs) in *.
  assert (Hg : 1 < VER001.compute_specific_heat_ratio alpha)
    by (unfold VER001.compute_specific_heat_ratio; lra).
  rewrite compute_mean_molecular_weight_ok by lra. cbn [bind].
  pose proof (mean_weight_pos alpha ltac:(lra)) as HM.
  rewrite compute_characteristic_velocity_ok by lra. cbn [bind].
  unfold VER001.compute_throat_area. rewrite HMe. cbn [bind].
  destruct (compute_nozzle_flow_properties_ok brentq
              (VER001.chamber_temperature_K inputs)
              (VER001.chamber_pressure_ratio inputs
               * (VER001.feed_pressure_nominal_MPa inputs * 1e6))
              (VER001.expansion_ratio inputs)
              (VER001.compute_specific_heat_ratio alpha)
              (32.046 / (4 / 3 + 2 / 3 * alpha)) Me Hg ltac:(lra) HMe)
    as [flow Hflow].
  rewrite Hflow. cbn [bind]. eexists. reflexivity.
Qed.

(** The design constants of the script are valid. *)
Lemma DESIGN_valid : valid_design DES001.DESIGN.
Proof.
  unfold valid_design, DES001.DESIGN.
  cbn [DES001.gamma DES001.alpha DES001.chamber_temperature_K
       DES001.chamber_pressure_MPa DES001.expansion_ratio
       DES001.nozzle_efficiency DES001.target_thrust].
  unfold DES001.GAMMA, DES001.ALPHA, DES001.T_CHAMBER,
    DES001.DESIGN_CHAMBER_PRESSURE, DES001.DESIGN_FEED_PRESSURE,
    DES001.CHAMBER_PRESSURE_RATIO, DES001.DESIGN_EXPANSION_RATIO,
    DES001.NOZZLE_EFFICIENCY, DES001.TARGET_THRUST.
  lra.
Qed.

(** Both scripts run to completion at their design point, with the exact
    root finder. *)
Lemma design_point_returns :
  returns (DES001.size_thruster brentq_exact DES001.DESIGN) /\
  returns (VER001.size_nominal brentq_exact VER001.DESIGN_INPUTS).
Proof.
  split.
  - destruct (exit_mach_exact_returns 100.0 1.28) as [M HM].
    + lra.
    + pose proof area_mach_design_bracket. lra.
    + apply (size_thruster_returns _ _ M); [exact DESIGN_valid|exact HM].
  - assert (Eg : VER001.compute_specific_heat_ratio 0.5 = 1.245)
      by (unfold VER001.compute_specific_heat_ratio; lra).
    destruct (solve_exit_mach_exact_returns 100.0 1.245) as [M HM].
    + lra.
    + pose proof area_mach_verification_bracket. lra.
    + apply (size_nominal_returns _ _ M).
      * cbn [VER001.alpha_ammonia_dissociation VER001.DESIGN_INPUTS]. lra.
      * cbn [VER001.alpha_ammonia_dissociation VER001.expansion_ratio
             VER001.DESIGN_INPUTS].
        rewrite Eg. exact HM.
Qed.

(** * Thrust self-consistency *)

Lemma size_thruster_reproduces_target brentq k res :
  brentq_bracket_contract brentq -> valid_design k ->
  DES001.size_thruster brentq k = Ok res ->
  DES001.thrust_N res = DES001.target_thrust k.
Proof.
  intros Hb (Hg & Ha & HT & HP & He & Hn & HF) H.
  destruct (size_thruster_inv _ _ _ Hg H)
    as (M_bar & R_s & c_star & M_e & Hgas & Hc & HM & Hres).
  cbv zeta in Hres.
  destruct Hres as (_ & EP & ET & EV & _ & EA & Em & EAe & EF).
  rewrite EF, Em, EAe, EV, EP.
  rewrite compute_gas_properties_ok in Hgas by lra.
  injection Hgas as _ HR.
  pose proof (mean_weight_pos (DES001.alpha k) ltac:(lra)) as HMw.
  assert (HRs : 0 < R_s).
  { rewrite <- HR. apply Rdiv_lt_0_compat; [unfold DES001.R_UNIVERSAL; lra|].
    apply Rdiv_lt_0_compat; lra. }
  pose proof (compute_c_star_pos _ _ _ _ Hg HRs HT Hc) as Hcs.
  pose proof (exit_mach_bracket _ _ _ _ Hb HM) as HMe.
  apply thrust_equation; [lra|].
  apply Rgt_not_eq. apply thrust_denominator_pos; try lra.
  - apply Rmult_le_pos; [|lra].
    apply Rmult_le_pos; [lra|apply sqrt_pos].
  - apply Rmult_lt_0_compat; [lra|apply exp_pos].
Qed.

Lemma compute_throat_area_reproduces_target brentq
    Pc thrust_target c_star area_ratio gamma Tc M_bar eta At flow :
  brentq_bracket_contract brentq ->
  1 < gamma -> 0 < Pc -> 0 < c_star -> 1 < area_ratio -> 0 < Tc ->
  0 < M_bar -> 0 < eta <= 1 ->
  VER001.compute_throat_area brentq Pc thrust_target c_star area_ratio gamma Tc
    M_bar eta = Ok At ->
  VER001.compute_nozzle_flow_properties brentq Tc Pc area_ratio gamma M_bar
  = Ok flow ->
  VER001.compute_thrust_vacuum
    (VER001.compute_mass_flow_rate Pc At c_star)
    (VER001.exit_velocity_m_s flow * eta)
    (VER001.exit_pressure_Pa flow)
    (area_ratio * At) = thrust_target.
Proof.
  intros Hb Hg HP Hc He HT HM Hn HAt Hflow.
  unfold VER001.compute_throat_area in HAt.
  apply bind_ok in HAt as [Me [HMe HAt]].
  rewrite Hflow in HAt. cbn [bind] in HAt. injection HAt as <-.
  apply compute_nozzle_flow_properties_inv in Hflow; [|assumption].
  destruct Hflow as (_ & HMe' & ER & ET & EPe & EV).
  pose proof (solve_exit_mach_bracket _ _ _ _ Hb HMe') as HB.
  unfold VER001.compute_thrust_vacuum, VER001.compute_mass_flow_rate.
  apply thrust_equation; [lra|].
  apply Rgt_not_eq. apply thrust_denominator_pos; try lra.
  - rewrite EV. apply Rmult_le_pos; [|lra].
    apply Rmult_le_pos; [lra|apply sqrt_pos].
  - rewrite EPe. apply Rmult_lt_0_compat; [lra|apply exp_pos].
Qed.

(** C1: thrust self-consistency.  For a root finder that meets the bracket
    contract and valid design constants, when the sizing returns, its throat
    area is [F_target / (P_c * V_e / c_star + P_e * epsilon)], its mass flow
    [P_c * A_t / c_star], its exit area [epsilon * A_t], and the thrust
    [mdot * V_e + P_e * A_e] recomputed from them reproduces [F_target] within
    the relative error 1e-6 (the two are equal).  The same holds for the
    throat area of [compute_throat_area] in VER-001. *)
Theorem thrust_self_consistency (brentq : root_finder) :
  brentq_bracket_contract brentq ->
  (forall k res,
     valid_design k ->
     DES001.size_thruster brentq k = Ok res ->
     DES001.throat_area_m2 res
     = DES001.target_thrust k
       / (DES001.chamber_pressure_MPa k * 1e6 * DES001.exit_velocity_m_s res
          / DES001.characteristic_velocity_m_s res
          + DES001.exit_pressure_Pa res * DES001.expansion_ratio k) /\
     DES001.mass_flow_rate_kg_s res
     = DES001.chamber_pressure_MPa k * 1e6 * DES001.throat_area_m2 res
       / DES001.characteristic_velocity_m_s res /\
     DES001.exit_area_m2 res
     = DES001.expansion_ratio k * DES001.throat_area_m2 res /\
     DES001.thrust_N res
     = DES001.mass_flow_rate_kg_s res * DES001.exit_velocity_m_s res
       + DES001.exit_pressure_Pa res * DES001.exit_area_m2 res /\
     rel_err (DES001.thrust_N res) (DES001.target_thrust k) <= 1e-6) /\
  (forall Pc thrust_target c_star area_ratio gamma Tc M_bar eta At flow,
     1 < gamma -> 0 < Pc -> 0 < thrust_target -> 0 < c_star ->
     1 < area_ratio -> 0 < Tc -> 0 < M_bar -> 0 < eta <= 1 ->
     VER001.compute_throat_area brentq Pc thrust_target c_star area_ratio gamma
       Tc M_bar eta = Ok At ->
     VER001.compute_nozzle_flow_properties brentq Tc Pc area_ratio gamma M_bar
     = Ok flow ->
     rel_err
       (VER001.compute_thrust_vacuum
          (VER001.compute_mass_flow_rate Pc At c_star)
          (VER001.exit_velocity_m_s flow * eta)
          (VER001.exit_pressure_Pa flow)
          (area_ratio * At))
       thrust_target <= 1e-6).
Proof.
  intros Hb. split.
  - intros k res Hv H.
    pose proof (size_thruster_reproduces_target _ _ _ Hb Hv H) as HF.
    destruct Hv as (Hg & _).
    destruct (size_thruster_inv _ _ _ Hg H)
      as (M_bar & R_s & c_star & M_e & _ & _ & _ & Hres).
    cbv zeta in Hres.
    destruct Hres as (_ & EP & _ & EV & Ec & EA & Em & EAe & EF).
    split; [|split; [|split; [|split]]].
    + rewrite EA, EV, Ec, EP. reflexivity.
    + rewrite Em, EA, Ec. reflexivity.
    + rewrite EAe, EA. reflexivity.
    + exact EF.
    + rewrite HF. apply rel_err_exact.
  - intros Pc thrust_target c_star area_ratio gamma Tc M_bar eta At flow
      Hg HP HF Hc He HT HM Hn HAt Hflow.
    rewrite (compute_throat_area_reproduces_target brentq Pc thrust_target
               c_star area_ratio gamma Tc M_bar eta At flow);
      try assumption.
    apply rel_err_exact.
Qed.

Lemma thrust_self_consistency_witness :
  exists res,
    DES001.size_thruster brentq_exact DES001.DESIGN = Ok res /\
    rel_err (DES001.thrust_N res) (DES001.target_thrust DES001.DESIGN) <= 1e-6.
Proof.
  destruct design_point_returns as [[res Hres] _].
  exists res. split; [exact Hres|].
  destruct (thrust_self_consistency brentq_exact brentq_exact_bracket)
    as [H _].
  destruct (H DES001.DESIGN res DESIGN_valid Hres) as (_ & _ & _ & _ & Hrel).
  exact Hrel.
Defined.

(** * Witnesses of the solver properties at the design point *)

Lemma nozzle_solution_bounds_witness :
  exists M_e P_e T_e V_e,
    DES001.exit_mach_from_area_ratio brentq_exact 100.0 1.28 = Ok M_e /\
    DES001.compute_isentropic_expansion M_e 210000 1.28 432 1400
    = Ok (P_e, T_e, V_e) /\
    1 < M_e /\ 0 < P_e < 210000 /\ 0 < T_e < 1400.
Proof.
  destruct (exit_mach_exact_returns 100.0 1.28) as [M_e HM].
  - lra.
  - pose proof area_mach_design_bracket. lra.
  - destruct (nozzle_solution_bounds brentq_exact 1.28 100.0 210000 1400 432 M_e
                brentq_exact_bracket) as (P_e & T_e & V_e & H);
      [lra|lra|lra|lra|exact HM|].
    exists M_e, P_e, T_e, V_e. split; [exact HM|exact H].
Defined.

Lemma exit_mach_solver_errors_witness :
  raises (DES001.exit_mach_from_area_ratio brentq_exact 1 1.28) /\
  raises (VER001.solve_exit_mach_number brentq_exact 1 1.245).
Proof.
  split.
  - destruct (exit_mach_solver_errors brentq_exact 1.28
                brentq_exact_sign brentq_exact_bracket) as [H _]; [lra|].
    destruct (H 1) as [H1 _]; [lra|exact H1].
  - destruct (exit_mach_solver_errors brentq_exact 1.245
                brentq_exact_sign brentq_exact_bracket) as [H _]; [lra|].
    destruct (H 1) as [_ H2]; [lra|exact H2].
Defined.


(** * The specific-heat ratios of the two scripts *)

Lemma size_nominal_inv brentq s :
  VER001.size_nominal brentq VER001.DESIGN_INPUTS = Ok s ->
  VER001.compute_mean_molecular_weight 0.5 = Ok (VER001.M_bar s) /\
  VER001.gamma s = VER001.compute_specific_heat_ratio 0.5 /\
  VER001.compute_characteristic_velocity 1400.0 (VER001.gamma s)
    (VER001.M_bar s) = Ok (VER001.c_star s) /\
  VER001.compute_throat_area brentq (VER001.Pc_nominal s) 1.0 (VER001.c_star s)
    100.0 (VER001.gamma s) 1400.0 (VER001.M_bar s) 0.035 = Ok (VER001.At s) /\
  VER001.compute_nozzle_flow_properties brentq 1400.0 (VER001.Pc_nominal s)
    100.0 (VER001.gamma s) (VER001.M_bar s) = Ok (VER001.flow_props s).
Proof.
  unfold VER001.size_nominal.
  cbn [VER001.alpha_ammonia_dissociation VER001.chamber_temperature_K
       VER001.expansion_ratio VER001.feed_pressure_nominal_MPa
       VER001.chamber_pressure_ratio VER001.nozzle_efficiency
       VER001.DESIGN_INPUTS].
  intros H.
  apply bind_ok in H as [M_bar [HM H]].
  apply bind_ok in H as [c_star [Hc H]].
  apply bind_ok in H as [At [HA H]].
  apply bind_ok in H as [flow [Hf H]].
  injection H as <-.
  cbn [VER001.M_bar VER001.gamma VER001.c_star VER001.Pc_nominal VER001.At
       VER001.flow_props].
  repeat split; assumption.
Qed.

(** C10: the specific-heat ratio of VER-001 differs from the one of DES-001.
    VER-001 derives [gamma = 1.27 - 0.05 * alpha], which is 1.245 at the shared
    dissociation degree 0.5, whereas DES-001 uses the constant 1.28; so the
    exit-Mach equation is solved, and the characteristic velocity computed,
    with 1.245 in VER-001 and with 1.28 in DES-001. *)
Theorem specific_heat_ratios_differ (brentq : root_finder) :
  (forall alpha, VER001.compute_specific_heat_ratio alpha = 1.27 - 0.05 * alpha) /\
  VER001.alpha_ammonia_dissociation VER001.DESIGN_INPUTS = 0.5 /\
  DES001.alpha DES001.DESIGN = 0.5 /\
  VER001.compute_specific_heat_ratio
    (VER001.alpha_ammonia_dissociation VER001.DESIGN_INPUTS) = 1.245 /\
  DES001.gamma DES001.DESIGN = 1.28 /\
  VER001.compute_specific_heat_ratio
    (VER001.alpha_ammonia_dissociation VER001.DESIGN_INPUTS)
  <> DES001.gamma DES001.DESIGN /\
  (forall s,
     VER001.size_nominal brentq VER001.DESIGN_INPUTS = Ok s ->
     VER001.gamma s = 1.245 /\
     VER001.solve_exit_mach_number brentq 100.0 1.245
     = Ok (VER001.exit_Mach (VER001.flow_props s)) /\
     VER001.compute_characteristic_velocity 1400.0 1.245 (VER001.M_bar s)
     = Ok (VER001.c_star s)) /\
  (forall res,
     DES001.size_thruster brentq DES001.DESIGN = Ok res ->
     DES001.exit_mach_from_area_ratio brentq 100.0 1.28
     = Ok (DES001.exit_Mach_number res) /\
     exists R_specific,
       DES001.compute_c_star 1.28 R_specific 1400.0
       = Ok (DES001.characteristic_velocity_m_s res)).
Proof.
  assert (Eg : VER001.compute_specific_heat_ratio 0.5 = 1.245)
    by (unfold VER001.compute_specific_heat_ratio; lra).
  split; [reflexivity|]. split; [reflexivity|]. split; [reflexivity|].
  split; [exact Eg|]. split; [reflexivity|]. split.
  - cbn [VER001.alpha_ammonia_dissociation VER001.DESIGN_INPUTS].
    rewrite Eg. cbn [DES001.gamma DES001.DESIGN]. unfold DES001.GAMMA. lra.
  - split.
    + intros s H. apply size_nominal_inv in H.
      destruct H as (_ & Hg & Hc & _ & Hf).
      rewrite Eg in Hg. rewrite Hg in Hc, Hf.
      split; [exact Hg|]. split; [|exact Hc].
      apply compute_nozzle_flow_properties_inv in Hf; [|lra].
      destruct Hf as (_ & HMe & _). exact HMe.
    + intros res H.
      assert (Hg : 1 < DES001.gamma DES001.DESIGN)
        by (cbn [DES001.gamma DES001.DESIGN]; unfold DES001.GAMMA; lra).
      destruct (size_thruster_inv _ _ _ Hg H)
        as (M_bar & R_s & c_star & M_e & _ & Hc & HM & Hres).
      cbv zeta in Hres. destruct Hres as (EM & _ & _ & _ & Ec & _).
      rewrite EM, Ec. split; [exact HM|]. exists R_s. exact Hc.
Qed.

Lemma specific_heat_ratios_differ_witness :
  exists s res,
    VER001.size_nominal brentq_exact VER001.DESIGN_INPUTS = Ok s /\
    DES001.size_thruster brentq_exact DES001.DESIGN = Ok res /\
    VER001.gamma s = 1.245 /\
    VER001.solve_exit_mach_number brentq_exact 100.0 1.245
    = Ok (VER001.exit_Mach (VER001.flow_props s)) /\
    DES001.exit_mach_from_area_ratio brentq_exact 100.0 1.28
    = Ok (DES001.exit_Mach_number res).
Proof.
  destruct design_point_returns as [[res Hres] [s Hs]].
  exists s, res. split; [exact Hs|]. split; [exact Hres|].
  destruct (specific_heat_ratios_differ brentq_exact)
    as (_ & _ & _ & _ & _ & _ & HV & HD).
  destruct (HV s Hs) as (Hg & HM & _).
  destruct (HD res Hres) as (HM' & _).
  split; [exact Hg|]. split; [exact HM|exact HM'].
Defined.

(** * Further properties of the two scripts *)

(** ** Evenly spaced samples *)

Lemma linspace_map start stop num :
  (2 <= num)%nat ->
  linspace start stop num
  = map (fun i => start + INR i * ((stop - start) / INR (num - 1)))
        (seq 0 num).
Proof.
  intros Hn. unfold linspace.
  destruct num as [|m]; [lia|]. destruct m as [|m]; [lia|].
  replace (1 <? S (S m))%nat with true by (symmetry; apply Nat.ltb_lt; lia).
  replace (S (S m) - 1)%nat with (S m) by lia.
  rewrite (seq_S (S m) 0), !map_app. cbn [map Nat.add].
  rewrite removelast_last.
  assert (Hm : INR (S m) <> 0) by (apply not_0_INR; lia).
  f_equal.
  - apply map_ext. intros i. lra.
  - f_equal. field. exact Hm.
Qed.

Lemma linspace_length start stop num : List.length (linspace start stop num) = num.
Proof.
  destruct (Nat.le_gt_cases 2 num) as [H|H].
  - rewrite linspace_map by assumption. now rewrite length_map, length_seq.
  - unfold linspace. destruct num as [|[|m]]; [reflexivity|reflexivity|lia].
Qed.

Lemma linspace_nth start stop num i d :
  (2 <= num)%nat -> (i < num)%nat ->
  nth i (linspace start stop num) d
  = start + INR i * ((stop - start) / INR (num - 1)).
Proof.
  intros Hn Hi. rewrite linspace_map by assumption.
  set (f := fun i : nat => start + INR i * ((stop - start) / INR (num - 1))).
  rewrite (nth_indep _ d (f 0%nat)) by (now rewrite length_map, length_seq).
  rewrite map_nth. rewrite seq_nth by assumption. reflexivity.
Qed.

Lemma linspace_bounds start stop num x :
  (2 <= num)%nat -> start <= stop -> In x (linspace start stop num) ->
  start <= x <= stop.
Proof.
  intros Hn Hs Hx. rewrite linspace_map in Hx by assumption.
  apply in_map_iff in Hx as [i [<- Hi]]. apply in_seq in Hi.
  assert (Hm : 0 < INR (num - 1)) by (apply lt_0_INR; lia).
  assert (Hi1 : INR i <= INR (num - 1)) by (apply le_INR; lia).
  assert (Hi0 : 0 <= INR i) by apply pos_INR.
  assert (Hq : 0 <= (stop - start) / INR (num - 1)).
  { unfold Rdiv. apply Rmult_le_pos; [lra|]. left. now apply Rinv_0_lt_compat. }
  assert (Hu : INR i * ((stop - start) / INR (num - 1))
               <= INR (num - 1) * ((stop - start) / INR (num - 1)))
    by (apply Rmult_le_compat_r; assumption).
  replace (INR (num - 1) * ((stop - start) / INR (num - 1)))
    with (stop - start) in Hu by (field; lra).
  split; [|lra].
  assert (0 <= INR i * ((stop - start) / INR (num - 1)))
    by (apply Rmult_le_pos; assumption).
  lra.
Qed.

(** ** Algebra of the sizing *)

(** With the exit pressure proportional to the chamber pressure, the
    specific impulse of a throat sized on the thrust equation depends
    neither on the chamber pressure nor on the target thrust. *)
Lemma isp_closed_form P_c V c rho eps F g :
  P_c <> 0 -> c <> 0 -> F <> 0 -> g <> 0 -> V + rho * eps * c <> 0 ->
  (P_c * (F / (P_c * V / c + P_c * rho * eps)) / c * V
   + P_c * rho * (eps * (F / (P_c * V / c + P_c * rho * eps))))
  / (P_c * (F / (P_c * V / c + P_c * rho * eps)) / c * g)
  = (V + rho * eps * c) / g.
Proof.
  intros HP Hc HF Hg HD.
  assert (HD' : P_c * V + P_c * rho * eps * c <> 0).
  { replace (P_c * V + P_c * rho * eps * c)
      with (P_c * (V + rho * eps * c)) by ring.
    now apply Rmult_integral_contrapositive_currified. }
  field. repeat split; assumption.
Qed.

(** ** Geometry and derived quantities of the DES-001 sizing *)

Lemma size_thruster_relations brentq k res :
  DES001.size_thruster brentq k = Ok res ->
  DES001.throat_diameter_m res = 2 * sqrt (DES001.throat_area_m2 res / PI) /\
  DES001.exit_diameter_m res = 2 * sqrt (DES001.exit_area_m2 res / PI) /\
  DES001.throat_diameter_mm res = DES001.throat_diameter_m res * 1000 /\
  DES001.exit_diameter_mm res = DES001.exit_diameter_m res * 1000 /\
  DES001.nozzle_length_m res
  = (DES001.exit_diameter_m res / 2 - DES001.throat_diameter_m res / 2)
    / tan (DES001.nozzle_half_angle_deg k * PI / 180) /\
  DES001.nozzle_length_mm res = DES001.nozzle_length_m res * 1000 /\
  DES001.specific_impulse_s res
  = DES001.thrust_N res / (DES001.mass_flow_rate_kg_s res * DES001.G0) /\
  DES001.Pe_Ae_term_N res
  = DES001.exit_pressure_Pa res * DES001.exit_area_m2 res.
Proof.
  intros H. unfold DES001.size_thruster in H.
  apply bind_ok in H as [[M_bar R_specific] [_ H]].
  apply bind_ok in H as [c_star [_ H]].
  apply bind_ok in H as [M_e [_ H]].
  apply bind_ok in H as [[[P_e T_e] V_e] [_ H]].
  injection H as <-. cbn. repeat split; reflexivity.
Qed.

(** Signs of the solved quantities. *)
Lemma size_thruster_signs brentq k res :
  brentq_bracket_contract brentq -> valid_design k ->
  DES001.size_thruster brentq k = Ok res ->
  0 < DES001.characteristic_velocity_m_s res /\
  0 < DES001.exit_velocity_m_s res /\
  0 < DES001.exit_pressure_Pa res /\
  0 < DES001.throat_area_m2 res /\
  0 < DES001.mass_flow_rate_kg_s res /\
  0 < DES001.exit_area_m2 res.
Proof.
  intros Hb (Hg & Ha & HT & HP & He & Hn & HF) H.
  destruct (size_thruster_inv _ _ _ Hg H)
    as (M_bar & R_s & c_star & M_e & Hgas & Hc & HM & Hres).
  cbv zeta in Hres.
  destruct Hres as (_ & EP & ET & EV & Ec & EA & Em & EAe & _).
  rewrite compute_gas_properties_ok in Hgas by lra.
  injection Hgas as _ HR.
  pose proof (mean_weight_pos (DES001.alpha k) ltac:(lra)) as HMw.
  assert (HRs : 0 < R_s).
  { rewrite <- HR. apply Rdiv_lt_0_compat; [unfold DES001.R_UNIVERSAL; lra|].
    apply Rdiv_lt_0_compat; lra. }
  pose proof (compute_c_star_pos _ _ _ _ Hg HRs HT Hc) as Hcs.
  pose proof (exit_mach_bracket _ _ _ _ Hb HM) as HMe.
  pose proof (isentropic_factor_pos (DES001.gamma k) M_e Hg) as Htf.
  set (P_c := DES001.chamber_pressure_MPa k * 1e6) in *.
  assert (HPc : 0 < P_c) by (unfold P_c; lra).
  assert (HV : 0 < DES001.exit_velocity_m_s res).
  { rewrite EV. apply Rmult_lt_0_compat; [|lra].
    apply Rmult_lt_0_compat; [lra|]. apply sqrt_lt_R0.
    apply Rmult_lt_0_compat; [apply Rmult_lt_0_compat; lra|].
    apply Rdiv_lt_0_compat; assumption. }
  assert (HPe : 0 < DES001.exit_pressure_Pa res).
  { rewrite EP. apply Rmult_lt_0_compat; [assumption|apply exp_pos]. }
  assert (HA : 0 < DES001.throat_area_m2 res).
  { rewrite EA. fold P_c. rewrite <- EV, <- EP.
    apply Rdiv_lt_0_compat; [assumption|].
    apply thrust_denominator_pos; lra. }
  rewrite Ec. repeat split; try assumption.
  - rewrite Em. fold P_c. rewrite <- EA.
    apply Rdiv_lt_0_compat; [|assumption]. now apply Rmult_lt_0_compat.
  - rewrite EAe. rewrite <- EA. apply Rmult_lt_0_compat; lra.
Qed.

(** X1: geometry of the sizing.  On valid design constants the throat area,
    the mass flow and the exit area are positive; the two diameters are those
    of discs of the throat and exit areas; the exit diameter is the throat
    diameter times the square root of the area ratio; and for a half-angle
    strictly between 0 and 90 degrees the conical nozzle has a positive
    length. *)
Theorem sizing_geometry (brentq : root_finder)
    (k : DES001.DesignConstants) (res : DES001.computed_results) :
  brentq_bracket_contract brentq -> valid_design k ->
  DES001.size_thruster brentq k = Ok res ->
  0 < DES001.throat_area_m2 res /\
  0 < DES001.mass_flow_rate_kg_s res /\
  0 < DES001.exit_area_m2 res /\
  0 < DES001.throat_diameter_m res /\
  PI * (DES001.throat_diameter_m res / 2) ^ 2 = DES001.throat_area_m2 res /\
  PI * (DES001.exit_diameter_m res / 2) ^ 2 = DES001.exit_area_m2 res /\
  DES001.exit_diameter_m res
  = sqrt (DES001.expansion_ratio k) * DES001.throat_diameter_m res /\
  DES001.throat_diameter_m res < DES001.exit_diameter_m res /\
  (0 < DES001.nozzle_half_angle_deg k < 90 ->
   0 < DES001.nozzle_length_m res).
Proof.
  intros Hb Hv H.
  destruct (size_thruster_signs _ _ _ Hb Hv H) as (_ & _ & _ & HA & Hm & HAe).
  destruct (size_thruster_relations _ _ _ H)
    as (EDt & EDe & _ & _ & EL & _).
  destruct Hv as (Hg & _ & _ & _ & He & _).
  destruct (size_thruster_inv _ _ _ Hg H)
    as (M_bar & R_s & c_star & M_e & _ & _ & _ & Hres).
  cbv zeta in Hres. destruct Hres as (_ & _ & _ & _ & _ & EA & _ & EAe & _).
  rewrite <- EA in EAe.
  pose proof PI_RGT_0 as Hpi.
  assert (HqA : 0 < DES001.throat_area_m2 res / PI)
    by (apply Rdiv_lt_0_compat; lra).
  assert (HqAe : 0 < DES001.exit_area_m2 res / PI)
    by (apply Rdiv_lt_0_compat; lra).
  assert (HDt : 0 < DES001.throat_diameter_m res).
  { rewrite EDt. apply Rmult_lt_0_compat; [lra|now apply sqrt_lt_R0]. }
  assert (Hse : 1 < sqrt (DES001.expansion_ratio k)).
  { rewrite <- sqrt_1. apply sqrt_lt_1; lra. }
  assert (HDe : DES001.exit_diameter_m res
                = sqrt (DES001.expansion_ratio k) * DES001.throat_diameter_m res).
  { rewrite EDe, EDt, EAe.
    replace (DES001.expansion_ratio k * DES001.throat_area_m2 res / PI)
      with (DES001.expansion_ratio k * (DES001.throat_area_m2 res / PI))
      by (field; lra).
    rewrite sqrt_mult by lra. ring. }
  assert (Hlt : DES001.throat_diameter_m res < DES001.exit_diameter_m res)
    by (rewrite HDe; nra).
  repeat split; try assumption.
  - rewrite EDt.
    replace (2 * sqrt (DES001.throat_area_m2 res / PI) / 2)
      with (sqrt (DES001.throat_area_m2 res / PI)) by field.
    rewrite pow2_sqrt by lra. field. lra.
  - rewrite EDe.
    replace (2 * sqrt (DES001.exit_area_m2 res / PI) / 2)
      with (sqrt (DES001.exit_area_m2 res / PI)) by field.
    rewrite pow2_sqrt by lra. field. lra.
  - intros [Ha0 Ha1]. rewrite EL. apply Rdiv_lt_0_compat; [lra|].
    apply tan_gt_0.
    + apply Rdiv_lt_0_compat; [apply Rmult_lt_0_compat; lra|lra].
    + apply Rmult_lt_reg_r with 180; [lra|].
      replace (DES001.nozzle_half_angle_deg k * PI / 180 * 180)
        with (DES001.nozzle_half_angle_deg k * PI) by field.
      replace (PI / 2 * 180) with (90 * PI) by field.
      apply Rmult_lt_compat_r; lra.
Qed.

Lemma sizing_geometry_witness :
  exists res,
    DES001.size_thruster brentq_exact DES001.DESIGN = Ok res /\
    0 < DES001.throat_area_m2 res /\
    DES001.exit_diameter_m res = sqrt 100.0 * DES001.throat_diameter_m res /\
    0 < DES001.nozzle_length_m res.
Proof.
  destruct design_point_returns as [[res Hres] _].
  exists res. split; [exact Hres|].
  destruct (sizing_geometry brentq_exact DES001.DESIGN res
              brentq_exact_bracket DESIGN_valid Hres)
    as (HA & _ & _ & _ & _ & _ & HDe & _ & HL).
  split; [exact HA|]. split; [exact HDe|].
  apply HL. cbn [DES001.nozzle_half_angle_deg DES001.DESIGN].
  unfold DES001.NOZZLE_HALF_ANGLE. lra.
Defined.

(** ** Specific impulse *)

Lemma size_thruster_isp brentq k res :
  brentq_bracket_contract brentq -> valid_design k ->
  DES001.size_thruster brentq k = Ok res ->
  DES001.specific_impulse_s res
  = (DES001.exit_velocity_m_s res
     + Rpower (isentropic_factor (DES001.gamma k) (DES001.exit_Mach_number res))
         (- DES001.gamma k / (DES001.gamma k - 1))
       * DES001.expansion_ratio k * DES001.characteristic_velocity_m_s res)
    / DES001.G0.
Proof.
  intros Hb Hv H.
  destruct (size_thruster_signs _ _ _ Hb Hv H) as (Hc & HV & HPe & _).
  destruct (size_thruster_relations _ _ _ H) as (_ & _ & _ & _ & _ & _ & EI & _).
  destruct Hv as (Hg & _ & _ & HP & He & _ & HF).
  destruct (size_thruster_inv _ _ _ Hg H)
    as (M_bar & R_s & c_star & M_e & _ & _ & _ & Hres).
  cbv zeta in Hres.
  destruct Hres as (EM & EP & _ & EV & Ec & _ & Em & EAe & EF).
  rewrite EI, EF, Em, EAe, EP, EM.
  rewrite Ec in Hc. rewrite Ec.
  set (V := DES001.exit_velocity_m_s res) in *.
  rewrite <- EV.
  set (rho := Rpower (isentropic_factor (DES001.gamma k) M_e)
                (- DES001.gamma k / (DES001.gamma k - 1))).
  assert (Hrho : 0 < rho) by apply exp_pos.
  apply isp_closed_form; try lra.
  - unfold DES001.G0. lra.
  - assert (0 < rho * DES001.expansion_ratio k * c_star)
      by (repeat apply Rmult_lt_0_compat; lra).
    lra.
Qed.

(** X2: the specific impulse depends neither on the chamber pressure nor on
    the target thrust.  Two valid sets of design constants that share the
    dissociation degree, the specific-heat ratio, the chamber temperature,
    the area ratio and the nozzle efficiency give the same exit Mach number,
    exit velocity, characteristic velocity and specific impulse; the specific
    impulse exceeds the exit velocity over [G0]; and the throat area is
    proportional to the target thrust over the chamber pressure. *)
Theorem specific_impulse_invariant (brentq : root_finder)
    (k1 k2 : DES001.DesignConstants) (r1 r2 : DES001.computed_results) :
  brentq_bracket_contract brentq ->
  valid_design k1 -> valid_design k2 ->
  DES001.alpha k1 = DES001.alpha k2 ->
  DES001.gamma k1 = DES001.gamma k2 ->
  DES001.chamber_temperature_K k1 = DES001.chamber_temperature_K k2 ->
  DES001.expansion_ratio k1 = DES001.expansion_ratio k2 ->
  DES001.nozzle_efficiency k1 = DES001.nozzle_efficiency k2 ->
  DES001.size_thruster brentq k1 = Ok r1 ->
  DES001.size_thruster brentq k2 = Ok r2 ->
  DES001.exit_Mach_number r1 = DES001.exit_Mach_number r2 /\
  DES001.exit_velocity_m_s r1 = DES001.exit_velocity_m_s r2 /\
  DES001.characteristic_velocity_m_s r1
  = DES001.characteristic_velocity_m_s r2 /\
  DES001.specific_impulse_s r1 = DES001.specific_impulse_s r2 /\
  DES001.exit_velocity_m_s r1 / DES001.G0 < DES001.specific_impulse_s r1 /\
  DES001.throat_area_m2 r1 * DES001.chamber_pressure_MPa k1
    * DES001.target_thrust k2
  = DES001.throat_area_m2 r2 * DES001.chamber_pressure_MPa k2
    * DES001.target_thrust k1.
Proof.
  intros Hb Hv1 Hv2 Ea Eg ET Ee En H1 H2.
  pose proof (size_thruster_isp _ _ _ Hb Hv1 H1) as I1.
  pose proof (size_thruster_isp _ _ _ Hb Hv2 H2) as I2.
  destruct (size_thruster_signs _ _ _ Hb Hv1 H1) as (Hc1 & HV1 & _).
  pose proof Hv1 as (Hg1 & _ & _ & HP1 & He1 & _ & HF1).
  pose proof Hv2 as (Hg2 & _ & _ & HP2 & _ & _ & HF2).
  destruct (size_thruster_inv _ _ _ Hg1 H1)
    as (M_bar1 & R1 & c1 & M1 & Hgas1 & Hcs1 & HM1 & Hres1).
  destruct (size_thruster_inv _ _ _ Hg2 H2)
    as (M_bar2 & R2 & c2 & M2 & Hgas2 & Hcs2 & HM2 & Hres2).
  cbv zeta in Hres1, Hres2.
  destruct Hres1 as (EM1 & EP1 & _ & EV1 & Ec1 & EA1 & _).
  destruct Hres2 as (EM2 & EP2 & _ & EV2 & Ec2 & EA2 & _).
  rewrite <- Ea, Hgas1 in Hgas2. injection Hgas2 as <- <-.
  rewrite <- Eg, <- ET, Hcs1 in Hcs2. injection Hcs2 as <-.
  rewrite <- Ee, <- Eg, HM1 in HM2. injection HM2 as <-.
  rewrite <- Eg, <- ET, <- En in EV2.
  rewrite <- Eg, <- Ee, <- ET, <- En in EA2.
  rewrite <- Eg in EP2.
  assert (EM : DES001.exit_Mach_number r1 = DES001.exit_Mach_number r2)
    by congruence.
  assert (EV : DES001.exit_velocity_m_s r1 = DES001.exit_velocity_m_s r2)
    by congruence.
  assert (Ec : DES001.characteristic_velocity_m_s r1
               = DES001.characteristic_velocity_m_s r2) by congruence.
  split; [exact EM|]. split; [exact EV|]. split; [exact Ec|].
  split; [|split].
  - rewrite I1, I2, <- Eg, <- Ee, EM, EV, Ec. reflexivity.
  - rewrite I1.
    assert (Hrho : 0 < Rpower (isentropic_factor (DES001.gamma k1)
                                 (DES001.exit_Mach_number r1))
                         (- DES001.gamma k1 / (DES001.gamma k1 - 1)))
      by apply exp_pos.
    assert (0 < Rpower (isentropic_factor (DES001.gamma k1)
                          (DES001.exit_Mach_number r1))
                  (- DES001.gamma k1 / (DES001.gamma k1 - 1))
                * DES001.expansion_ratio k1
                * DES001.characteristic_velocity_m_s r1)
      by (repeat apply Rmult_lt_0_compat; lra).
    unfold Rdiv. apply Rmult_lt_compat_r;
      [apply Rinv_0_lt_compat; unfold DES001.G0; lra|lra].
  - rewrite EA1, EA2.
    rewrite Ec1 in Hc1. rewrite EV1 in HV1.
    set (V := M1 * sqrt (DES001.gamma k1 * R1
                         * (DES001.chamber_temperature_K k1
                            / isentropic_factor (DES001.gamma k1) M1))
              * DES001.nozzle_efficiency k1) in *.
    set (rho := Rpower (isentropic_factor (DES001.gamma k1) M1)
                  (- DES001.gamma k1 / (DES001.gamma k1 - 1))).
    assert (Hrho : 0 < rho) by apply exp_pos.
    assert (HD : 0 < V + rho * DES001.expansion_ratio k1 * c1).
    { assert (0 < rho * DES001.expansion_ratio k1 * c1)
        by (repeat apply Rmult_lt_0_compat; lra).
      lra. }
    assert (E6 : 1e6 = 1000000) by lra. rewrite E6.
    field. repeat split; try lra.
    + replace (DES001.chamber_pressure_MPa k2 * 1000000 * V
               + DES001.chamber_pressure_MPa k2 * 1000000 * rho
                 * DES001.expansion_ratio k1 * c1)
        with (DES001.chamber_pressure_MPa k2 * 1000000
              * (V + rho * DES001.expansion_ratio k1 * c1)) by ring.
      apply Rgt_not_eq. apply Rmult_lt_0_compat; lra.
    + replace (DES001.chamber_pressure_MPa k1 * 1000000 * V
               + DES001.chamber_pressure_MPa k1 * 1000000 * rho
                 * DES001.expansion_ratio k1 * c1)
        with (DES001.chamber_pressure_MPa k1 * 1000000
              * (V + rho * DES001.expansion_ratio k1 * c1)) by ring.
      apply Rgt_not_eq. apply Rmult_lt_0_compat; lra.
Qed.

Lemma specific_impulse_invariant_witness :
  exists r1 r2,
    DES001.size_thruster brentq_exact DES001.DESIGN = Ok r1 /\
    DES001.size_thruster brentq_exact
      {| DES001.alpha := DES001.ALPHA;
         DES001.gamma := DES001.GAMMA;
         DES001.chamber_temperature_K := DES001.T_CHAMBER;
         DES001.chamber_pressure_MPa := 0.105;
         DES001.expansion_ratio := DES001.DESIGN_EXPANSION_RATIO;
         DES001.nozzle_half_angle_deg := DES001.NOZZLE_HALF_ANGLE;
         DES001.nozzle_efficiency := DES001.NOZZLE_EFFICIENCY;
         DES001.target_thrust := 0.5 |} = Ok r2 /\
    DES001.specific_impulse_s r1 = DES001.specific_impulse_s r2.
Proof.
  set (k2 := {| DES001.alpha := DES001.ALPHA;
                DES001.gamma := DES001.GAMMA;
                DES001.chamber_temperature_K := DES001.T_CHAMBER;
                DES001.chamber_pressure_MPa := 0.105;
                DES001.expansion_ratio := DES001.DESIGN_EXPANSION_RATIO;
                DES001.nozzle_half_angle_deg := DES001.NOZZLE_HALF_ANGLE;
                DES001.nozzle_efficiency := DES001.NOZZLE_EFFICIENCY;
                DES001.target_thrust := 0.5 |}).
  assert (Hv2 : valid_design k2).
  { unfold valid_design, k2.
    cbn [DES001.gamma DES001.alpha DES001.chamber_temperature_K
         DES001.chamber_pressure_MPa DES001.expansion_ratio
         DES001.nozzle_efficiency DES001.target_thrust].
    unfold DES001.GAMMA, DES001.ALPHA, DES001.T_CHAMBER,
      DES001.DESIGN_EXPANSION_RATIO, DES001.NOZZLE_EFFICIENCY.
    lra. }
  destruct design_point_returns as [[r1 H1] _].
  destruct (size_thruster_inv _ _ _ (proj1 DESIGN_valid) H1)
    as (_ & _ & _ & M_e & _ & _ & HM & _).
  destruct (size_thruster_returns brentq_exact k2 M_e Hv2 HM) as [r2 H2].
  exists r1, r2. split; [exact H1|]. split; [exact H2|].
  destruct (specific_impulse_invariant brentq_exact DES001.DESIGN k2 r1 r2
              brentq_exact_bracket DESIGN_valid Hv2
              eq_refl eq_refl eq_refl eq_refl eq_refl H1 H2)
    as (_ & _ & _ & HI & _).
  exact HI.
Defined.

(** ** The ideal exit velocity *)

(** The square of the ideal exit velocity is the enthalpy drop. *)
Lemma exit_velocity_square (M_e gamma R_s T_c : R) :
  1 < gamma -> 0 < R_s -> 0 < T_c ->
  (M_e * sqrt (gamma * R_s * (T_c / isentropic_factor gamma M_e))) ^ 2
  = 2 * gamma / (gamma - 1) * R_s
    * (T_c - T_c / isentropic_factor gamma M_e).
Proof.
  intros Hg HR HT.
  pose proof (isentropic_factor_pos gamma M_e Hg) as Ht.
  set (t := isentropic_factor gamma M_e) in *.
  assert (HTe : 0 < T_c / t) by (apply Rdiv_lt_0_compat; assumption).
  assert (Hx : 0 < gamma * R_s * (T_c / t))
    by (apply Rmult_lt_0_compat; [apply Rmult_lt_0_compat; lra|assumption]).
  rewrite Rpow_mult_distr, pow2_sqrt by lra.
  assert (Et : t = 1 + (gamma - 1) / 2 * M_e ^ 2) by reflexivity.
  assert (EM : M_e ^ 2 = (t - 1) * 2 / (gamma - 1)) by (rewrite Et; field; lra).
  rewrite EM. field. split; lra.
Qed.

(** X3: energy balance of the isentropic expansion.  On valid chamber
    conditions and a non-negative Mach number the ideal exit velocity is
    non-negative, its square is [2 * gamma / (gamma - 1) * R * (T_c - T_e)],
    and it stays below the limit velocity
    [sqrt (2 * gamma / (gamma - 1) * R * T_c)]. *)
Theorem exit_velocity_energy_balance (M_e P_c gamma R_s T_c : R) :
  0 <= M_e -> 1 < gamma -> 0 < R_s -> 0 < T_c ->
  exists P_e T_e V_e,
    DES001.compute_isentropic_expansion M_e P_c gamma R_s T_c
    = Ok (P_e, T_e, V_e) /\
    0 <= V_e /\
    V_e ^ 2 = 2 * gamma / (gamma - 1) * R_s * (T_c - T_e) /\
    V_e < sqrt (2 * gamma / (gamma - 1) * R_s * T_c).
Proof.
  intros HM Hg HR HT.
  rewrite compute_isentropic_expansion_ok by assumption.
  eexists _, _, _. split; [reflexivity|].
  pose proof (exit_velocity_square M_e gamma R_s T_c Hg HR HT) as E.
  pose proof (isentropic_factor_pos gamma M_e Hg) as Ht.
  set (t := isentropic_factor gamma M_e) in *.
  assert (HTe : 0 < T_c / t) by (apply Rdiv_lt_0_compat; assumption).
  assert (HV : 0 <= M_e * sqrt (gamma * R_s * (T_c / t)))
    by (apply Rmult_le_pos; [assumption|apply sqrt_pos]).
  split; [exact HV|]. split; [exact E|].
  assert (Hk : 0 < 2 * gamma / (gamma - 1) * R_s).
  { apply Rmult_lt_0_compat; [|assumption]. apply Rdiv_lt_0_compat; lra. }
  assert (Hlim : 0 < 2 * gamma / (gamma - 1) * R_s * T_c)
    by (now apply Rmult_lt_0_compat).
  rewrite <- (sqrt_pow2 (M_e * sqrt (gamma * R_s * (T_c / t)))) by assumption.
  apply sqrt_lt_1.
  - apply pow2_ge_0.
  - lra.
  - rewrite E.
    assert (0 < 2 * gamma / (gamma - 1) * R_s * (T_c / t))
      by (now apply Rmult_lt_0_compat).
    lra.
Qed.

Lemma exit_velocity_energy_balance_witness :
  exists P_e T_e V_e,
    DES001.compute_isentropic_expansion 2 175000 1.28 432 1400
    = Ok (P_e, T_e, V_e) /\
    V_e ^ 2 = 2 * 1.28 / (1.28 - 1) * 432 * (1400 - T_e).
Proof.
  destruct (exit_velocity_energy_balance 2 175000 1.28 432 1400)
    as (P_e & T_e & V_e & H & _ & HE & _); try lra.
  exists P_e, T_e, V_e. split; [exact H|exact HE].
Defined.

(** ** The characteristic velocity *)

(** X4: the two characteristic-velocity functions agree.  For a
    specific-heat ratio above 1 and a non-zero mean molecular weight (in
    g/mol) [compute_characteristic_velocity] of VER-001 returns what
    [compute_c_star] of DES-001 returns on the specific gas constant
    [R_universal / M_bar * 1000]; the value is positive for a positive
    molecular weight and chamber temperature. *)
Theorem characteristic_velocities_agree (Tc gamma M_bar : R) :
  1 < gamma -> M_bar <> 0 ->
  exists c_star,
    VER001.compute_characteristic_velocity Tc gamma M_bar = Ok c_star /\
    DES001.compute_c_star gamma (VER001.R_universal / M_bar * 1000.0) Tc
    = Ok c_star /\
    (0 < M_bar -> 0 < Tc -> 0 < c_star).
Proof.
  intros Hg HM.
  rewrite compute_characteristic_velocity_ok by assumption.
  rewrite compute_c_star_ok by assumption.
  assert (E : sqrt (Rpower (2 / (gamma + 1)) ((gamma + 1) / (gamma - 1)))
              = Rpower (2 / (gamma + 1)) ((gamma + 1) / (gamma - 1) / 2)).
  { rewrite <- Rpower_sqrt by apply exp_pos.
    rewrite Rpower_mult. reflexivity. }
  eexists. split; [reflexivity|]. split.
  - rewrite E. reflexivity.
  - intros HM0 HT.
    apply (compute_characteristic_velocity_pos Tc gamma M_bar);
      try assumption.
    now apply compute_characteristic_velocity_ok.
Qed.

Lemma characteristic_velocities_agree_witness :
  exists c_star,
    VER001.compute_characteristic_velocity 1400.0 1.245 19.2276 = Ok c_star /\
    DES001.compute_c_star 1.245 (VER001.R_universal / 19.2276 * 1000.0) 1400.0
    = Ok c_star.
Proof.
  destruct (characteristic_velocities_agree 1400.0 1.245 19.2276)
    as (c & H1 & H2 & _); try lra.
  exists c. split; assumption.
Defined.

(** ** Error behaviour at the edge of the domain *)

(** X5: a specific-heat ratio of exactly 1 raises [ZeroDivisionError] in
    every function that divides by [gamma - 1], and so in the whole sizing
    of DES-001, before the root finder is called; for a ratio above -1
    [compute_c_star] raises in no other case, in particular not for a ratio
    between -1 and 1.  The residual of VER-001 returns 1e6 for a Mach number
    of at most 1 without reading its other arguments. *)
Theorem unit_specific_heat_ratio_raises :
  (forall gamma R_s T_c,
     -1 < gamma ->
     (raises (DES001.compute_c_star gamma R_s T_c) <-> gamma = 1)) /\
  (forall R_s T_c,
     DES001.compute_c_star 1 R_s T_c = Raise ZeroDivisionError) /\
  (forall Tc M_bar,
     VER001.compute_characteristic_velocity Tc 1 M_bar
     = Raise ZeroDivisionError) /\
  (forall M_e P_c R_s T_c,
     DES001.compute_isentropic_expansion M_e P_c 1 R_s T_c
     = Raise ZeroDivisionError) /\
  (forall area_ratio Me,
     DES001.area_ratio_eq area_ratio 1 Me = Raise ZeroDivisionError) /\
  (forall area_ratio Me,
     1 < Me ->
     VER001.area_ratio_residual area_ratio 1 Me = Raise ZeroDivisionError) /\
  (forall area_ratio gamma Me,
     Me <= 1 -> VER001.area_ratio_residual area_ratio gamma Me = Ok 1e6) /\
  (forall brentq k,
     DES001.gamma k = 1 -> 4 / 3 + 2 / 3 * DES001.alpha k <> 0 ->
     DES001.size_thruster brentq k = Raise ZeroDivisionError).
Proof.
  assert (Hc : forall R_s T_c,
             DES001.compute_c_star 1 R_s T_c = Raise ZeroDivisionError).
  { intros. unfold DES001.compute_c_star.
    replace (1 - 1) with 0 by lra. now rewrite pydiv_zero. }
  split; [|split; [exact Hc|split; [|split; [|split; [|split; [|split]]]]]].
  - intros gamma R_s T_c Hg. split.
    + intros [e He]. destruct (Req_dec_T gamma 1) as [E|E]; [exact E|exfalso].
      unfold DES001.compute_c_star in He.
      rewrite !pydiv_ok in He by lra. cbn [bind] in He.
      rewrite pypow_ok in He by (apply Rdiv_lt_0_compat; lra).
      discriminate.
    + intros ->. exists ZeroDivisionError. apply Hc.
  - intros Tc M_bar. unfold VER001.compute_characteristic_velocity.
    destruct (Req_dec_T M_bar 0) as [->|HM].
    + now rewrite pydiv_zero.
    + rewrite (pydiv_ok _ _ HM). cbn [bind].
      rewrite pydiv_ok by lra. cbn [bind].
      replace (1 - 1.0) with 0 by lra. now rewrite pydiv_zero.
  - intros. unfold DES001.compute_isentropic_expansion.
    replace (1 - 1) with 0 by lra. now rewrite pydiv_zero.
  - intros. unfold DES001.area_ratio_eq.
    replace (2 * (1 - 1)) with 0 by lra. now rewrite pydiv_zero.
  - intros area_ratio Me HM. unfold VER001.area_ratio_residual.
    destruct (Rle_dec Me 1.0); [lra|].
    rewrite !pydiv_ok by lra. cbn [bind].
    replace (2.0 * (1 - 1.0)) with 0 by lra. now rewrite pydiv_zero.
  - intros area_ratio gamma Me HM. unfold VER001.area_ratio_residual.
    destruct (Rle_dec Me 1.0); [reflexivity|lra].
  - intros brentq k Hg Ha. unfold DES001.size_thruster.
    rewrite compute_gas_properties_ok by assumption. cbn [bind].
    rewrite Hg, Hc. reflexivity.
Qed.

Lemma unit_specific_heat_ratio_raises_witness :
  ~ raises (DES001.compute_c_star 0.5 432 1400) /\
  DES001.size_thruster brentq_exact
    {| DES001.alpha := 0.5;
       DES001.gamma := 1;
       DES001.chamber_temperature_K := 1400;
       DES001.chamber_pressure_MPa := 0.21;
       DES001.expansion_ratio := 100;
       DES001.nozzle_half_angle_deg := 15;
       DES001.nozzle_efficiency := 0.035;
       DES001.target_thrust := 1 |} = Raise ZeroDivisionError.
Proof.
  destruct unit_specific_heat_ratio_raises
    as (H1 & _ & _ & _ & _ & _ & _ & H8).
  split.
  - intros Hr. apply (H1 0.5 432 1400) in Hr; lra.
  - apply H8; cbn [DES001.gamma DES001.alpha]; lra.
Defined.

(** X6: on valid inputs the root finder is the only step that can fail.
    The sizing of DES-001 returns when [exit_mach_from_area_ratio] returns
    and raises the same exception when it raises; likewise the sizing of
    VER-001 with [solve_exit_mach_number], for a dissociation degree in
    [0,1]. *)
Theorem sizing_fails_only_through_solver (brentq : root_finder)
    (k : DES001.DesignConstants) (inputs : VER001.design_inputs) :
  valid_design k ->
  0 <= VER001.alpha_ammonia_dissociation inputs <= 1 ->
  match DES001.exit_mach_from_area_ratio brentq (DES001.expansion_ratio k)
          (DES001.gamma k) with
  | Ok _ => returns (DES001.size_thruster brentq k)
  | Raise e => DES001.size_thruster brentq k = Raise e
  end /\
  match VER001.solve_exit_mach_number brentq (VER001.expansion_ratio inputs)
          (VER001.compute_specific_heat_ratio
             (VER001.alpha_ammonia_dissociation inputs)) with
  | Ok _ => returns (VER001.size_nominal brentq inputs)
  | Raise e => VER001.size_nominal brentq inputs = Raise e
  end.
Proof.
  intros Hv Ha. split.
  - destruct (DES001.exit_mach_from_area_ratio brentq (DES001.expansion_ratio k)
                (DES001.gamma k)) as [M|e] eqn:HM.
    + exact (size_thruster_returns brentq k M Hv HM).
    + destruct Hv as (Hg & Hal & _).
      unfold DES001.size_thruster.
      rewrite compute_gas_properties_ok by lra. cbn [bind].
      rewrite compute_c_star_ok by assumption. cbn [bind].
      rewrite HM. reflexivity.
  - destruct (VER001.solve_exit_mach_number brentq
                (VER001.expansion_ratio inputs)
                (VER001.compute_specific_heat_ratio
                   (VER001.alpha_ammonia_dissociation inputs)))
      as [M|e] eqn:HM.
    + exact (size_nominal_returns brentq inputs M Ha HM).
    + unfold VER001.size_nominal.
      rewrite compute_mean_molecular_weight_ok by lra. cbn [bind].
      pose proof (mean_weight_pos (VER001.alpha_ammonia_dissociation inputs)
                    ltac:(lra)) as HMw.
      rewrite compute_characteristic_velocity_ok;
        [|unfold VER001.compute_specific_heat_ratio; lra|lra].
      cbn [bind]. unfold VER001.compute_throat_area.
      rewrite HM. reflexivity.
Qed.

Lemma sizing_fails_only_through_solver_witness :
  returns (DES001.size_thruster brentq_exact DES001.DESIGN) /\
  returns (VER001.size_nominal brentq_exact VER001.DESIGN_INPUTS).
Proof.
  assert (Ha : 0 <= VER001.alpha_ammonia_dissociation VER001.DESIGN_INPUTS <= 1)
    by (cbn [VER001.alpha_ammonia_dissociation VER001.DESIGN_INPUTS]; lra).
  destruct (sizing_fails_only_through_solver brentq_exact DES001.DESIGN
              VER001.DESIGN_INPUTS DESIGN_valid Ha) as [H1 H2].
  destruct design_point_returns as [[res Hres] [s Hs]].
  destruct (size_thruster_inv _ _ _ (proj1 DESIGN_valid) Hres)
    as (_ & _ & _ & M_e & _ & _ & HM & _).
  rewrite HM in H1.
  destruct (size_nominal_inv _ _ Hs) as (_ & Hg & _ & _ & Hf).
  apply compute_nozzle_flow_properties_inv in Hf;
    [|rewrite Hg; unfold VER001.compute_specific_heat_ratio; lra].
  destruct Hf as (_ & HMe & _).
  cbn [VER001.expansion_ratio VER001.alpha_ammonia_dissociation
       VER001.DESIGN_INPUTS] in H2.
  rewrite Hg in HMe. rewrite HMe in H2.
  split; assumption.
Defined.

(** ** Uniqueness of the supersonic root and the solvable area ratios *)

Lemma solve_exit_mach_is_root brentq area_ratio gamma M :
  brentq_bracket_contract brentq -> brentq_root_contract brentq ->
  1 < gamma ->
  VER001.solve_exit_mach_number brentq area_ratio gamma = Ok M ->
  area_mach gamma M = area_ratio.
Proof.
  intros Hb Hr Hg H.
  pose proof (solve_exit_mach_bracket _ _ _ _ Hb H) as HM.
  apply Hr in H. rewrite area_ratio_residual_ok in H by lra.
  injection H as H. lra.
Qed.

Lemma area_mach_injective gamma x y :
  1 < gamma -> 1 <= x -> 1 <= y -> area_mach gamma x = area_mach gamma y ->
  x = y.
Proof.
  intros Hg Hx Hy E.
  destruct (Rtotal_order x y) as [H|[H|H]]; [exfalso|exact H|exfalso].
  - pose proof (area_mach_increasing gamma x y Hg Hx H). lra.
  - pose proof (area_mach_increasing gamma y x Hg Hy H). lra.
Qed.

(** X7: the supersonic root is unique, so the two solvers agree.  With a
    root finder that returns exact roots inside its bracket, whenever the
    solver of DES-001 (bracket [1.01, 10]) and the one of VER-001 (bracket
    [1.01, 50]) both return for the same area ratio and specific-heat ratio
    above 1, they return the same Mach number; and the solver of DES-001
    inverts the area-Mach relation. *)
Theorem solvers_agree (brentq : root_finder) (area_ratio gamma M1 M2 : R) :
  brentq_bracket_contract brentq -> brentq_root_contract brentq ->
  1 < gamma ->
  DES001.exit_mach_from_area_ratio brentq area_ratio gamma = Ok M1 ->
  VER001.solve_exit_mach_number brentq area_ratio gamma = Ok M2 ->
  M1 = M2 /\
  1 / M1
  * Rpower (2 / (gamma + 1) * (1 + (gamma - 1) / 2 * M1 ^ 2))
      ((gamma + 1) / (2 * (gamma - 1)))
  = area_ratio.
Proof.
  intros Hb Hr Hg H1 H2.
  pose proof (exit_mach_bracket _ _ _ _ Hb H1) as B1.
  pose proof (solve_exit_mach_bracket _ _ _ _ Hb H2) as B2.
  pose proof (exit_mach_is_root _ _ _ _ Hb Hr Hg H1) as R1.
  pose proof (solve_exit_mach_is_root _ _ _ _ Hb Hr Hg H2) as R2.
  split; [|exact R1].
  apply (area_mach_injective gamma); try lra.
Qed.

Lemma solvers_agree_witness :
  exists M,
    DES001.exit_mach_from_area_ratio brentq_exact 100.0 1.28 = Ok M /\
    VER001.solve_exit_mach_number brentq_exact 100.0 1.28 = Ok M.
Proof.
  pose proof area_mach_design_bracket as [HB1 HB2].
  destruct (exit_mach_exact_returns 100.0 1.28) as [M1 H1]; [lra|lra|].
  destruct (solve_exit_mach_exact_returns 100.0 1.28) as [M2 H2]; [lra| |].
  - split; [lra|].
    pose proof (area_mach_increasing 1.28 10.0 50.0 ltac:(lra) ltac:(lra)
                  ltac:(lra)).
    lra.
  - destruct (solvers_agree brentq_exact 100.0 1.28 M1 M2
                brentq_exact_bracket brentq_exact_root ltac:(lra) H1 H2)
      as [E _].
    exists M1. split; [exact H1|]. rewrite E. exact H2.
Defined.

(** X8: the area ratios the solver of DES-001 accepts.  With [A] the
    area-Mach function, an area ratio below [A 1.01] or above [A 10] makes
    the residuals at the two ends of the bracket agree in sign, and the
    solver raises [ValueError]; conversely a returned exact root exists only
    for an area ratio between [A 1.01] and [A 10].  The same holds for
    VER-001 with [A 50], so an area ratio between [A 10] and [A 50] is
    rejected by DES-001 and not by the sign test of VER-001. *)
Theorem solvable_area_ratios (brentq : root_finder) (gamma area_ratio : R) :
  brentq_sign_contract brentq -> brentq_bracket_contract brentq ->
  brentq_root_contract brentq ->
  1 < gamma ->
  (area_ratio < area_mach gamma 1.01 \/ area_mach gamma 10.0 < area_ratio ->
   DES001.exit_mach_from_area_ratio brentq area_ratio gamma
   = Raise ValueError) /\
  (area_ratio < area_mach gamma 1.01 \/ area_mach gamma 50.0 < area_ratio ->
   VER001.solve_exit_mach_number brentq area_ratio gamma = Raise ValueError) /\
  (returns (DES001.exit_mach_from_area_ratio brentq area_ratio gamma) ->
   area_mach gamma 1.01 <= area_ratio <= area_mach gamma 10.0) /\
  (returns (VER001.solve_exit_mach_number brentq area_ratio gamma) ->
   area_mach gamma 1.01 <= area_ratio <= area_mach gamma 50.0) /\
  1 < area_mach gamma 1.01 /\
  area_mach gamma 1.01 < area_mach gamma 10.0 /\
  area_mach gamma 10.0 < area_mach gamma 50.0.
Proof.
  intros Hs Hb Hr Hg.
  pose proof (area_mach_gt_1 gamma 1.01 Hg ltac:(lra)) as A1.
  pose proof (area_mach_increasing gamma 1.01 10.0 Hg ltac:(lra) ltac:(lra))
    as A2.
  pose proof (area_mach_increasing gamma 10.0 50.0 Hg ltac:(lra) ltac:(lra))
    as A3.
  split; [|split; [|split; [|split]]].
  - intros H.
    apply (Hs _ _ _ (area_mach gamma 1.01 - area_ratio)
                    (area_mach gamma 10.0 - area_ratio)).
    + apply area_ratio_eq_ok; lra.
    + apply area_ratio_eq_ok; lra.
    + destruct H as [H|H]; nra.
  - intros H.
    apply (Hs _ _ _ (area_mach gamma 1.01 - area_ratio)
                    (area_mach gamma 50.0 - area_ratio)).
    + apply area_ratio_residual_ok; lra.
    + apply area_ratio_residual_ok; lra.
    + destruct H as [H|H]; nra.
  - intros [M H].
    pose proof (exit_mach_bracket _ _ _ _ Hb H) as [B1 B2].
    pose proof (exit_mach_is_root _ _ _ _ Hb Hr Hg H) as <-.
    split.
    + destruct B1 as [B1 | <-]; [|lra].
      left. apply area_mach_increasing; lra.
    + destruct B2 as [B2 | ->]; [|lra].
      left. apply area_mach_increasing; lra.
  - intros [M H].
    pose proof (solve_exit_mach_bracket _ _ _ _ Hb H) as [B1 B2].
    pose proof (solve_exit_mach_is_root _ _ _ _ Hb Hr Hg H) as <-.
    split.
    + destruct B1 as [B1 | <-]; [|lra].
      left. apply area_mach_increasing; lra.
    + destruct B2 as [B2 | ->]; [|lra].
      left. apply area_mach_increasing; lra.
  - repeat split; assumption.
Qed.

Lemma solvable_area_ratios_witness :
  DES001.exit_mach_from_area_ratio brentq_exact 1 1.28 = Raise ValueError /\
  area_mach 1.28 1.01 <= 100 <= area_mach 1.28 10.0.
Proof.
  destruct (solvable_area_ratios brentq_exact 1.28 1
              brentq_exact_sign brentq_exact_bracket brentq_exact_root
              ltac:(lra)) as (H1 & _ & _ & _ & H5 & _).
  destruct (solvable_area_ratios brentq_exact 1.28 100
              brentq_exact_sign brentq_exact_bracket brentq_exact_root
              ltac:(lra)) as (_ & _ & H3 & _).
  split.
  - apply H1. left. exact H5.
  - apply H3. apply exit_mach_exact_returns; [lra|].
    pose proof area_mach_design_bracket. lra.
Defined.

(** ** The gas model in the dissociation degree *)

(** X9: more dissociation gives a lighter gas.  For two dissociation
    degrees [0 <= a1 < a2 <= 1] the mean molecular weight at [a2] is strictly
    below the one at [a1] and the specific gas constant strictly above; the
    mean molecular weight stays between 0.016023 kg/mol (at 1) and
    0.0240345 kg/mol (at 0). *)
Theorem gas_lightens_with_dissociation (a1 a2 : R) :
  0 <= a1 -> a1 < a2 -> a2 <= 1 ->
  exists M1 R1 M2 R2,
    DES001.compute_gas_properties a1 = Ok (M1, R1) /\
    DES001.compute_gas_properties a2 = Ok (M2, R2) /\
    M2 < M1 /\ R1 < R2 /\
    0.016023 <= M2 /\ M1 <= 0.0240345.
Proof.
  intros H0 H12 H1.
  rewrite !compute_gas_properties_ok by lra.
  eexists _, _, _, _. split; [reflexivity|]. split; [reflexivity|].
  set (n1 := 4 / 3 + 2 / 3 * a1). set (n2 := 4 / 3 + 2 / 3 * a2).
  assert (Hn1 : 4 / 3 <= n1) by (unfold n1; lra).
  assert (Hn12 : n1 < n2) by (unfold n1, n2; lra).
  assert (Hn2 : n2 <= 2) by (unfold n2; lra).
  assert (Hi : / n2 < / n1) by (apply Rinv_lt_contravar; nra).
  assert (Hi1 : / n1 <= / (4 / 3)) by (apply Rinv_le_contravar; lra).
  assert (Hi2 : / 2 <= / n2) by (apply Rinv_le_contravar; lra).
  assert (E43 : / (4 / 3) = 3 / 4) by (field; lra).
  assert (HM1 : 0 < 32.046 / n1 / 1000.0)
    by (apply Rdiv_lt_0_compat; [apply Rdiv_lt_0_compat|]; lra).
  assert (HM2 : 0 < 32.046 / n2 / 1000.0)
    by (apply Rdiv_lt_0_compat; [apply Rdiv_lt_0_compat|]; lra).
  assert (HM : 32.046 / n2 / 1000.0 < 32.046 / n1 / 1000.0)
    by (unfold Rdiv; nra).
  split; [exact HM|]. split; [|split].
  - unfold Rdiv at 1 3. apply Rmult_lt_compat_l;
      [unfold DES001.R_UNIVERSAL; lra|].
    apply Rinv_lt_contravar; [now apply Rmult_lt_0_compat|exact HM].
  - unfold Rdiv. nra.
  - unfold Rdiv. nra.
Qed.

Lemma gas_lightens_with_dissociation_witness :
  exists M1 R1 M2 R2,
    DES001.compute_gas_properties 0.4 = Ok (M1, R1) /\
    DES001.compute_gas_properties 0.6 = Ok (M2, R2) /\
    M2 < M1 /\ R1 < R2.
Proof.
  destruct (gas_lightens_with_dissociation 0.4 0.6)
    as (M1 & R1 & M2 & R2 & E1 & E2 & HM & HR & _); try lra.
  exists M1, R1, M2, R2. repeat split; assumption.
Defined.

(** ** Margins of DES-001 *)

Lemma band_margin_bound lo hi c :
  0 < lo <= hi ->
  fst (DES001.evaluate_requirement (DES001.Range lo hi c))
  <= (hi - lo) / (hi + lo) * 100.
Proof.
  intros [Hlo Hhi]. cbn [DES001.evaluate_requirement fst].
  rewrite pymin_Rmin.
  set (a := (c - lo) / lo * 100). set (b := (hi - c) / hi * 100).
  assert (E : lo * a + hi * b = (hi - lo) * 100)
    by (unfold a, b; field; lra).
  assert (Hm : Rmin a b * (lo + hi) <= lo * a + hi * b).
  { pose proof (Rmin_l a b). pose proof (Rmin_r a b). nra. }
  apply Rmult_le_reg_r with (hi + lo); [lra|].
  replace ((hi - lo) / (hi + lo) * 100 * (hi + lo)) with ((hi - lo) * 100)
    by (field; lra).
  lra.
Qed.

(** X10: the margin of a band requirement is bounded by the band.  For a
    band [lo, hi] with [0 < lo <= hi] the reported margin never exceeds
    [(hi - lo) / (hi + lo) * 100], whatever the computed value; for the
    thrust band [0.95, 1.05] this is 5, so the "margin < 10%" warning of
    [main] names REQ-001 for every computed thrust and specific impulse. *)
Theorem band_margin_always_warns (lo hi c thrust_actual Isp : R) :
  0 < lo <= hi ->
  fst (DES001.evaluate_requirement (DES001.Range lo hi c))
  <= (hi - lo) / (hi + lo) * 100 /\
  fst (DES001.evaluate_requirement (DES001.Range 0.95 1.05 thrust_actual)) <= 5 /\
  In "REQ-001"%string
    (DES001.margin_warnings
       (snd (DES001.check_requirements
               (DES001.requirements thrust_actual Isp)))).
Proof.
  intros Hb. split; [now apply band_margin_bound|].
  assert (H5 : fst (DES001.evaluate_requirement
                      (DES001.Range 0.95 1.05 thrust_actual)) <= 5).
  { eapply Rle_trans; [apply band_margin_bound; lra|]. lra. }
  split; [exact H5|].
  unfold DES001.requirements, DES001.check_requirements, DES001.margin_warnings.
  cbn [fold_left DES001.evaluate_requirement DES001.dict_set
       String.eqb Ascii.eqb Bool.eqb snd filter].
  cbn [DES001.evaluate_requirement fst] in H5.
  destruct (Rlt_dec _ 10) as [_|Hn]; [|exfalso; lra].
  cbn [map fst]. now left.
Qed.

Lemma band_margin_always_warns_witness :
  fst (DES001.evaluate_requirement (DES001.Range 0.95 1.05 0.9975)) <= 5 /\
  In "REQ-001"%string
    (DES001.margin_warnings
       (snd (DES001.check_requirements (DES001.requirements 0.9975 224.1)))).
Proof.
  destruct (band_margin_always_warns 0.95 1.05 0.9975 0.9975 224.1)
    as (_ & H & Hw); [lra|].
  split; assumption.
Defined.

(** ** The sizing of VER-001 *)

Lemma size_nominal_relations brentq inputs s :
  VER001.size_nominal brentq inputs = Ok s ->
  VER001.Pc_nominal s
  = VER001.chamber_pressure_ratio inputs
    * (VER001.feed_pressure_nominal_MPa inputs * 1e6) /\
  VER001.gamma s
  = VER001.compute_specific_heat_ratio
      (VER001.alpha_ammonia_dissociation inputs) /\
  VER001.compute_mean_molecular_weight (VER001.alpha_ammonia_dissociation inputs)
  = Ok (VER001.M_bar s) /\
  VER001.compute_characteristic_velocity (VER001.chamber_temperature_K inputs)
    (VER001.gamma s) (VER001.M_bar s) = Ok (VER001.c_star s) /\
  VER001.compute_throat_area brentq (VER001.Pc_nominal s) 1.0 (VER001.c_star s)
    (VER001.expansion_ratio inputs) (VER001.gamma s)
    (VER001.chamber_temperature_K inputs) (VER001.M_bar s)
    (VER001.nozzle_efficiency inputs) = Ok (VER001.At s) /\
  VER001.compute_nozzle_flow_properties brentq
    (VER001.chamber_temperature_K inputs) (VER001.Pc_nominal s)
    (VER001.expansion_ratio inputs) (VER001.gamma s) (VER001.M_bar s)
  = Ok (VER001.flow_props s) /\
  VER001.Ae s = VER001.expansion_ratio inputs * VER001.At s /\
  VER001.mdot_nominal s
  = VER001.compute_mass_flow_rate (VER001.Pc_nominal s) (VER001.At s)
      (VER001.c_star s) /\
  VER001.Ve_actual s
  = VER001.exit_velocity_m_s (VER001.flow_props s)
    * VER001.nozzle_efficiency inputs /\
  VER001.F_nominal s
  = VER001.compute_thrust_vacuum (VER001.mdot_nominal s) (VER001.Ve_actual s)
      (VER001.exit_pressure_Pa (VER001.flow_props s)) (VER001.Ae s) /\
  VER001.Isp_nominal s
  = VER001.compute_specific_impulse (VER001.F_nominal s) (VER001.mdot_nominal s).
Proof.
  unfold VER001.size_nominal. intros H.
  apply bind_ok in H as [M_bar [HM H]].
  apply bind_ok in H as [c_star [Hc H]].
  apply bind_ok in H as [At [HA H]].
  apply bind_ok in H as [flow [Hf H]].
  injection H as <-.
  cbn [VER001.M_bar VER001.gamma VER001.c_star VER001.Pc_nominal VER001.At
       VER001.Ae VER001.mdot_nominal VER001.flow_props VER001.Ve_actual
       VER001.F_nominal VER001.Isp_nominal].
  repeat split; assumption.
Qed.

(** Facts on a returned sizing of VER-001 with positive inputs. *)
Lemma size_nominal_facts brentq inputs s :
  brentq_bracket_contract brentq ->
  0 <= VER001.alpha_ammonia_dissociation inputs <= 1 ->
  0 < VER001.chamber_pressure_ratio inputs ->
  0 < VER001.feed_pressure_nominal_MPa inputs ->
  0 < VER001.chamber_temperature_K inputs ->
  1 < VER001.expansion_ratio inputs ->
  0 < VER001.nozzle_efficiency inputs <= 1 ->
  VER001.size_nominal brentq inputs = Ok s ->
  1 < VER001.gamma s /\ 0 < VER001.M_bar s /\ 0 < VER001.c_star s /\
  0 < VER001.Pc_nominal s /\ 0 < VER001.At s /\
  VER001.F_nominal s = 1.0.
Proof.
  intros Hb Ha Hr Hf HT He Hn H.
  destruct (size_nominal_relations _ _ _ H)
    as (EP & Eg & HM & Hc & HA & Hfl & EAe & Em & EV & EF & _).
  assert (Hg : 1 < VER001.gamma s)
    by (rewrite Eg; unfold VER001.compute_specific_heat_ratio; lra).
  rewrite compute_mean_molecular_weight_ok in HM by lra.
  injection HM as HM.
  pose proof (mean_weight_pos (VER001.alpha_ammonia_dissociation inputs)
                ltac:(lra)) as HMw.
  rewrite HM in HMw.
  pose proof (compute_characteristic_velocity_pos _ _ _ _ Hg HMw HT Hc) as Hcs.
  assert (HPc : 0 < VER001.Pc_nominal s).
  { rewrite EP. apply Rmult_lt_0_compat; [assumption|lra]. }
  pose proof (compute_throat_area_reproduces_target brentq _ 1.0 _ _ _ _ _ _ _ _
                Hb Hg HPc Hcs He HT HMw Hn HA Hfl) as HF.
  rewrite <- EAe, <- Em, <- EV, <- EF in HF.
  repeat split; try assumption.
  unfold VER001.compute_throat_area in HA.
  apply bind_ok in HA as [Me [HMe HA]].
  rewrite Hfl in HA. cbn [bind] in HA. injection HA as <-.
  apply compute_nozzle_flow_properties_inv in Hfl; [|assumption].
  destruct Hfl as (_ & HMe' & _ & _ & EPe & EVe).
  pose proof (solve_exit_mach_bracket _ _ _ _ Hb HMe') as HB.
  apply Rdiv_lt_0_compat; [lra|].
  apply thrust_denominator_pos; try lra.
  - rewrite EVe. apply Rmult_le_pos; [|lra].
    apply Rmult_le_pos; [lra|apply sqrt_pos].
  - rewrite EPe. apply Rmult_lt_0_compat; [lra|apply exp_pos].
Qed.

(** X12: the thrust cross-check cannot flag.  Both scripts size the throat
    so that the thrust is exactly the target, each with its own
    specific-heat ratio.  So for valid inputs and the target thrust 1.0 the
    nominal thrust of VER-001 is 1.0, its REQ-001 record reports PASS with
    margin 0, and the comparison with a returned DES-001 sizing reports a
    thrust delta of 0 and no flag; only the specific impulse can disagree. *)
Theorem thrust_cross_check_is_vacuous (brentq : root_finder)
    (inputs : VER001.design_inputs) (k : DES001.DesignConstants)
    (s : VER001.sizing) (res : DES001.computed_results) :
  brentq_bracket_contract brentq ->
  0 <= VER001.alpha_ammonia_dissociation inputs <= 1 ->
  0 < VER001.chamber_pressure_ratio inputs ->
  0 < VER001.feed_pressure_nominal_MPa inputs ->
  0 < VER001.chamber_temperature_K inputs ->
  1 < VER001.expansion_ratio inputs ->
  0 < VER001.nozzle_efficiency inputs <= 1 ->
  valid_design k -> DES001.target_thrust k = 1.0 ->
  VER001.size_nominal brentq inputs = Ok s ->
  DES001.size_thruster brentq k = Ok res ->
  VER001.F_nominal s = 1.0 /\
  DES001.thrust_N res = 1.0 /\
  VER001.req_001_status (VER001.req_001_result (VER001.F_nominal s))
  = VER001.PASS /\
  VER001.req_001_margin_percent (VER001.req_001_result (VER001.F_nominal s))
  = Some 0 /\
  exists c,
    VER001.compare_with_agent2 (Some res) (VER001.F_nominal s)
      (VER001.Isp_nominal s) = Some c /\
    VER001.thrust_delta_percent c = 0 /\
    VER001.thrust_flag c = false.
Proof.
  intros Hb Ha Hr Hf HTc He Hn Hv Hk Hs Hres.
  assert (HF : VER001.F_nominal s = 1.0)
    by (apply (size_nominal_facts brentq inputs s Hb); assumption).
  pose proof (size_thruster_reproduces_target _ _ _ Hb Hv Hres) as HT.
  rewrite Hk in HT.
  destruct (ver_requirement_records (VER001.F_nominal s) 0) as (H1 & H2 & _).
  split; [exact HF|]. split; [exact HT|]. split; [|split].
  - apply H1. rewrite HF. lra.
  - rewrite H2 by (rewrite HF; lra). f_equal. rewrite HF. lra.
  - destruct (compare_with_agent2_some res (VER001.F_nominal s)
                (VER001.Isp_nominal s))
      as (c & E & _ & _ & _ & _ & Hd & _ & Hfl & _).
    exists c. split; [exact E|].
    assert (H0 : VER001.thrust_delta_percent c = 0).
    { rewrite Hd, HF, HT. rewrite Rminus_diag, Rabs_R0. lra. }
    split; [exact H0|].
    destruct (VER001.thrust_flag c); [|reflexivity].
    assert (VER001.thrust_delta_percent c > 5.0) by (now apply Hfl). lra.
Qed.

Lemma thrust_cross_check_is_vacuous_witness :
  exists s res c,
    VER001.size_nominal brentq_exact VER001.DESIGN_INPUTS = Ok s /\
    DES001.size_thruster brentq_exact DES001.DESIGN = Ok res /\
    VER001.compare_with_agent2 (Some res) (VER001.F_nominal s)
      (VER001.Isp_nominal s) = Some c /\
    VER001.thrust_delta_percent c = 0.
Proof.
  destruct design_point_returns as [[res Hres] [s Hs]].
  destruct (thrust_cross_check_is_vacuous brentq_exact VER001.DESIGN_INPUTS
              DES001.DESIGN s res brentq_exact_bracket)
    as (_ & _ & _ & _ & c & E & H0 & _);
    try exact Hs; try exact Hres; try exact DESIGN_valid;
    try (cbn [VER001.alpha_ammonia_dissociation VER001.chamber_pressure_ratio
              VER001.feed_pressure_nominal_MPa VER001.chamber_temperature_K
              VER001.expansion_ratio VER001.nozzle_efficiency
              VER001.DESIGN_INPUTS]; lra).
  - reflexivity.
  - exists s, res, c. repeat split; assumption.
Defined.

(** ** The pressure sweep of VER-001 *)

Lemma pressure_sweep_loop_spec brentq ratio Tc area_ratio gamma M_bar At Ae
    c_star eta Me :
  1 < gamma -> M_bar <> 0 ->
  VER001.solve_exit_mach_number brentq area_ratio gamma = Ok Me ->
  let Te := Tc / isentropic_factor gamma Me in
  let rho := Rpower (isentropic_factor gamma Me) (- gamma / (gamma - 1)) in
  let V := Me * sqrt (gamma * (VER001.R_universal / M_bar * 1000.0) * Te) in
  let F := fun Pc =>
    VER001.compute_thrust_vacuum (VER001.compute_mass_flow_rate Pc At c_star)
      (V * eta) (Pc * rho) Ae in
  forall feed results,
  exists r,
    VER001.pressure_sweep_loop brentq ratio Tc area_ratio gamma M_bar At Ae
      c_star eta feed results = Ok r /\
    VER001.sweep_feed_pressure_MPa r
    = VER001.sweep_feed_pressure_MPa results ++ feed /\
    VER001.sweep_chamber_pressure_MPa r
    = VER001.sweep_chamber_pressure_MPa results
      ++ map (fun Pf => ratio * (Pf * 1e6) / 1e6) feed /\
    VER001.sweep_thrust_N r
    = VER001.sweep_thrust_N results
      ++ map (fun Pf => F (ratio * (Pf * 1e6))) feed /\
    VER001.sweep_Isp_s r
    = VER001.sweep_Isp_s results
      ++ map (fun Pf =>
                VER001.compute_specific_impulse (F (ratio * (Pf * 1e6)))
                  (VER001.compute_mass_flow_rate (ratio * (Pf * 1e6)) At
                     c_star)) feed /\
    VER001.sweep_mass_flow_rate_kg_s r
    = VER001.sweep_mass_flow_rate_kg_s results
      ++ map (fun Pf =>
                VER001.compute_mass_flow_rate (ratio * (Pf * 1e6)) At c_star)
           feed /\
    VER001.sweep_exit_velocity_m_s r
    = VER001.sweep_exit_velocity_m_s results ++ map (fun _ => V * eta) feed /\
    VER001.sweep_exit_pressure_Pa r
    = VER001.sweep_exit_pressure_Pa results
      ++ map (fun Pf => ratio * (Pf * 1e6) * rho) feed /\
    VER001.sweep_exit_temperature_K r
    = VER001.sweep_exit_temperature_K results ++ map (fun _ => Te) feed.
Proof.
  intros Hg HM HMe Te rho V F feed.
  induction feed as [|Pf rest IH]; intros results.
  - exists results. cbn [VER001.pressure_sweep_loop map].
    rewrite !app_nil_r. repeat split; reflexivity.
  - cbn [VER001.pressure_sweep_loop].
    destruct (compute_nozzle_flow_properties_ok brentq Tc (ratio * (Pf * 1e6))
                area_ratio gamma M_bar Me Hg HM HMe) as [flow Hflow].
    rewrite Hflow. cbn [bind].
    apply compute_nozzle_flow_properties_inv in Hflow; [|assumption].
    destruct Hflow as (_ & HMe' & ER & ET & EP & EV).
    rewrite HMe in HMe'. injection HMe' as HMe'.
    rewrite ET, ER, <- HMe' in EV. rewrite <- HMe' in ET, EP.
    fold Te in ET, EV. fold rho in EP. fold V in EV.
    rewrite EV, EP, ET.
    match goal with
    | |- exists r, VER001.pressure_sweep_loop _ _ _ _ _ _ _ _ _ _ _ ?st = _ /\ _ =>
        destruct (IH st) as (r & Hr & H1 & H2 & H3 & H4 & H5 & H6 & H7 & H8)
    end.
    exists r. split; [exact Hr|].
    cbn [VER001.sweep_feed_pressure_MPa VER001.sweep_chamber_pressure_MPa
         VER001.sweep_thrust_N VER001.sweep_Isp_s
         VER001.sweep_mass_flow_rate_kg_s VER001.sweep_exit_velocity_m_s
         VER001.sweep_exit_pressure_Pa VER001.sweep_exit_temperature_K]
      in H1, H2, H3, H4, H5, H6, H7, H8.
    rewrite H1, H2, H3, H4, H5, H6, H7, H8.
    cbn [map]. rewrite <- !app_assoc. cbn [app].
    repeat split; reflexivity.
Qed.

(** X13: the pressure sweep of VER-001.  With the throat sized in STEP 1,
    the sweep over the 100 feed pressures from 0.15 to 0.30 MPa returns
    whenever the sizing did; at each feed pressure the thrust and the mass
    flow are the nominal ones scaled by the ratio of the feed pressure to the
    nominal feed pressure, and the specific impulse is the nominal one at
    every pressure. *)
Theorem pressure_sweep_scaling (brentq : root_finder)
    (inputs : VER001.design_inputs) (s : VER001.sizing) :
  brentq_bracket_contract brentq ->
  0 <= VER001.alpha_ammonia_dissociation inputs <= 1 ->
  0 < VER001.chamber_pressure_ratio inputs ->
  0 < VER001.feed_pressure_nominal_MPa inputs ->
  0 < VER001.chamber_temperature_K inputs ->
  1 < VER001.expansion_ratio inputs ->
  0 < VER001.nozzle_efficiency inputs <= 1 ->
  VER001.size_nominal brentq inputs = Ok s ->
  exists r,
    VER001.pressure_sweep brentq inputs s = Ok r /\
    VER001.sweep_feed_pressure_MPa r = linspace 0.15 0.30 100 /\
    (forall i d, (i < 100)%nat ->
       nth i (VER001.sweep_feed_pressure_MPa r) d
       = 0.15 + INR i * ((0.30 - 0.15) / 99)) /\
    VER001.sweep_chamber_pressure_MPa r
    = map (fun Pf => VER001.chamber_pressure_ratio inputs * Pf)
        (linspace 0.15 0.30 100) /\
    VER001.sweep_thrust_N r
    = map (fun Pf =>
             Pf / VER001.feed_pressure_nominal_MPa inputs * VER001.F_nominal s)
        (linspace 0.15 0.30 100) /\
    VER001.sweep_mass_flow_rate_kg_s r
    = map (fun Pf =>
             Pf / VER001.feed_pressure_nominal_MPa inputs
             * VER001.mdot_nominal s)
        (linspace 0.15 0.30 100) /\
    VER001.sweep_Isp_s r
    = map (fun _ => VER001.Isp_nominal s) (linspace 0.15 0.30 100) /\
    VER001.F_nominal s = 1.0.
Proof.
  intros Hb Ha Hr Hf HT He Hn H.
  destruct (size_nominal_facts _ _ _ Hb Ha Hr Hf HT He Hn H)
    as (Hg & HMw & Hcs & HPc & HAt & HF).
  destruct (size_nominal_relations _ _ _ H)
    as (EP & _ & _ & _ & _ & Hfl & EAe & Em & EV & EF & EI).
  apply compute_nozzle_flow_properties_inv in Hfl; [|assumption].
  destruct Hfl as (_ & HMe & ER & ET & EPe & EVe).
  set (Me := VER001.exit_Mach (VER001.flow_props s)) in *.
  rewrite ER, ET in EVe.
  unfold VER001.pressure_sweep.
  destruct (pressure_sweep_loop_spec brentq
              (VER001.chamber_pressure_ratio inputs)
              (VER001.chamber_temperature_K inputs)
              (VER001.expansion_ratio inputs) (VER001.gamma s)
              (VER001.M_bar s) (VER001.At s) (VER001.Ae s) (VER001.c_star s)
              (VER001.nozzle_efficiency inputs) Me Hg ltac:(lra) HMe
              (linspace 0.15 0.30 100) VER001.sweep_empty)
    as (r & Hr' & H1 & H2 & H3 & H4 & H5 & _).
  cbn [VER001.sweep_empty VER001.sweep_feed_pressure_MPa
       VER001.sweep_chamber_pressure_MPa VER001.sweep_thrust_N
       VER001.sweep_Isp_s VER001.sweep_mass_flow_rate_kg_s app]
    in H1, H2, H3, H4, H5.
  rewrite <- EVe in H3, H4. rewrite <- EV in H3, H4.
  exists r. split; [exact Hr'|]. split; [exact H1|].
  assert (Hpos : forall Pf, In Pf (linspace 0.15 0.30 100) -> 0 < Pf).
  { intros Pf HIn. apply linspace_bounds in HIn; [lra|lia|lra]. }
  assert (E6 : 1e6 = 1000000) by lra.
  set (rho := Rpower (isentropic_factor (VER001.gamma s) Me)
                (- VER001.gamma s / (VER001.gamma s - 1))) in *.
  assert (EFn : VER001.F_nominal s
                = VER001.Pc_nominal s * VER001.At s / VER001.c_star s
                  * VER001.Ve_actual s
                  + VER001.Pc_nominal s * rho * VER001.Ae s).
  { rewrite EF, Em, EPe.
    unfold VER001.compute_thrust_vacuum, VER001.compute_mass_flow_rate.
    reflexivity. }
  assert (HFpos : VER001.F_nominal s <> 0) by (rewrite HF; lra).
  split; [|split; [|split; [|split; [|split]]]].
  - intros i d Hi. rewrite H1. rewrite linspace_nth by lia.
    replace (INR (100 - 1)) with 99 by (simpl; lra). reflexivity.
  - rewrite H2. apply map_ext. intros Pf. rewrite E6. field.
  - rewrite H3. apply map_ext_in. intros Pf HIn. apply Hpos in HIn.
    rewrite EFn, EP.
    unfold VER001.compute_thrust_vacuum, VER001.compute_mass_flow_rate.
    rewrite E6. field. lra.
  - rewrite H5. apply map_ext_in. intros Pf HIn. apply Hpos in HIn.
    rewrite Em, EP. unfold VER001.compute_mass_flow_rate.
    rewrite E6. field. lra.
  - rewrite H4. apply map_ext_in. intros Pf HIn. apply Hpos in HIn.
    rewrite EI, EFn, Em.
    unfold VER001.compute_specific_impulse, VER001.compute_thrust_vacuum,
      VER001.compute_mass_flow_rate.
    rewrite EP, E6. unfold VER001.g0.
    assert (Hg0 : 9.80665 <> 0) by lra.
    set (g := 9.80665) in *.
    field. repeat split; lra.
  - exact HF.
Qed.

Lemma pressure_sweep_scaling_witness :
  exists s r,
    VER001.size_nominal brentq_exact VER001.DESIGN_INPUTS = Ok s /\
    VER001.pressure_sweep brentq_exact VER001.DESIGN_INPUTS s = Ok r /\
    VER001.sweep_thrust_N r
    = map (fun Pf => Pf / 0.30 * VER001.F_nominal s) (linspace 0.15 0.30 100) /\
    VER001.F_nominal s = 1.0.
Proof.
  destruct design_point_returns as [_ [s Hs]].
  destruct (pressure_sweep_scaling brentq_exact VER001.DESIGN_INPUTS s
              brentq_exact_bracket)
    as (r & Hr & _ & _ & _ & HT & _ & _ & HF);
    try exact Hs;
    try (cbn [VER001.alpha_ammonia_dissociation VER001.chamber_pressure_ratio
              VER001.feed_pressure_nominal_MPa VER001.chamber_temperature_K
              VER001.expansion_ratio VER001.nozzle_efficiency
              VER001.DESIGN_INPUTS]; lra).
  exists s, r. split; [exact Hs|]. split; [exact Hr|].
  split; [exact HT|exact HF].
Defined.

(** ** The performance plot of DES-001 *)

Lemma last_cons_default (x : R) (l : list R) (d : R) :
  last (x :: l) d = last l x.
Proof.
  revert x d. induction l as [|y l IH]; intros x d; [reflexivity|].
  change (last (x :: y :: l) d) with (last (y :: l) d).
  now rewrite !IH.
Qed.

Lemma linspace_last start stop num d :
  (2 <= num)%nat -> last (linspace start stop num) d = stop.
Proof.
  intros Hn. unfold linspace.
  replace (1 <? num)%nat with true by (symmetry; apply Nat.ltb_lt; lia).
  apply last_last.
Qed.

Lemma performance_sweep_spec M_e R_specific c_star eps :
  0 <= M_e -> 0 < c_star -> 0 < eps ->
  let rho := Rpower (isentropic_factor 1.28 M_e) (- (1.28) / (1.28 - 1)) in
  let V :=
    M_e * sqrt (1.28 * R_specific * (1400.0 / isentropic_factor 1.28 M_e))
    * 0.035 in
  forall Pc_range thrust_sweep Isp_sweep Pc_MPa,
    (forall p, In p Pc_range -> 0 < p) ->
    DES001.performance_sweep M_e R_specific c_star eps Pc_range thrust_sweep
      Isp_sweep Pc_MPa
    = Ok (thrust_sweep ++ map (fun _ => 1.0) Pc_range,
          Isp_sweep ++ map (fun _ => (V + rho * eps * c_star) / DES001.G0)
                         Pc_range,
          last Pc_range Pc_MPa).
Proof.
  intros HM Hc He rho V Pc_range.
  assert (Hrho : 0 < rho) by apply exp_pos.
  assert (HV : 0 <= V).
  { unfold V. apply Rmult_le_pos; [|lra].
    apply Rmult_le_pos; [assumption|apply sqrt_pos]. }
  induction Pc_range as [|p rest IH]; intros tsw isw pc Hpos.
  - cbn [DES001.performance_sweep map last]. now rewrite !app_nil_r.
  - cbn [DES001.performance_sweep].
    rewrite compute_isentropic_expansion_ok by lra. cbn [bind].
    fold rho. fold V.
    assert (Hp : 0 < p * 1e6) by (specialize (Hpos p (or_introl eq_refl)); lra).
    assert (HD : 0 < p * 1e6 * V / c_star + p * 1e6 * rho * eps).
    { apply thrust_denominator_pos; try assumption.
      now apply Rmult_lt_0_compat. }
    rewrite (thrust_equation (p * 1e6) V c_star (p * 1e6 * rho) eps 1.0)
      by lra.
    pose proof (isp_closed_form (p * 1e6) V c_star rho eps 1.0 DES001.G0) as HI.
    rewrite (thrust_equation (p * 1e6) V c_star (p * 1e6 * rho) eps 1.0)
      in HI by lra.
    rewrite HI.
    + rewrite IH by (intros q Hq; apply Hpos; now right).
      rewrite last_cons_default. cbn [map].
      rewrite <- !app_assoc. reflexivity.
    + lra.
    + lra.
    + lra.
    + unfold DES001.G0. lra.
    + assert (0 < rho * eps * c_star) by (repeat apply Rmult_lt_0_compat; lra).
      lra.
Qed.

(** X14: what the performance plot shows.  The throat is sized again at
    each chamber pressure of the sweep, so whenever the exit-Mach solve
    returns, the plotted thrust curve is flat at 1.0 N and the plotted
    specific impulse is one value at all 100 pressures, the one of the
    sizing for the area ratio 100.  The loop variable is the parameter
    [Pc_MPa], so the "Design Pc" marker is drawn at the last pressure of the
    sweep, 0.25 MPa, whatever pressure was passed. *)
Theorem performance_plot_is_flat (brentq : root_finder)
    (Pc_MPa thrust_N Isp_s expansion_ratio M_e : R) :
  brentq_bracket_contract brentq ->
  0 < expansion_ratio ->
  DES001.exit_mach_from_area_ratio brentq expansion_ratio 1.28 = Ok M_e ->
  exists pd Isp0,
    DES001.generate_performance_plot brentq Pc_MPa thrust_N Isp_s
      expansion_ratio = Ok pd /\
    DES001.plot_Pc_range pd = linspace 0.07 0.25 100 /\
    DES001.plot_thrust_sweep pd
    = map (fun _ => 1.0) (linspace 0.07 0.25 100) /\
    DES001.plot_Isp_sweep pd = map (fun _ => Isp0) (linspace 0.07 0.25 100) /\
    DES001.plot_design_Pc_MPa pd = 0.25 /\
    DES001.plot_design_thrust_N pd = thrust_N /\
    DES001.plot_design_Isp_s pd = Isp_s /\
    (forall res,
       expansion_ratio = DES001.DESIGN_EXPANSION_RATIO ->
       DES001.size_thruster brentq DES001.DESIGN = Ok res ->
       Isp0 = DES001.specific_impulse_s res).
Proof.
  intros Hb He HM.
  pose proof (exit_mach_bracket _ _ _ _ Hb HM) as HB.
  unfold DES001.generate_performance_plot.
  rewrite compute_gas_properties_ok by lra. cbn [bind].
  rewrite compute_c_star_ok by lra. cbn [bind].
  rewrite HM. cbn [bind].
  set (R_s := DES001.R_UNIVERSAL / (32.046 / (4 / 3 + 2 / 3 * 0.5) / 1000.0)).
  set (c_star := sqrt (1.28 * R_s * 1400.0)
                 / (1.28 * Rpower (2 / (1.28 + 1))
                             ((1.28 + 1) / (1.28 - 1) / 2))).
  assert (HR : 0 < R_s).
  { unfold R_s, DES001.R_UNIVERSAL. apply Rdiv_lt_0_compat; [lra|].
    apply Rdiv_lt_0_compat; [|lra]. apply Rdiv_lt_0_compat; lra. }
  assert (Hc : 0 < c_star).
  { apply (compute_c_star_pos 1.28 R_s 1400.0); try lra.
    apply compute_c_star_ok. lra. }
  rewrite (performance_sweep_spec M_e R_s c_star expansion_ratio)
    by first [lra | intros p Hp; apply linspace_bounds in Hp; [lra|lia|lra]].
  cbn [bind app].
  eexists _, _. split; [reflexivity|].
  cbn [DES001.plot_Pc_range DES001.plot_thrust_sweep DES001.plot_Isp_sweep
       DES001.plot_design_Pc_MPa DES001.plot_design_thrust_N
       DES001.plot_design_Isp_s].
  do 3 (split; [reflexivity|]).
  split; [apply linspace_last; lia|].
  do 2 (split; [reflexivity|]).
  intros res -> Hres.
  pose proof (size_thruster_isp _ _ _ Hb DESIGN_valid Hres) as HI.
  destruct (size_thruster_inv _ _ _ (proj1 DESIGN_valid) Hres)
    as (M_bar & R' & c' & M' & Hgas & Hcs & HM' & Hr).
  cbv zeta in Hr. destruct Hr as (EM & _ & _ & EV & Ec & _).
  cbn [DES001.alpha DES001.gamma DES001.chamber_temperature_K
       DES001.expansion_ratio DES001.nozzle_efficiency DES001.DESIGN]
    in Hgas, Hcs, HM', EV, HI.
  unfold DES001.ALPHA, DES001.GAMMA, DES001.T_CHAMBER,
    DES001.NOZZLE_EFFICIENCY in Hgas, Hcs, HM', EV, HI.
  rewrite compute_gas_properties_ok in Hgas by lra.
  injection Hgas as _ HR'. fold R_s in HR'. subst R'.
  rewrite compute_c_star_ok in Hcs by lra. injection Hcs as Hc'.
  fold c_star in Hc'. subst c'.
  rewrite HM in HM'. injection HM' as <-.
  rewrite HI, EV, Ec, EM. reflexivity.
Qed.

Lemma performance_plot_is_flat_witness :
  exists pd,
    DES001.generate_performance_plot brentq_exact 0.21 1.0 224.1 100.0
    = Ok pd /\
    DES001.plot_thrust_sweep pd = map (fun _ => 1.0) (linspace 0.07 0.25 100) /\
    DES001.plot_design_Pc_MPa pd = 0.25.
Proof.
  destruct (exit_mach_exact_returns 100.0 1.28) as [M HM].
  - lra.
  - pose proof area_mach_design_bracket. lra.
  - destruct (performance_plot_is_flat brentq_exact 0.21 1.0 224.1 100.0 M
                brentq_exact_bracket ltac:(lra) HM)
      as (pd & Isp0 & E & _ & HT & _ & HP & _).
    exists pd. repeat split; assumption.
Defined.

(** ** The exit status of DES-001 *)

(** The plot computes with its own constants; on a positive area ratio its
    only step that can fail is the exit-Mach solve. *)
Lemma generate_performance_plot_runs brentq Pc_MPa thrust_N Isp_s eps :
  brentq_bracket_contract brentq -> 0 < eps ->
  match DES001.exit_mach_from_area_ratio brentq eps 1.28 with
  | Ok _ =>
      returns (DES001.generate_performance_plot brentq Pc_MPa thrust_N Isp_s
                 eps)
  | Raise e =>
      DES001.generate_performance_plot brentq Pc_MPa thrust_N Isp_s eps
      = Raise e
  end.
Proof.
  intros Hb He. unfold DES001.generate_performance_plot.
  rewrite compute_gas_properties_ok by lra. cbn [bind].
  rewrite compute_c_star_ok by lra. cbn [bind].
  destruct (DES001.exit_mach_from_area_ratio brentq eps 1.28) as [M_e|e]
    eqn:HM; cbn [bind]; [|reflexivity].
  pose proof (exit_mach_bracket _ _ _ _ Hb HM) as HB.
  set (R_s := DES001.R_UNIVERSAL / (32.046 / (4 / 3 + 2 / 3 * 0.5) / 1000.0)).
  set (c_star := sqrt (1.28 * R_s * 1400.0)
                 / (1.28 * Rpower (2 / (1.28 + 1))
                             ((1.28 + 1) / (1.28 - 1) / 2))).
  assert (HR : 0 < R_s).
  { unfold R_s, DES001.R_UNIVERSAL. apply Rdiv_lt_0_compat; [lra|].
    apply Rdiv_lt_0_compat; [|lra]. apply Rdiv_lt_0_compat; lra. }
  assert (Hc : 0 < c_star).
  { apply (compute_c_star_pos 1.28 R_s 1400.0); try lra.
    apply compute_c_star_ok. lra. }
  rewrite (performance_sweep_spec M_e R_s c_star eps)
    by first [lra | intros p Hp; apply linspace_bounds in Hp; [lra|lia|lra]].
  cbn [bind app]. eexists. reflexivity.
Qed.

(** X11: the exit status of DES-001.  On valid design constants whose target
    thrust lies inside the band, between 0.96 and 1.04, and with a sizing
    that returns: [main] ends with the performance plot, which solves for
    the exit Mach number once more with its own specific-heat ratio 1.28.
    When that solve raises, [main] raises the same exception in place of a
    verdict.  When it returns, [main] returns, the REQ-001 entry of its
    output reports the target thrust itself with status PASS, and the value
    [main] returns (its exit status) is [True] exactly when the specific
    impulse is at least 220.  With the specific-heat ratio 1.28 of the
    script the second solve repeats the first, so [main] returns. *)
Theorem main_exit_status (brentq : root_finder)
    (k : DES001.DesignConstants) (res : DES001.computed_results) :
  brentq_bracket_contract brentq -> valid_design k ->
  0.96 <= DES001.target_thrust k <= 1.04 ->
  DES001.size_thruster brentq k = Ok res ->
  match DES001.exit_mach_from_area_ratio brentq (DES001.expansion_ratio k)
          1.28 with
  | Ok _ =>
      exists out all_pass,
        DES001.main brentq k = Ok (out, all_pass) /\
        DES001.out_computed_results out = res /\
        DES001.computed (DES001.out_REQ_001 out) = DES001.target_thrust k /\
        DES001.compliance_status (DES001.out_REQ_001 out) = DES001.PASS /\
        (DES001.compliance_status (DES001.out_REQ_002 out) = DES001.PASS
         <-> DES001.specific_impulse_s res >= 220.0) /\
        (all_pass = true <-> DES001.specific_impulse_s res >= 220.0)
  | Raise e => DES001.main brentq k = Raise e
  end /\
  (DES001.gamma k = 1.28 -> returns (DES001.main brentq k)).
Proof.
  intros Hb Hv HF H.
  pose proof (size_thruster_reproduces_target _ _ _ Hb Hv H) as ET.
  assert (He : 0 < DES001.expansion_ratio k)
    by (destruct Hv as (_ & _ & _ & _ & He & _); lra).
  pose proof (generate_performance_plot_runs brentq
                (DES001.chamber_pressure_MPa k) (DES001.thrust_N res)
                (DES001.specific_impulse_s res) (DES001.expansion_ratio k)
                Hb He) as HP.
  assert (HOk : forall pd,
             DES001.generate_performance_plot brentq
               (DES001.chamber_pressure_MPa k) (DES001.thrust_N res)
               (DES001.specific_impulse_s res) (DES001.expansion_ratio k)
             = Ok pd ->
             exists out all_pass,
               DES001.main brentq k = Ok (out, all_pass) /\
               DES001.out_computed_results out = res /\
               DES001.computed (DES001.out_REQ_001 out)
               = DES001.target_thrust k /\
               DES001.compliance_status (DES001.out_REQ_001 out)
               = DES001.PASS /\
               (DES001.compliance_status (DES001.out_REQ_002 out)
                = DES001.PASS
                <-> DES001.specific_impulse_s res >= 220.0) /\
               (all_pass = true <-> DES001.specific_impulse_s res >= 220.0)).
  { intros pd Hpd. unfold DES001.main. rewrite H. cbn [bind]. cbv zeta.
    unfold DES001.requirements_compliance, DES001.requirements,
      DES001.check_requirements.
    cbn [fold_left DES001.evaluate_requirement DES001.dict_set
         DES001.dict_get String.eqb Ascii.eqb Bool.eqb bind].
    rewrite Hpd. cbn [bind].
    eexists _, _. split; [reflexivity|].
    cbn [DES001.out_computed_results DES001.out_REQ_001 DES001.out_REQ_002
         DES001.computed DES001.compliance_status].
    rewrite ET.
    destruct (Rle_dec 0.95 (DES001.target_thrust k)); [|lra].
    destruct (Rle_dec (DES001.target_thrust k) 1.05); [|lra].
    destruct (Rge_dec (DES001.specific_impulse_s res) 220.0);
      repeat split; try reflexivity; try discriminate; intros;
      try assumption; try contradiction. }
  split.
  - destruct (DES001.exit_mach_from_area_ratio brentq
                (DES001.expansion_ratio k) 1.28) as [M|e].
    + destruct HP as [pd Hpd]. exact (HOk pd Hpd).
    + unfold DES001.main. rewrite H. cbn [bind]. cbv zeta.
      unfold DES001.requirements_compliance, DES001.requirements,
        DES001.check_requirements.
      cbn [fold_left DES001.evaluate_requirement DES001.dict_set
           DES001.dict_get String.eqb Ascii.eqb Bool.eqb bind].
      rewrite HP. reflexivity.
  - intros Hg.
    destruct (size_thruster_inv _ _ _ (proj1 Hv) H)
      as (M_bar & R_s & c_star & M_e & _ & _ & HM & _).
    rewrite Hg in HM. rewrite HM in HP. destruct HP as [pd Hpd].
    destruct (HOk pd Hpd) as (out & all_pass & E & _).
    now exists (out, all_pass).
Qed.

Lemma main_exit_status_witness :
  exists out all_pass,
    DES001.main brentq_exact DES001.DESIGN = Ok (out, all_pass) /\
    DES001.compliance_status (DES001.out_REQ_001 out) = DES001.PASS.
Proof.
  destruct design_point_returns as [[res Hres] _].
  assert (HF : 0.96 <= DES001.target_thrust DES001.DESIGN <= 1.04)
    by (cbn [DES001.target_thrust DES001.DESIGN]; unfold DES001.TARGET_THRUST;
        lra).
  destruct (exit_mach_exact_returns 100.0 1.28) as [M HM].
  - lra.
  - pose proof area_mach_design_bracket. lra.
  - destruct (main_exit_status brentq_exact DES001.DESIGN res
                brentq_exact_bracket DESIGN_valid HF Hres) as [Hm _].
    cbn [DES001.expansion_ratio DES001.DESIGN] in Hm.
    unfold DES001.DESIGN_EXPANSION_RATIO in Hm. rewrite HM in Hm.
    destruct Hm as (out & all_pass & E & _ & _ & HP & _).
    exists out, all_pass. split; assumption.
Defined.

(** ** The exit state in the Mach number *)

(** X15: a faster exit is colder, thinner and quicker.  On valid chamber
    conditions, for two Mach numbers [0 <= M1 < M2] the exit temperature and
    the exit pressure at [M2] are strictly below those at [M1], and the ideal
    exit velocity is strictly above. *)
Theorem expansion_monotone_in_mach (M1 M2 P_c gamma R_s T_c : R) :
  0 <= M1 -> M1 < M2 -> 1 < gamma -> 0 < P_c -> 0 < R_s -> 0 < T_c ->
  exists P1 T1 V1 P2 T2 V2,
    DES001.compute_isentropic_expansion M1 P_c gamma R_s T_c
    = Ok (P1, T1, V1) /\
    DES001.compute_isentropic_expansion M2 P_c gamma R_s T_c
    = Ok (P2, T2, V2) /\
    T2 < T1 /\ P2 < P1 /\ V1 < V2.
Proof.
  intros H0 H12 Hg HP HR HT.
  rewrite !compute_isentropic_expansion_ok by assumption.
  eexists _, _, _, _, _, _. split; [reflexivity|]. split; [reflexivity|].
  pose proof (isentropic_factor_pos gamma M1 Hg) as Ht1.
  assert (Ht : isentropic_factor gamma M1 < isentropic_factor gamma M2).
  { unfold isentropic_factor. apply Rplus_lt_compat_l.
    apply Rmult_lt_compat_l; [lra|]. simpl. nra. }
  assert (HTlt : T_c / isentropic_factor gamma M2
                 < T_c / isentropic_factor gamma M1).
  { unfold Rdiv. apply Rmult_lt_compat_l; [assumption|].
    apply Rinv_lt_contravar; [apply Rmult_lt_0_compat; lra|exact Ht]. }
  split; [exact HTlt|]. split.
  - apply Rmult_lt_compat_l; [assumption|].
    apply pressure_ratio_decreasing; assumption.
  - pose proof (exit_velocity_square M1 gamma R_s T_c Hg HR HT) as E1.
    pose proof (exit_velocity_square M2 gamma R_s T_c Hg HR HT) as E2.
    set (V1 := M1 * sqrt (gamma * R_s * (T_c / isentropic_factor gamma M1)))
      in *.
    set (V2 := M2 * sqrt (gamma * R_s * (T_c / isentropic_factor gamma M2)))
      in *.
    assert (HV1 : 0 <= V1)
      by (apply Rmult_le_pos; [assumption|apply sqrt_pos]).
    assert (HV2 : 0 <= V2) by (apply Rmult_le_pos; [lra|apply sqrt_pos]).
    assert (Hk : 0 < 2 * gamma / (gamma - 1) * R_s).
    { apply Rmult_lt_0_compat; [|assumption]. apply Rdiv_lt_0_compat; lra. }
    assert (Hsq : V1 ^ 2 < V2 ^ 2) by (rewrite E1, E2; nra).
    destruct (Rlt_or_le V1 V2) as [H|H]; [exact H|exfalso].
    assert (V2 ^ 2 <= V1 ^ 2) by (simpl; nra). lra.
Qed.

Lemma expansion_monotone_in_mach_witness :
  exists P1 T1 V1 P2 T2 V2,
    DES001.compute_isentropic_expansion 2 175000 1.28 432 1400
    = Ok (P1, T1, V1) /\
    DES001.compute_isentropic_expansion 3 175000 1.28 432 1400
    = Ok (P2, T2, V2) /\
    T2 < T1 /\ P2 < P1 /\ V1 < V2.
Proof.
  apply (expansion_monotone_in_mach 2 3 175000 1.28 432 1400); lra.
Defined.
